(** * A workspace of files and its preview builds

    A shallow embedding of two Durable Objects and of the tools that
    drive them:

    - [ProjectManager] (src/project-manager.ts): the SQL metadata tables
      [projects] and [files] next to the R2 bucket [FILES] that holds the
      bytes of every file under the key [projectId/path];
    - [BuildRunner] (src/unnamed/part_000): the registry of builds and the
      asynchronous [executeBuild] pipeline, cut at its [await] points on
      the bucket so that a [cancelBuild] request can be delivered between
      two of them;
    - [CodeTools] (src/unnamed/part_002): the [moveFile] and [renameFile]
      tools, which combine bucket calls with requests to [ProjectManager].

    Conventions.  A JavaScript string is held as its UTF-8 encoding (a
    Rocq [string] is a sequence of bytes), so [TextEncoder.encode] is the
    identity on the representation and SQLite's BINARY collation is the
    byte-wise order [String.compare].  [crypto.randomUUID()] and
    [Date.now()] are inputs of the operation that calls them.  A log line
    [`[${new Date().toISOString()}] ${text}`] is kept as the pair of its
    clock reading and its text. *)

From Stdlib Require Import ZArith QArith String Ascii DecimalString List Bool.
From Stdlib Require Import Sorted Lia.
From stdpp Require Import gmap strings list.
Import ListNotations.
Set Warnings "-register-all".
Open Scope string_scope.
Open Scope list_scope.
Open Scope Z_scope.

(** ** JavaScript strings and arrays *)

Module JS.

Definition startsWith (s p : string) : bool := String.prefix p s.

Definition endsWith (s p : string) : bool :=
  let n := String.length s in
  let k := String.length p in
  (k <=? n)%nat && String.eqb (substring (n - k) k s) p.

Definition includes (s p : string) : bool :=
  match index 0 p s with Some _ => true | None => false end.

(** [s.split(sep)] for a non-empty [sep]: [skip] counts the bytes of a
    separator that was just recognised and is still to be dropped. *)
Fixpoint split_go (sep : string) (skip : nat) (s : string)
  : string * list string :=
  match s with
  | EmptyString => (EmptyString, [])
  | String c s' =>
      match skip with
      | S k => split_go sep k s'
      | O =>
          if String.prefix sep s
          then (EmptyString,
                let '(p, ps) := split_go sep (String.length sep - 1) s' in
                p :: ps)
          else let '(p, ps) := split_go sep 0 s' in (String c p, ps)
      end
  end.

Definition split (s sep : string) : list string :=
  let '(p, ps) := split_go sep 0 s in p :: ps.

(** [a.pop()] read as an expression: the last element, if any. *)
Definition pop (a : list string) : option string := last a.

(** [a.join(sep)] *)
Fixpoint join (a : list string) (sep : string) : string :=
  match a with
  | [] => ""
  | [x] => x
  | x :: rest => x +:+ sep +:+ join rest sep
  end.

(** [s.toLowerCase()] on the ASCII letters. *)
Definition lower (c : ascii) : ascii :=
  let n := nat_of_ascii c in
  if ((65 <=? n) && (n <=? 90))%nat then ascii_of_nat (n + 32) else c.

Fixpoint toLowerCase (s : string) : string :=
  match s with
  | EmptyString => EmptyString
  | String c s' => String (lower c) (toLowerCase s')
  end.

(** [s.length]: the number of UTF-16 code units of the text whose UTF-8
    encoding is [s].  A continuation byte adds nothing, the lead byte
    of a four-byte sequence stands for a surrogate pair. *)
Definition units (c : ascii) : nat :=
  let n := nat_of_ascii c in
  if (n <? 128)%nat then 1%nat
  else if (n <? 192)%nat then 0%nat
  else if (n <? 240)%nat then 1%nat
  else 2%nat.

Fixpoint length (s : string) : nat :=
  match s with
  | EmptyString => 0%nat
  | String c s' => (units c + length s')%nat
  end.

(** [new TextEncoder().encode(s)] *)
Definition TextEncoder_encode (s : string) : list Byte.byte :=
  list_byte_of_string s.

(** [String(n)] for a non-negative integer. *)
Definition of_nat (n : nat) : string :=
  NilEmpty.string_of_uint (Nat.to_uint n).

(** Stable insertion sort: what [ORDER BY] and a key-ordered listing
    return, [before a b] saying that [a] may stand in front of [b]. *)
Section Sort.
Context {A : Type} (before : A -> A -> bool).

Fixpoint insert_sorted (x : A) (l : list A) : list A :=
  match l with
  | [] => [x]
  | y :: l' => if before x y then x :: l else y :: insert_sorted x l'
  end.

Fixpoint sort (l : list A) : list A :=
  match l with
  | [] => []
  | x :: l' => insert_sorted x (sort l')
  end.
End Sort.

End JS.

(** ** The R2 bucket [env.FILES] *)

Module R2.

(** What a caller hands over as [httpMetadata.contentType]: a string,
    or the value that an object literal answers for a key that only
    [Object.prototype] has. *)
Inductive value :=
| Mime (type : string)
| Inherited (key : string).

(** An object: its body and the content type of its [httpMetadata], as
    it was given to [put]. *)
Record object := { body : string; contentType : option value }.

Definition put (key value : string) (meta : option R2.value)
    (b : gmap string object) : gmap string object :=
  <[key := {| body := value; contentType := meta |}]> b.

Definition get (key : string) (b : gmap string object) : option object :=
  b !! key.

Definition delete (key : string) (b : gmap string object)
  : gmap string object :=
  base.delete key b.

(** [list({ prefix })]: the keys under [prefix] in lexicographic order;
    one call returns at most 1000 of them and the callers here never
    follow the cursor. *)
Definition list_limit : nat := 1000.

Definition list (prefix : string) (b : gmap string object) : list string :=
  take list_limit
    (JS.sort String.leb
       (filter (fun k => JS.startsWith k prefix = true)
               (fst <$> map_to_list b))).

(** The number of keys under [prefix]. *)
Definition count (prefix : string) (b : gmap string object) : nat :=
  length (filter (fun k => JS.startsWith k prefix = true)
                 (fst <$> map_to_list b)).

End R2.


(** ** The Project Actor (src/project-manager.ts) *)

Module Project.
Record t := {
  id : string;
  name : string;
  description : option string;
  user_id : string;
  created_at : Z;
  updated_at : Z
}.

Definition touch (now : Z) (p : t) : t :=
  {| id := id p; name := name p; description := description p;
     user_id := user_id p; created_at := created_at p; updated_at := now |}.
End Project.

Inductive FileType := file | directory.

(** The value of the TEXT column [type]. *)
Definition type_text (t : FileType) : string :=
  match t with file => "file" | directory => "directory" end.

Module FileNode.
(** A row of the table [files]. *)
Record t := {
  id : string;
  project_id : string;
  path : string;
  name : string;
  type : FileType;
  parent_path : option string;
  size : Z;
  created_at : Z;
  updated_at : Z
}.

Definition resize (sz now : Z) (f : t) : t :=
  {| id := id f; project_id := project_id f; path := path f;
     name := name f; type := type f; parent_path := parent_path f;
     size := sz; created_at := created_at f; updated_at := now |}.
End FileNode.

Module FileData.
(** The body of a create request: the fields of [FileNode] that
    [createFile] reads; [size] and [content] may be left out. *)
Record t := {
  path : string;
  name : string;
  type : FileType;
  parent_path : option string;
  size : option Z;
  content : option string
}.
End FileData.

Module Response.
Inductive body :=
| Text (s : string)
| Error (message : string)
| OneProject (p : Project.t)
| Projects (ps : list Project.t)
| OneFile (f : FileNode.t)
| FileWithContent (f : FileNode.t) (content : string)
| Files (fs : list FileNode.t)
| ContentOnly (content : string)
| Success.

Record t := { status : Z; payload : body }.

(** [Response.json(b)] *)
Definition json (b : body) : t := {| status := 200; payload := b |}.
End Response.

(** [x || d] on an optional string: the empty string is falsy. *)
Definition string_or (x : option string) (d : option string) : option string :=
  match x with
  | Some s => if String.eqb s "" then d else Some s
  | None => d
  end.

Module ProjectManager.

(** The two SQL tables in row order, and the bucket. *)
Record state := {
  projects : list Project.t;
  files : list FileNode.t;
  FILES : gmap string R2.object
}.

Definition init : state := {| projects := []; files := []; FILES := ∅ |}.

(** What the promise of an async function does: it rejects with an
    error, or it resolves with a response. *)
Inductive outcome :=
| Throws (message : string)
| Returns (r : Response.t).

Definition r2Key (projectId filePath : string) : string :=
  projectId +:+ "/" +:+ filePath.

(** *** SQL statements *)

(** [SELECT * FROM projects WHERE id = ?] *)
Definition select_project (pid : string) (ps : list Project.t)
  : list Project.t :=
  filter (fun p => Project.id p = pid) ps.

(** [INSERT INTO projects ...]; [id] is the primary key. *)
Definition insert_project (p : Project.t) (ps : list Project.t)
  : string + list Project.t :=
  match select_project (Project.id p) ps with
  | [] => inr (ps ++ [p])
  | _ :: _ => inl "UNIQUE constraint failed: projects.id"
  end.

(** [UPDATE projects SET updated_at = ? WHERE id = ?] *)
Definition touch_project (now : Z) (pid : string) (ps : list Project.t)
  : list Project.t :=
  (fun p => if decide (Project.id p = pid) then Project.touch now p else p)
    <$> ps.

(** [SELECT * FROM files WHERE project_id = ? AND path = ?] *)
Definition select_file (pid filePath : string) (fs : list FileNode.t)
  : list FileNode.t :=
  filter (fun f => FileNode.project_id f = pid ∧ FileNode.path f = filePath)
         fs.

(** [SELECT * FROM files WHERE id = ?] *)
Definition select_file_by_id (fid : string) (fs : list FileNode.t)
  : list FileNode.t :=
  filter (fun f => FileNode.id f = fid) fs.

(** [INSERT INTO files ...] under [id TEXT PRIMARY KEY] and
    [UNIQUE(project_id, path)]. *)
Definition insert_file (f : FileNode.t) (fs : list FileNode.t)
  : string + list FileNode.t :=
  match select_file_by_id (FileNode.id f) fs with
  | _ :: _ => inl "UNIQUE constraint failed: files.id"
  | [] =>
      match select_file (FileNode.project_id f) (FileNode.path f) fs with
      | _ :: _ => inl "UNIQUE constraint failed: files.project_id, files.path"
      | [] => inr (fs ++ [f])
      end
  end.

(** [UPDATE files SET size = ?, updated_at = ? WHERE id = ?] *)
Definition update_file (sz now : Z) (fid : string) (fs : list FileNode.t)
  : list FileNode.t :=
  (fun f => if decide (FileNode.id f = fid) then FileNode.resize sz now f
            else f) <$> fs.

(** [DELETE FROM files WHERE id = ?] *)
Definition delete_file (fid : string) (fs : list FileNode.t)
  : list FileNode.t :=
  filter (fun f => FileNode.id f ≠ fid) fs.

(** [ORDER BY updated_at DESC] *)
Definition by_updated_desc (a b : Project.t) : bool :=
  Project.updated_at b <=? Project.updated_at a.

(** [ORDER BY type DESC, name ASC], both under the BINARY collation. *)
Definition by_type_desc_name_asc (a b : FileNode.t) : bool :=
  match String.compare (type_text (FileNode.type b))
                       (type_text (FileNode.type a)) with
  | Lt => true
  | Gt => false
  | Eq => String.leb (FileNode.name a) (FileNode.name b)
  end.

(** *** Handlers *)

Definition getProjects (userId : string) (s : state) : outcome * state :=
  (Returns (Response.json (Response.Projects
     (JS.sort by_updated_desc
        (filter (fun p => Project.user_id p = userId) (projects s))))),
   s).

Definition createProject (name : string) (description : option string)
    (userId : string) (id : string) (now : Z) (s : state)
  : outcome * state :=
  let row := {| Project.id := id; Project.name := name;
                Project.description := string_or description None;
                Project.user_id := userId;
                Project.created_at := now; Project.updated_at := now |} in
  match insert_project row (projects s) with
  | inl e => (Throws e, s)
  | inr ps =>
      let s' := {| projects := ps; files := files s; FILES := FILES s |} in
      match select_project id ps with
      | [] => (Returns {| Response.status := 404;
                          Response.payload :=
                            Response.Text "Project not found" |}, s')
      | project :: _ =>
          (Returns (Response.json (Response.OneProject project)), s')
      end
  end.

Definition getProject (projectId : string) (s : state) : outcome * state :=
  match select_project projectId (projects s) with
  | [] => (Returns {| Response.status := 404;
                      Response.payload := Response.Text "Project not found" |},
           s)
  | project :: _ => (Returns (Response.json (Response.OneProject project)), s)
  end.

Definition getFileTree (projectId : string) (s : state) : outcome * state :=
  (Returns (Response.json (Response.Files
     (JS.sort by_type_desc_name_asc
        (filter (fun f => FileNode.project_id f = projectId) (files s))))),
   s).

Definition getFile (projectId filePath : string) (s : state)
  : outcome * state :=
  match select_file projectId filePath (files s) with
  | [] => (Returns {| Response.status := 404;
                      Response.payload := Response.Text "File not found" |}, s)
  | f :: _ =>
      match R2.get (r2Key projectId filePath) (FILES s) with
      | None => (Returns {| Response.status := 404;
                            Response.payload :=
                              Response.Text "File content not found" |}, s)
      | Some object =>
          (Returns (Response.json
                      (Response.FileWithContent f (R2.body object))), s)
      end
  end.

Definition createFile (projectId : string) (data : FileData.t)
    (id : string) (now : Z) (s : state) : outcome * state :=
  let row := {| FileNode.id := id;
                FileNode.project_id := projectId;
                FileNode.path := FileData.path data;
                FileNode.name := FileData.name data;
                FileNode.type := FileData.type data;
                FileNode.parent_path :=
                  string_or (FileData.parent_path data) None;
                FileNode.size := default 0 (FileData.size data);
                FileNode.created_at := now;
                FileNode.updated_at := now |} in
  match insert_file row (files s) with
  | inl e => (Throws e, s)
  | inr fs =>
      let bucket :=
        match FileData.type data with
        | file =>
            let content :=
              default "" (string_or (FileData.content data) (Some "")) in
            R2.put (r2Key projectId (FileData.path data)) content None
                   (FILES s)
        | directory => FILES s
        end in
      let s' := {| projects := touch_project now projectId (projects s);
                   files := fs; FILES := bucket |} in
      match select_file_by_id id fs with
      | [] => (Returns {| Response.status := 500;
                          Response.payload :=
                            Response.Text "File not found after creation" |},
               s')
      | f :: _ => (Returns (Response.json (Response.OneFile f)), s')
      end
  end.

Definition updateFile (projectId filePath content : string) (now : Z)
    (s : state) : outcome * state :=
  match select_file projectId filePath (files s) with
  | [] => (Returns {| Response.status := 404;
                      Response.payload := Response.Text "File not found" |}, s)
  | f :: _ =>
      let bucket := R2.put (r2Key projectId filePath) content None (FILES s) in
      let size := Z.of_nat (length (JS.TextEncoder_encode content)) in
      let fs := update_file size now (FileNode.id f) (files s) in
      let s' := {| projects := touch_project now projectId (projects s);
                   files := fs; FILES := bucket |} in
      match select_file_by_id (FileNode.id f) fs with
      | [] => (Returns (Response.json (Response.ContentOnly content)), s')
      | updatedFile :: _ =>
          (Returns (Response.json
                      (Response.FileWithContent updatedFile content)), s')
      end
  end.

Definition deleteFile (projectId filePath : string) (now : Z) (s : state)
  : outcome * state :=
  match select_file projectId filePath (files s) with
  | [] => (Returns {| Response.status := 404;
                      Response.payload := Response.Text "File not found" |}, s)
  | f :: _ =>
      (Returns (Response.json Response.Success),
       {| projects := touch_project now projectId (projects s);
          files := delete_file (FileNode.id f) (files s);
          FILES := R2.delete (r2Key projectId filePath) (FILES s) |})
  end.

(** *** The router [fetch] *)

(** The body of a request as [request.json<T>()] hands it to the
    handler that declared [T]. *)
Inductive body :=
| NoBody
| ProjectBody (name : string) (description : option string)
| FileBody (data : FileData.t)
| ContentBody (content : string).

Record request := {
  method : string;
  pathname : string;
  X_User_Id : option string;
  json : body
}.

Definition respond (status : Z) (b : Response.body) : outcome :=
  Returns {| Response.status := status; Response.payload := b |}.

(** [s.split("/")[2]]; outside the array the index gives [undefined]. *)
Definition segment2 (s : string) : option string := JS.split s "/" !! 2%nat.

(** A handler called with [projectId = undefined]: SQL binds NULL, which
    no row has in the NOT NULL column [project_id], so every lookup
    comes back empty. *)
Definition on_project (pid : option string) (missing : outcome)
    (handler : string -> state -> outcome * state) (s : state)
  : outcome * state :=
  match pid with
  | Some projectId => handler projectId s
  | None => (missing, s)
  end.

(** [await request.json()] on a body that is not JSON throws inside
    [try]: the [catch] block answers 500 with the message of the error. *)
Definition bad_body : outcome :=
  respond 500 (Response.Error "Unexpected end of JSON input").

Definition dispatch (req : request) (uuid : string) (now : Z) (s : state)
  : outcome * state :=
  let path := pathname req in
  let verb m := String.eqb (method req) m in
  let userId := string_or (X_User_Id req) None in
  if String.eqb path "/projects" && verb "GET" then
    match userId with
    | None => (respond 401 (Response.Error "Unauthorized"), s)
    | Some u => getProjects u s
    end
  else if String.eqb path "/projects" && verb "POST" then
    match userId with
    | None => (respond 401 (Response.Error "Unauthorized"), s)
    | Some u =>
        match json req with
        | ProjectBody name description =>
            createProject name description u uuid now s
        | _ => (bad_body, s)
        end
    end
  else if JS.startsWith path "/projects/" && JS.endsWith path "/files"
          && verb "GET" then
    on_project (segment2 path) (respond 200 (Response.Files []))
               getFileTree s
  else if JS.startsWith path "/projects/" && negb (JS.includes path "/files")
          && verb "GET" then
    on_project (segment2 path) (respond 404 (Response.Text "Project not found"))
               getProject s
  else if JS.startsWith path "/projects/" && JS.includes path "/files/"
          && verb "GET" then
    let parts := JS.split path "/files/" in
    on_project (segment2 (default "" (parts !! 0%nat)))
               (respond 404 (Response.Text "File not found"))
               (fun projectId => getFile projectId (default "" (parts !! 1%nat)))
               s
  else if JS.startsWith path "/projects/" && JS.endsWith path "/files"
          && verb "POST" then
    match json req with
    | FileBody data =>
        on_project (segment2 path)
                   (Throws "NOT NULL constraint failed: files.project_id")
                   (fun projectId => createFile projectId data uuid now) s
    | _ => (bad_body, s)
    end
  else if JS.startsWith path "/projects/" && JS.includes path "/files/"
          && verb "PUT" then
    let parts := JS.split path "/files/" in
    match json req with
    | ContentBody content =>
        on_project (segment2 (default "" (parts !! 0%nat)))
                   (respond 404 (Response.Text "File not found"))
                   (fun projectId =>
                      updateFile projectId (default "" (parts !! 1%nat))
                                 content now)
                   s
    | _ => (bad_body, s)
    end
  else if JS.startsWith path "/projects/" && JS.includes path "/files/"
          && verb "DELETE" then
    let parts := JS.split path "/files/" in
    on_project (segment2 (default "" (parts !! 0%nat)))
               (respond 404 (Response.Text "File not found"))
               (fun projectId =>
                  deleteFile projectId (default "" (parts !! 1%nat)) now)
               s
  else (respond 404 (Response.Text "Not found"), s).

(** [fetch]: the [try] block returns the promise of the handler without
    awaiting it, so the [catch] block sees only what is thrown before
    that, the error of [request.json()] ([bad_body]).  When the handler
    throws, the promise of [fetch] rejects with the handler's error, and
    with it the [stub.fetch] of the caller. *)
Definition fetch (req : request) (uuid : string) (now : Z) (s : state)
  : outcome * state :=
  dispatch req uuid now s.

(** *** The constraints of the schema *)

(** [id TEXT PRIMARY KEY] on both tables and [UNIQUE(project_id, path)]
    on [files]. *)
Definition unique_keys (s : state) : Prop :=
  NoDup (Project.id <$> projects s)
  /\ NoDup (FileNode.id <$> files s)
  /\ NoDup ((fun f => (FileNode.project_id f, FileNode.path f)) <$> files s).

End ProjectManager.

(** ** JSON values as the build reads them *)

Module JSON.

Inductive value :=
| Null
| Bool (b : bool)
| Number (q : Q)
| Str (s : string)
| Array (items : list value)
| Object (fields : list (string * value)).

(** The first binding of a key in an association list. *)
Fixpoint assoc {A : Type} (k : string) (l : list (string * A)) : option A :=
  match l with
  | [] => None
  | (k', v) :: l' => if String.eqb k' k then Some v else assoc k l'
  end.

(** [v.k] for a key that no prototype defines: an own property of an
    object, [undefined] ([None]) on anything else.  Reading a property
    of [null] throws and is handled by the caller. *)
Definition get (v : value) (k : string) : option value :=
  match v with
  | Object fields => assoc k fields
  | _ => None
  end.

(** [o?.k] where [o] may be [undefined] or [null]. *)
Definition opt (o : option value) (k : string) : option value :=
  match o with
  | None | Some Null => None
  | Some v => get v k
  end.

(** Truthiness, as [||] and [if] test it. *)
Definition truthy (o : option value) : bool :=
  match o with
  | None | Some Null => false
  | Some (Bool b) => b
  | Some (Number q) => negb (Qeq_bool q 0)
  | Some (Str s) => negb (String.eqb s "")
  | Some (Array _) | Some (Object _) => true
  end.

(** The keys that [{ ...o }] copies: the own enumerable properties. *)
Definition indices (n : nat) : list string := JS.of_nat <$> seq 0 n.

Definition spread_keys (o : option value) : list string :=
  match o with
  | Some (Object fields) => fst <$> fields
  | Some (Array items) => indices (length items)
  | Some (Str s) => indices (JS.length s)
  | _ => []
  end.

(** *** A reference reader for JSON text

    The build is stated for every [JSON.parse]; this reader follows the
    JSON grammar and is what the examples run on.  Numbers are read
    exactly, as rationals.  A later duplicate of a key replaces the
    value of the earlier one. *)

Fixpoint set_field (k : string) (v : value) (fields : list (string * value))
  : list (string * value) :=
  match fields with
  | [] => [(k, v)]
  | (k', v') :: rest =>
      if String.eqb k' k then (k', v) :: rest
      else (k', v') :: set_field k v rest
  end.

Definition is_ws (c : ascii) : bool :=
  let n := nat_of_ascii c in
  ((n =? 32) || (n =? 9) || (n =? 10) || (n =? 13))%nat.

Fixpoint skip_ws (s : string) : string :=
  match s with
  | String c s' => if is_ws c then skip_ws s' else s
  | EmptyString => s
  end.

Definition digit (c : ascii) : option Z :=
  let n := nat_of_ascii c in
  if ((48 <=? n) && (n <=? 57))%nat then Some (Z.of_nat (n - 48)) else None.

Definition hex (c : ascii) : option Z :=
  let n := nat_of_ascii c in
  if ((48 <=? n) && (n <=? 57))%nat then Some (Z.of_nat (n - 48))
  else if ((65 <=? n) && (n <=? 70))%nat then Some (Z.of_nat (n - 55))
  else if ((97 <=? n) && (n <=? 102))%nat then Some (Z.of_nat (n - 87))
  else None.

(** The digits at the head of [s]: their value after [acc], how many
    they are, and what follows them. *)
Fixpoint digits (acc : Z) (count : nat) (s : string) : Z * nat * string :=
  match s with
  | String c s' =>
      match digit c with
      | Some d => digits (10 * acc + d) (S count) s'
      | None => (acc, count, s)
      end
  | EmptyString => (acc, count, s)
  end.

Definition scale (m : Z) (e : Z) : Q :=
  if 0 <=? e then inject_Z (m * 10 ^ e)
  else Qmake m (Z.to_pos (10 ^ (- e))).

(** [-? int frac? exp?] with [int] either [0] or free of a leading zero. *)
Definition number (s : string) : option (Q * string) :=
  let '(sign, s) :=
    match s with
    | String "-" s' => (-1, s')
    | _ => (1, s)
    end in
  let '(i, ni, s1) := digits 0 0 s in
  let leading_zero :=
    match s with
    | String "0" _ => negb (ni =? 1)%nat
    | _ => false
    end in
  if (ni =? 0)%nat || leading_zero then None else
  let frac :=
    match s1 with
    | String "." s2 =>
        let '(m, nf, s3) := digits i 0 s2 in
        if (nf =? 0)%nat then None else Some (m, nf, s3)
    | _ => Some (i, 0%nat, s1)
    end in
  match frac with
  | None => None
  | Some (m, nf, s3) =>
      let exponent :=
        match s3 with
        | String c s4 =>
            if Ascii.eqb c "e" || Ascii.eqb c "E" then
              let '(esign, s5) :=
                match s4 with
                | String "-" s' => (-1, s')
                | String "+" s' => (1, s')
                | _ => (1, s4)
                end in
              let '(e, ne, s6) := digits 0 0 s5 in
              if (ne =? 0)%nat then None else Some (esign * e, s6)
            else Some (0, s3)
        | EmptyString => Some (0, s3)
        end in
      match exponent with
      | None => None
      | Some (e, rest) => Some (scale (sign * m) (e - Z.of_nat nf), rest)
      end
  end.

Definition byte (z : Z) : ascii := ascii_of_N (Z.to_N z).

(** The UTF-8 bytes of a code point; a surrogate that stands alone is
    written like any other code point of its range. *)
Definition utf8 (cp : Z) : string :=
  if cp <? 128 then String (byte cp) EmptyString
  else if cp <? 2048 then
    String (byte (192 + cp / 64)) (String (byte (128 + cp mod 64)) EmptyString)
  else if cp <? 65536 then
    String (byte (224 + cp / 4096))
      (String (byte (128 + (cp / 64) mod 64))
         (String (byte (128 + cp mod 64)) EmptyString))
  else
    String (byte (240 + cp / 262144))
      (String (byte (128 + (cp / 4096) mod 64))
         (String (byte (128 + (cp / 64) mod 64))
            (String (byte (128 + cp mod 64)) EmptyString))).

Definition hex4 (s : string) : option (Z * string) :=
  match s with
  | String a (String b (String c (String d rest))) =>
      match hex a, hex b, hex c, hex d with
      | Some x, Some y, Some z, Some w =>
          Some (4096 * x + 256 * y + 16 * z + w, rest)
      | _, _, _, _ => None
      end
  | _ => None
  end.

(** The characters of a string literal after its opening quote.  [high]
    holds a high surrogate read from [\u....] that waits for its low
    half. *)
Fixpoint chars (high : option Z) (s : string) : option (string * string) :=
  let flush := match high with Some h => utf8 h | None => EmptyString end in
  let emit (piece : string) (r : option (string * string)) :=
    match r with
    | Some (text, rest) => Some (flush +:+ piece +:+ text, rest)
    | None => None
    end in
  match s with
  | EmptyString => None
  | String c s' =>
      let n := nat_of_ascii c in
      if (n =? 34)%nat then Some (flush, s')
      else if (n <? 32)%nat then None
      else if (n =? 92)%nat then
        match s' with
        | String e s'' =>
            let m := nat_of_ascii e in
            if (m =? 34)%nat then emit (String e EmptyString) (chars None s'')
            else if (m =? 92)%nat then emit "\" (chars None s'')
            else if (m =? 47)%nat then emit "/" (chars None s'')
            else if (m =? 98)%nat then emit (String "008" EmptyString) (chars None s'')
            else if (m =? 102)%nat then emit (String "012" EmptyString) (chars None s'')
            else if (m =? 110)%nat then emit (String "010" EmptyString) (chars None s'')
            else if (m =? 114)%nat then emit (String "013" EmptyString) (chars None s'')
            else if (m =? 116)%nat then emit (String "009" EmptyString) (chars None s'')
            else if (m =? 117)%nat then
              match s'' with
              | String a (String b (String c' (String d rest))) =>
                  match hex4 s'' with
                  | Some (cp, _) =>
                      if (55296 <=? cp) && (cp <=? 56319) then
                        match chars (Some cp) rest with
                        | Some (text, rest') => Some (flush +:+ text, rest')
                        | None => None
                        end
                      else if (56320 <=? cp) && (cp <=? 57343) then
                        match high with
                        | Some h =>
                            match chars None rest with
                            | Some (text, rest') =>
                                Some (utf8 (65536 + (h - 55296) * 1024
                                            + (cp - 56320)) +:+ text, rest')
                            | None => None
                            end
                        | None => emit (utf8 cp) (chars None rest)
                        end
                      else emit (utf8 cp) (chars None rest)
                  | None => None
                  end
              | _ => None
              end
            else None
        | EmptyString => None
        end
      else emit (String c EmptyString) (chars None s')
  end.

Definition literal (word : string) (v : value) (s : string)
  : option (value * string) :=
  if String.prefix word s
  then Some (v, substring (String.length word)
                          (String.length s - String.length word) s)
  else None.

Fixpoint read_value (fuel : nat) (s : string) : option (value * string) :=
  match fuel with
  | O => None
  | S fuel =>
      match skip_ws s with
      | String "n" _ => literal "null" Null (skip_ws s)
      | String "t" _ => literal "true" (Bool true) (skip_ws s)
      | String "f" _ => literal "false" (Bool false) (skip_ws s)
      | String "[" s' =>
          match skip_ws s' with
          | String "]" rest => Some (Array [], rest)
          | _ =>
              match read_items fuel s' with
              | Some (items, rest) => Some (Array items, rest)
              | None => None
              end
          end
      | String "{" s' =>
          match skip_ws s' with
          | String "}" rest => Some (Object [], rest)
          | _ =>
              match read_members fuel s' with
              | Some (fields, rest) =>
                  Some (Object (foldl (fun acc kv => set_field kv.1 kv.2 acc)
                                      [] fields), rest)
              | None => None
              end
          end
      | String c s' =>
          if (nat_of_ascii c =? 34)%nat then
            match chars None s' with
            | Some (text, rest) => Some (Str text, rest)
            | None => None
            end
          else
            match number (skip_ws s) with
            | Some (q, rest) => Some (Number q, rest)
            | None => None
            end
      | EmptyString => None
      end
  end
with read_items (fuel : nat) (s : string) : option (list value * string) :=
  match fuel with
  | O => None
  | S fuel =>
      match read_value fuel s with
      | Some (v, rest) =>
          match skip_ws rest with
          | String "]" rest' => Some ([v], rest')
          | String "," rest' =>
              match read_items fuel rest' with
              | Some (vs, rest'') => Some (v :: vs, rest'')
              | None => None
              end
          | _ => None
          end
      | None => None
      end
  end
with read_members (fuel : nat) (s : string)
  : option (list (string * value) * string) :=
  match fuel with
  | O => None
  | S fuel =>
      match skip_ws s with
      | String c s' =>
          if (nat_of_ascii c =? 34)%nat then
            match chars None s' with
            | Some (k, rest) =>
                match skip_ws rest with
                | String ":" rest' =>
                    match read_value fuel rest' with
                    | Some (v, rest'') =>
                        match skip_ws rest'' with
                        | String "}" rest3 => Some ([(k, v)], rest3)
                        | String "," rest3 =>
                            match read_members fuel rest3 with
                            | Some (kvs, rest4) => Some ((k, v) :: kvs, rest4)
                            | None => None
                            end
                        | _ => None
                        end
                    | None => None
                    end
                | _ => None
                end
            | None => None
            end
          else None
      | EmptyString => None
      end
  end.

(** [JSON.parse(text)]: the value, or the error as [`${error}`] would
    print it (the wording after [SyntaxError:] is the engine's own). *)
Definition parse (text : string) : string + value :=
  match read_value (2 * String.length text + 2) text with
  | Some (v, rest) =>
      match skip_ws rest with
      | EmptyString => inr v
      | _ => inl "SyntaxError: Unexpected non-whitespace character after JSON"
      end
  | None => inl "SyntaxError: Unexpected token in JSON"
  end.

(** JSON text written with ['] where the text has a double quote. *)
Fixpoint text (s : string) : string :=
  match s with
  | EmptyString => EmptyString
  | String c s' =>
      String (if (nat_of_ascii c =? 39)%nat then "034"%char else c) (text s')
  end.

End JSON.

(** ** The Build Coordinator (src/unnamed/part_000) *)

Inductive Status := pending | installing | building | success | failed.

Module LogLine.
(** The line [`[${new Date(at).toISOString()}] ${text}`]. *)
Record t := { at_ : Z; text : string }.
End LogLine.

Module BuildConfig.
Record t := {
  projectId : string;
  buildCommand : option string;
  installCommand : option string;
  outputDir : option string
}.
End BuildConfig.

Module BuildStatus.
Record t := {
  id : string;
  projectId : string;
  status : Status;
  logs : list LogLine.t;
  previewUrl : option string;
  startedAt : Z;
  completedAt : option Z;
  error : option string
}.

Definition set_status (st : Status) (b : t) : t :=
  {| id := id b; projectId := projectId b; status := st; logs := logs b;
     previewUrl := previewUrl b; startedAt := startedAt b;
     completedAt := completedAt b; error := error b |}.

Definition set_previewUrl (u : string) (b : t) : t :=
  {| id := id b; projectId := projectId b; status := status b;
     logs := logs b; previewUrl := Some u; startedAt := startedAt b;
     completedAt := completedAt b; error := error b |}.

Definition set_completedAt (now : Z) (b : t) : t :=
  {| id := id b; projectId := projectId b; status := status b;
     logs := logs b; previewUrl := previewUrl b; startedAt := startedAt b;
     completedAt := Some now; error := error b |}.

Definition set_error (e : string) (b : t) : t :=
  {| id := id b; projectId := projectId b; status := status b;
     logs := logs b; previewUrl := previewUrl b; startedAt := startedAt b;
     completedAt := completedAt b; error := Some e |}.

(** [build.logs.push(`[${new Date().toISOString()}] ${text}`)] *)
Definition log (now : Z) (text : string) (b : t) : t :=
  {| id := id b; projectId := projectId b; status := status b;
     logs := logs b ++ [{| LogLine.at_ := now; LogLine.text := text |}];
     previewUrl := previewUrl b; startedAt := startedAt b;
     completedAt := completedAt b; error := error b |}.
End BuildStatus.

Module BuildFile.
(** An element of [Array<{ path: string; content: string }>]. *)
Record t := { path : string; content : string }.
End BuildFile.

(** A JavaScript [Map<string, string>]: the entries in insertion order;
    [set] on a key that is present keeps its place. *)
Module StringMap.
Fixpoint set (k v : string) (m : list (string * string))
  : list (string * string) :=
  match m with
  | [] => [(k, v)]
  | (k', v') :: m' =>
      if String.eqb k' k then (k', v) :: m' else (k', v') :: set k v m'
  end.
End StringMap.

Definition terminal (st : Status) : bool :=
  match st with success | failed => true | _ => false end.

Module BuildRunner.

(** Where the background task [executeBuild] is suspended: on an
    [await] of a bucket call, the only places where the Durable Object
    can take another request. *)
Inductive pc :=
| AwaitList
| AwaitGet (keys : list string) (files : list BuildFile.t)
| AwaitPut (entries : list (string * string))
| Finished.

Record task := { config : BuildConfig.t; at_pc : pc }.

(** The registry [builds], the tasks handed to [ctx.waitUntil], and the
    bucket. *)
Record state := {
  builds : gmap string BuildStatus.t;
  tasks : gmap string task;
  FILES : gmap string R2.object
}.

Definition init (bucket : gmap string R2.object) : state :=
  {| builds := ∅; tasks := ∅; FILES := bucket |}.

Inductive response :=
| Json (b : BuildStatus.t)
| NotFound.

Definition quote : string := String "034"%char EmptyString.
Definition nl : string := String "010"%char EmptyString.

(** [s.replace(pattern, by)] for a string pattern: the first
    occurrence only. *)
Definition replace (s pattern by_ : string) : string :=
  match index 0 pattern s with
  | Some i =>
      substring 0 i s +:+ by_ +:+
      substring (i + String.length pattern)
                (String.length s - (i + String.length pattern)) s
  | None => s
  end.

Definition has_path (p : string) (f : BuildFile.t) : bool :=
  String.eqb (BuildFile.path f) p.

(** [types[ext || ""] || "text/plain"]: [types] is an object literal,
    so the lookup also finds what [Object.prototype] defines.  [ext] is
    in lower case, and the inherited properties whose names are in lower
    case are [constructor] and [__proto__]; both values are truthy and
    pass the [||]. *)
Definition inherited (key : string) : bool :=
  String.eqb key "constructor" || String.eqb key "__proto__".

Definition getContentType (path : string) : R2.value :=
  let ext := JS.toLowerCase <$> JS.pop (JS.split path ".") in
  let types :=
    [("html", "text/html"); ("css", "text/css");
     ("js", "application/javascript"); ("json", "application/json");
     ("png", "image/png"); ("jpg", "image/jpeg"); ("jpeg", "image/jpeg");
     ("gif", "image/gif"); ("svg", "image/svg+xml");
     ("ico", "image/x-icon")] in
  match JSON.assoc (default "" ext) types with
  | Some type => R2.Mime type
  | None =>
      if inherited (default "" ext) then R2.Inherited (default "" ext)
      else R2.Mime "text/plain"
  end.

Definition createHTMLWrapper (files : list BuildFile.t) (entryPath : string)
  : string :=
  match find (has_path "index.html") files with
  | Some indexHtml => BuildFile.content indexHtml
  | None =>
      let q x := quote +:+ x +:+ quote in
      JS.join
        ["<!DOCTYPE html>";
         "<html lang=" +:+ q "en" +:+ ">";
         "  <head>";
         "    <meta charset=" +:+ q "UTF-8" +:+ " />";
         "    <meta name=" +:+ q "viewport" +:+ " content="
           +:+ q "width=device-width, initial-scale=1.0" +:+ " />";
         "    <title>Preview</title>";
         "    <script type=" +:+ q "module" +:+ ">";
         "      import " +:+ q entryPath +:+ ";";
         "    </script>";
         "  </head>";
         "  <body>";
         "    <div id=" +:+ q "root" +:+ "></div>";
         "  </body>";
         "</html>"] nl
  end.

(** A stretch of [executeBuild]: it mutates the build record and
    either throws [Error(message)] or yields a value. *)
Definition action (A : Type) : Type :=
  BuildStatus.t -> (string + A) * BuildStatus.t.

Definition ret {A : Type} (a : A) : action A := fun build => (inr a, build).

Definition throw {A : Type} (message : string) : action A :=
  fun build => (inl message, build).

Definition bind {A B : Type} (m : action A) (k : A -> action B) : action B :=
  fun build =>
    match m build with
    | (inl message, build') => (inl message, build')
    | (inr a, build') => k a build'
    end.

Definition log (now : Z) (text : string) : action unit :=
  fun build => (inr tt, BuildStatus.log now text build).

Definition set_status (st : Status) : action unit :=
  fun build => (inr tt, BuildStatus.set_status st build).

Declare Scope action_scope.
Notation "m ;; k" := (bind m (fun _ => k))
  (at level 100, k at level 200, right associativity) : action_scope.
Local Open Scope action_scope.

Section WithParser.

(** [JSON.parse]: the parsed value, or the thrown error as
    [`${error}`] prints it. *)
Variable JSON_parse : string -> string + JSON.value.

Definition fallback (files : list BuildFile.t) : string :=
  if existsb (has_path "index.html") files then "static" else "unknown".

Definition detectProjectType (files : list BuildFile.t) : string :=
  match find (has_path "package.json") files with
  | Some packageJson =>
      match JSON_parse (BuildFile.content packageJson) with
      | inr JSON.Null => fallback files
      | inr pkg =>
          let dependencies := JSON.get pkg "dependencies" in
          let devDependencies := JSON.get pkg "devDependencies" in
          let has k := JSON.truthy (JSON.opt dependencies k)
                       || JSON.truthy (JSON.opt devDependencies k) in
          if has "react" then
            if has "next" then "nextjs"
            else if has "vite" then "vite-react"
            else "react"
          else if has "vue" then "vue"
          else if has "svelte" then "svelte"
          else if JSON.truthy (JSON.opt dependencies "express")
               then "express"
          else fallback files
      | inl _ => fallback files
      end
  | None => fallback files
  end.

(** The entry point that [buildProject] looks for in a React project. *)
Definition is_entry (f : BuildFile.t) : bool :=
  has_path "src/main.tsx" f || has_path "src/main.jsx" f
  || has_path "src/index.tsx" f || has_path "src/index.jsx" f.

(** A file as an entry of the output map. *)
Definition entry_of (f : BuildFile.t) : string * string :=
  (BuildFile.path f, BuildFile.content f).

Definition copy_all (files : list BuildFile.t)
    (builtFiles : list (string * string)) : list (string * string) :=
  foldl (fun m f => StringMap.set (BuildFile.path f) (BuildFile.content f) m)
        builtFiles files.

Definition installDependencies (packageJsonContent : string) (now : Z)
  : action unit :=
  match JSON_parse packageJsonContent with
  | inl error => throw ("Failed to parse package.json: " +:+ error)
  | inr JSON.Null =>
      throw ("Failed to parse package.json: TypeError: Cannot read "
             +:+ "properties of null (reading 'dependencies')")
  | inr pkg =>
      let dependencies :=
        remove_dups (JSON.spread_keys (JSON.get pkg "dependencies")
                     ++ JSON.spread_keys (JSON.get pkg "devDependencies")) in
      log now ("Dependencies to install: "
               +:+ JS.of_nat (length dependencies)) ;;
      log now "Using bundler for dependency resolution"
  end.

Definition buildProject (files : list BuildFile.t) (projectType : string)
    (config : BuildConfig.t) (now : Z) : action (list (string * string)) :=
  if String.eqb projectType "static" then ret (copy_all files [])
  else if String.eqb projectType "vite-react"
          || String.eqb projectType "react" then
    log now "Building React application..." ;;
    match find is_entry files with
    | None => throw "No entry file found (main.tsx, index.tsx, etc.)"
    | Some entryFile =>
        let html := createHTMLWrapper files (BuildFile.path entryFile) in
        ret (copy_all files (StringMap.set "index.html" html []))
    end
  else ret [].

(** *** [executeBuild], one piece per stretch between two awaits *)

(** The [catch] block. *)
Definition on_error (message : string) (now : Z) (build : BuildStatus.t)
  : BuildStatus.t :=
  let build := BuildStatus.set_status failed build in
  let build := BuildStatus.set_error message build in
  let build := BuildStatus.set_completedAt now build in
  BuildStatus.log now ("ERROR: " +:+ message) build.

(** From the entry of [executeBuild] to the [await] of
    [env.FILES.list]. *)
Definition on_start (config : BuildConfig.t) (now : Z)
    (build : BuildStatus.t) : BuildStatus.t :=
  BuildStatus.log now
    ("Starting build for project " +:+ BuildConfig.projectId config)
    (BuildStatus.set_status installing build).

Definition previewUrl_of (projectId buildId : string) : string :=
  "/preview/" +:+ projectId +:+ "/" +:+ buildId +:+ "/".

(** After the last [put] of [deployPreview]. *)
Definition on_deployed (config : BuildConfig.t) (now : Z)
    (build : BuildStatus.t) : BuildStatus.t :=
  let previewUrl :=
    previewUrl_of (BuildConfig.projectId config) (BuildStatus.id build) in
  let build := BuildStatus.set_status success build in
  let build := BuildStatus.set_previewUrl previewUrl build in
  let build := BuildStatus.set_completedAt now build in
  let build := BuildStatus.log now "Build completed successfully!" build in
  BuildStatus.log now ("Preview URL: " +:+ previewUrl) build.

(** The statements of the [try] block between the return of
    [getProjectFiles] and the call of [deployPreview]. *)
Definition phases (files : list BuildFile.t) (config : BuildConfig.t)
    (now : Z) : action (list (string * string)) :=
  log now ("Found " +:+ JS.of_nat (length files) +:+ " files") ;;
  let projectType := detectProjectType files in
  log now ("Detected project type: " +:+ projectType) ;;
  (if existsb (has_path "package.json") files then
     log now "Installing dependencies..." ;;
     match find (has_path "package.json") files with
     | Some packageJson =>
         installDependencies (BuildFile.content packageJson) now
     | None => ret tt
     end
   else ret tt) ;;
  set_status building ;;
  log now "Building project..." ;;
  buildProject files projectType config now.

(** From the return of [getProjectFiles] to the first [put] of
    [deployPreview], to the end when nothing is to be put, or to the
    [catch] block. *)
Definition on_files (files : list BuildFile.t) (config : BuildConfig.t)
    (now : Z) (build : BuildStatus.t) : BuildStatus.t * pc :=
  match phases files config now build with
  | (inl message, build) => (on_error message now build, Finished)
  | (inr [], build) => (on_deployed config now build, Finished)
  | (inr entries, build) => (build, AwaitPut entries)
  end.

(** One object of the loop of [getProjectFiles]. *)
Definition read_object (projectId key : string)
    (bucket : gmap string R2.object) (files : list BuildFile.t)
  : list BuildFile.t :=
  match R2.get key bucket with
  | Some r2Object =>
      files ++ [{| BuildFile.path := replace key (projectId +:+ "/") "";
                   BuildFile.content := R2.body r2Object |}]
  | None => files
  end.

(** The awaited bucket call settles: it rejects with [Error(fault)],
    or it resolves and the task runs on to its next bucket call. *)
Definition resume (fault : option string) (now : Z) (t : task)
    (build : BuildStatus.t) (bucket : gmap string R2.object)
  : BuildStatus.t * pc * gmap string R2.object :=
  let projectId := BuildConfig.projectId (config t) in
  match at_pc t, fault with
  | Finished, _ => (build, Finished, bucket)
  | _, Some message => (on_error message now build, Finished, bucket)
  | AwaitList, None =>
      match R2.list (projectId +:+ "/") bucket with
      | [] => (on_files [] (config t) now build, bucket)
      | keys => (build, AwaitGet keys [], bucket)
      end
  | AwaitGet [] files, None =>
      (on_files files (config t) now build, bucket)
  | AwaitGet [key] files, None =>
      (on_files (read_object projectId key bucket files) (config t) now
                build, bucket)
  | AwaitGet (key :: keys) files, None =>
      (build, AwaitGet keys (read_object projectId key bucket files),
       bucket)
  | AwaitPut [], None => (on_deployed (config t) now build, Finished, bucket)
  | AwaitPut ((path, content) :: entries), None =>
      let bucket :=
        R2.put ("previews/" +:+ projectId +:+ "/" +:+ BuildStatus.id build
                +:+ "/" +:+ path)
               content (Some (getContentType path)) bucket in
      match entries with
      | [] => (on_deployed (config t) now build, Finished, bucket)
      | _ => (build, AwaitPut entries, bucket)
      end
  end.

(** [getProjectFiles] when no other request changes the bucket
    between its awaits. *)
Definition getProjectFiles (projectId : string)
    (bucket : gmap string R2.object) : list BuildFile.t :=
  foldl (fun files key => read_object projectId key bucket files) []
        (R2.list (projectId +:+ "/") bucket).

(** The key of an output file in the preview namespace. *)
Definition preview_key (projectId buildId path : string) : string :=
  "previews/" +:+ projectId +:+ "/" +:+ buildId +:+ "/" +:+ path.

(** The bucket after [deployPreview] when no other request changes it
    between the awaits. *)
Definition deployPreview (buildId : string) (builtFiles : list (string * string))
    (projectId : string) (bucket : gmap string R2.object)
  : gmap string R2.object :=
  foldl (fun b entry =>
           R2.put (preview_key projectId buildId entry.1) entry.2
                  (Some (getContentType entry.1)) b)
        bucket builtFiles.

(** The task takes one turn per clock reading, every bucket call
    resolving. *)
Fixpoint resumes (nows : list Z) (config : BuildConfig.t)
    (build : BuildStatus.t) (at_ : pc) (bucket : gmap string R2.object)
  : BuildStatus.t * pc * gmap string R2.object :=
  match nows with
  | [] => (build, at_, bucket)
  | now :: nows =>
      let '(build, next, bucket) :=
        resume None now {| config := config; at_pc := at_ |} build bucket in
      resumes nows config build next bucket
  end.

(** *** Requests and the event loop *)

(** [buildId] is the value of [crypto.randomUUID()], an id that no
    build of the registry has.  The response is built after the call of
    [executeBuild] has run to its first await. *)
Definition startBuild (config : BuildConfig.t) (buildId : string)
    (now : Z) (s : state) : response * state :=
  let build :=
    {| BuildStatus.id := buildId;
       BuildStatus.projectId := BuildConfig.projectId config;
       BuildStatus.status := pending;
       BuildStatus.logs := [];
       BuildStatus.previewUrl := None;
       BuildStatus.startedAt := now;
       BuildStatus.completedAt := None;
       BuildStatus.error := None |} in
  let build := on_start config now build in
  (Json build,
   {| builds := <[buildId := build]> (builds s);
      tasks := <[buildId := {| config := config; at_pc := AwaitList |}]>
                 (tasks s);
      FILES := FILES s |}).

Definition getBuildStatus (buildId : string) (s : state) : response :=
  match builds s !! buildId with
  | None => NotFound
  | Some build => Json build
  end.

Definition cancelBuild (buildId : string) (now : Z) (s : state)
  : response * state :=
  match builds s !! buildId with
  | None => (NotFound, s)
  | Some build =>
      match BuildStatus.status build with
      | pending | installing | building =>
          let build := BuildStatus.set_status failed build in
          let build :=
            BuildStatus.set_error "Build cancelled by user" build in
          let build := BuildStatus.set_completedAt now build in
          let build := BuildStatus.log now "Build cancelled" build in
          (Json build,
           {| builds := <[buildId := build]> (builds s);
              tasks := tasks s; FILES := FILES s |})
      | _ => (Json build, s)
      end
  end.

(** The background task of [buildId] takes its next turn. *)
Definition turn (buildId : string) (fault : option string) (now : Z)
    (s : state) : state :=
  match tasks s !! buildId, builds s !! buildId with
  | Some t, Some build =>
      let '(build, next, bucket) := resume fault now t build (FILES s) in
      {| builds := <[buildId := build]> (builds s);
         tasks := <[buildId := {| config := config t; at_pc := next |}]>
                    (tasks s);
         FILES := bucket |}
  | _, _ => s
  end.

Inductive event :=
| Start (config : BuildConfig.t) (buildId : string) (now : Z)
| Cancel (buildId : string) (now : Z)
| Turn (buildId : string) (fault : option string) (now : Z).

Definition step (s : state) (e : event) : state :=
  match e with
  | Start config buildId now => snd (startBuild config buildId now s)
  | Cancel buildId now => snd (cancelBuild buildId now s)
  | Turn buildId fault now => turn buildId fault now s
  end.

Definition run (s : state) (es : list event) : state := foldl step s es.

(** The events of a stretch in which only the task of [buildId] runs
    and every bucket call resolves. *)
Definition turns (buildId : string) (nows : list Z) : list event :=
  (fun now => Turn buildId None now) <$> nows.

End WithParser.

(** *** What the code may do to a build record *)

(** [build'] is [build] after some statements of [executeBuild] or
    [cancelBuild]: the identity of the build is the same, the log has
    only grown at its end, and the status has not gone back to
    [pending]. *)
Definition grows (build build' : BuildStatus.t) : Prop :=
  BuildStatus.id build' = BuildStatus.id build
  /\ BuildStatus.projectId build' = BuildStatus.projectId build
  /\ BuildStatus.startedAt build' = BuildStatus.startedAt build
  /\ BuildStatus.logs build `prefix_of` BuildStatus.logs build'
  /\ (BuildStatus.status build <> pending ->
      BuildStatus.status build' <> pending).

(** An action under which the record only grows. *)
Definition growing {A : Type} (m : action A) : Prop :=
  forall build, grows build (m build).2.

(** *** The router [fetch] *)

(** What [fetch] answers: the JSON of a build or the 404 of an unknown
    one, the log stream, the 404 of an unknown route, or the 500 of the
    [catch] block.  A stream carries the chunks that [start] enqueues,
    one per buffered line (the line and a line feed), and whether
    [start] then closes it. *)
Inductive reply :=
| Reply (r : response)
| Stream (chunks : list LogLine.t) (closed : bool)
| RouteNotFound
| ServerError (message : string).

Definition streamBuildLogs (buildId : string) (s : state) : reply :=
  match builds s !! buildId with
  | None => Reply NotFound
  | Some build =>
      Stream (BuildStatus.logs build) (terminal (BuildStatus.status build))
  end.

(** [path.split("/")[2]]; a missing segment is [undefined], which is the
    key of no build. *)
Definition buildId_of (path : string) : option string :=
  JS.split path "/" !! 2%nat.

(** [config] is the body as [request.json<BuildConfig>()] returns it,
    [None] when reading it throws. *)
Definition fetch (method path : string) (config : option BuildConfig.t)
    (uuid : string) (now : Z) (s : state) : reply * state :=
  if String.eqb path "/build" && String.eqb method "POST" then
    match config with
    | Some config =>
        let '(r, s') := startBuild config uuid now s in (Reply r, s')
    | None => (ServerError "Unexpected end of JSON input", s)
    end
  else if JS.startsWith path "/build/" && String.eqb method "GET" then
    match buildId_of path with
    | Some buildId => (Reply (getBuildStatus buildId s), s)
    | None => (Reply NotFound, s)
    end
  else if JS.startsWith path "/build/" && JS.endsWith path "/logs" then
    match buildId_of path with
    | Some buildId => (streamBuildLogs buildId s, s)
    | None => (Reply NotFound, s)
    end
  else if JS.startsWith path "/build/" && String.eqb method "DELETE" then
    match buildId_of path with
    | Some buildId =>
        let '(r, s') := cancelBuild buildId now s in (Reply r, s')
    | None => (Reply NotFound, s)
    end
  else (RouteNotFound, s).

End BuildRunner.

(** ** The URL of a request *)

Module URL.

(** [new URL(input).pathname] after the URL Standard, for the inputs
    that the callers here build: [http://host/...] or
    [https://host/...] with a host that is a plain name.  The input is
    read in UTF-8 bytes. *)

(** Leading and trailing C0 controls and spaces are removed, then every
    tab and newline. *)
Definition blank (c : ascii) : bool := (nat_of_ascii c <=? 32)%nat.

Fixpoint trim_start (s : string) : string :=
  match s with
  | String c s' => if blank c then trim_start s' else s
  | EmptyString => EmptyString
  end.

Fixpoint trim_end (s : string) : string :=
  match s with
  | String c s' =>
      match trim_end s' with
      | EmptyString => if blank c then EmptyString else String c EmptyString
      | t => String c t
      end
  | EmptyString => EmptyString
  end.

Definition tab_or_newline (c : ascii) : bool :=
  let n := nat_of_ascii c in
  ((n =? 9) || (n =? 10) || (n =? 13))%nat.

Fixpoint without_tabs (s : string) : string :=
  match s with
  | String c s' =>
      if tab_or_newline c then without_tabs s' else String c (without_tabs s')
  | EmptyString => EmptyString
  end.

(** The path percent-encode set: the C0 controls, the space, the bytes
    from 0x7F on, and the double quote, [<], [>], [^], the backtick,
    [{] and [}]; [?] and [#] end the path before they are encoded. *)
Definition in_path_set (c : ascii) : bool :=
  let n := nat_of_ascii c in
  ((n <=? 32) || (127 <=? n) || (n =? 34) || (n =? 60) || (n =? 62)
   || (n =? 94) || (n =? 96) || (n =? 123) || (n =? 125))%nat.

Definition hex_digit (n : nat) : ascii :=
  nth n (list_ascii_of_string "0123456789ABCDEF") "0"%char.

Definition percent_encode (c : ascii) : string :=
  let n := nat_of_ascii c in
  if in_path_set c
  then String "%" (String (hex_digit (n / 16))
                          (String (hex_digit (n mod 16)) EmptyString))
  else String c EmptyString.

Definition single_dot (segment : string) : bool :=
  let l := JS.toLowerCase segment in
  String.eqb l "." || String.eqb l "%2e".

Definition double_dot (segment : string) : bool :=
  let l := JS.toLowerCase segment in
  String.eqb l ".." || String.eqb l ".%2e" || String.eqb l "%2e."
  || String.eqb l "%2e%2e".

(** The end of a segment, at a slash or at the end of the path. *)
Definition close (path : list string) (buffer : string) (slash : bool)
  : list string :=
  if double_dot buffer then
    if slash then removelast path else removelast path ++ [EmptyString]
  else if single_dot buffer then
    if slash then path else path ++ [EmptyString]
  else path ++ [buffer].

Definition slash (c : ascii) : bool :=
  Ascii.eqb c "/" || Ascii.eqb c "\".

Definition ends_path (c : ascii) : bool :=
  Ascii.eqb c "?" || Ascii.eqb c "#".

(** The path state. *)
Fixpoint path_state (input : string) (path : list string) (buffer : string)
  : list string :=
  match input with
  | EmptyString => close path buffer false
  | String c rest =>
      if slash c then path_state rest (close path buffer true) EmptyString
      else if ends_path c then close path buffer false
      else path_state rest path (buffer +:+ percent_encode c)
  end.

Fixpoint serialize (path : list string) : string :=
  match path with
  | [] => EmptyString
  | segment :: path => "/" +:+ segment +:+ serialize path
  end.

Definition after_scheme (input : string) : string :=
  if String.prefix "https://" input
  then substring 8 (String.length input - 8) input
  else if String.prefix "http://" input
  then substring 7 (String.length input - 7) input
  else input.

Fixpoint after_host (input : string) : string :=
  match input with
  | String c rest =>
      if slash c || ends_path c then input else after_host rest
  | EmptyString => EmptyString
  end.

Definition pathname (input : string) : string :=
  let input := without_tabs (trim_end (trim_start input)) in
  let rest := after_host (after_scheme input) in
  let rest :=
    match rest with
    | String c rest' => if slash c then rest' else rest
    | EmptyString => EmptyString
    end in
  serialize (path_state rest [] EmptyString).

End URL.

(** ** The tools (src/unnamed/part_002) *)

Module CodeTools.

Inductive result :=
| Failure (error : string)
| Moved (sourcePath destinationPath : string)
| Renamed (oldPath newPath : string).

(** The two URLs that the tools and the import build, and the pathnames
    that the router sees when the URL parser leaves their paths as they
    are. *)
Definition file_url (projectId path : string) : string :=
  "https://dummy/projects/" +:+ projectId +:+ "/files/" +:+ path.

Definition files_url (projectId : string) : string :=
  "https://dummy/projects/" +:+ projectId +:+ "/files".

Definition file_pathname (projectId path : string) : string :=
  "/projects/" +:+ projectId +:+ "/files/" +:+ path.

Definition files_pathname (projectId : string) : string :=
  "/projects/" +:+ projectId +:+ "/files".

Definition with_bucket (b : gmap string R2.object) (s : ProjectManager.state)
  : ProjectManager.state :=
  {| ProjectManager.projects := ProjectManager.projects s;
     ProjectManager.files := ProjectManager.files s;
     ProjectManager.FILES := b |}.

(** What the other tools return: [{ success: false, error }] or
    [{ success: true, ... }] with the fields of the tool. *)
Inductive answer :=
| Failed (error : string)
| Content (filePath content : string)
| Written (filePath : string)
| Created (path : string) (type : FileType)
| Deleted (filePath : string).

(** [response.ok] *)
Definition ok (r : Response.t) : bool :=
  (200 <=? Response.status r) && (Response.status r <=? 299).

(** [x || d] on a string. *)
Definition or_else (x d : string) : string :=
  if String.eqb x "" then d else x.

Definition readFile (projectId filePath : string) (s : ProjectManager.state)
  : answer :=
  if String.eqb projectId "" then Failed "No project context available"
  else
    match R2.get (projectId +:+ "/" +:+ filePath) (ProjectManager.FILES s) with
    | None => Failed "File not found"
    | Some object => Content filePath (R2.body object)
    end.

(** One entry of the list that [listFiles] returns. *)
Record entry := {
  entry_path : string;
  entry_name : string;
  entry_type : FileType;
  entry_size : Z
}.

Inductive listing :=
| NotListed (error : string)
| Listed (entries : list entry).

Definition entry_of (f : FileNode.t) : entry :=
  {| entry_path := FileNode.path f; entry_name := FileNode.name f;
     entry_type := FileNode.type f; entry_size := FileNode.size f |}.

Section WithURL.

(** [new URL(url).pathname], the parser of the runtime: [new Request(url)]
    and the router's [new URL(request.url)] hand the router the path of
    the URL as the parser writes it, percent-encoded and without dot
    segments, query and fragment. *)
Variable URL_pathname : string -> string.

(** The part that [moveFile] and [renameFile] share, from the read of
    the source object on; [uuid] and the two clock readings are what the
    two requests to the Project Actor consume.  A request that rejects
    is caught by the tool, which reports the message of the error. *)
Definition relocate (projectId fromPath toPath : string)
    (missing : string) (uuid : string) (now1 now2 : Z)
    (s : ProjectManager.state) : option string * ProjectManager.state :=
  let sourceKey := projectId +:+ "/" +:+ fromPath in
  match R2.get sourceKey (ProjectManager.FILES s) with
  | None => (Some missing, s)
  | Some sourceObject =>
      let content := R2.body sourceObject in
      let destKey := projectId +:+ "/" +:+ toPath in
      let s := with_bucket (R2.put destKey content None
                                   (ProjectManager.FILES s)) s in
      let s := with_bucket (R2.delete sourceKey (ProjectManager.FILES s)) s in
      match
        ProjectManager.fetch
          {| ProjectManager.method := "DELETE";
             ProjectManager.pathname :=
               URL_pathname (file_url projectId fromPath);
             ProjectManager.X_User_Id := None;
             ProjectManager.json := ProjectManager.NoBody |} uuid now1 s
      with
      | (ProjectManager.Throws e, s) => (Some e, s)
      | (ProjectManager.Returns _, s) =>
          match
            ProjectManager.fetch
              {| ProjectManager.method := "PUT";
                 ProjectManager.pathname :=
                   URL_pathname (file_url projectId toPath);
                 ProjectManager.X_User_Id := None;
                 ProjectManager.json := ProjectManager.ContentBody content |}
              uuid now2 s
          with
          | (ProjectManager.Throws e, s) => (Some e, s)
          | (ProjectManager.Returns _, s) => (None, s)
          end
      end
  end.

Definition moveFile (projectId sourcePath destinationPath : string)
    (uuid : string) (now1 now2 : Z) (s : ProjectManager.state)
  : result * ProjectManager.state :=
  if String.eqb projectId "" then
    (Failure "No project context available", s)
  else
    match relocate projectId sourcePath destinationPath
                   "Source file not found" uuid now1 now2 s with
    | (Some error, s') => (Failure error, s')
    | (None, s') => (Moved sourcePath destinationPath, s')
    end.

Definition renameFile (projectId filePath newName : string)
    (uuid : string) (now1 now2 : Z) (s : ProjectManager.state)
  : result * ProjectManager.state :=
  if String.eqb projectId "" then
    (Failure "No project context available", s)
  else
    let pathParts := JS.split filePath "/" in
    let newPath := JS.join (removelast pathParts ++ [newName]) "/" in
    match relocate projectId filePath newPath "File not found"
                   uuid now1 now2 s with
    | (Some error, s') => (Failure error, s')
    | (None, s') => (Renamed filePath newPath, s')
    end.

(** The router of the Project Actor reads [projectId] and [path] back
    from the request for [file_url projectId path]: the URL parser
    leaves the path as it is, the id has no [/], and the text in front
    of the first [/files/] of the pathname is [/projects/{projectId}],
    the rest being [path]. *)
Definition resolves (projectId path : string) : Prop :=
  URL_pathname (file_url projectId path) = file_pathname projectId path
  /\ JS.split projectId "/" = [projectId]
  /\ JS.split (file_pathname projectId path) "/files/"
     = ["/projects/" +:+ projectId; path].

(** The same for the request for [files_url projectId]. *)
Definition resolves_files (projectId : string) : Prop :=
  URL_pathname (files_url projectId) = files_pathname projectId
  /\ JS.split projectId "/" = [projectId].

(** *** The tools that write, create, delete and list *)

(** [statusText] is the text that the runtime gives [response.statusText]
    for the status of the response. *)
Definition writeFile (statusText : Z -> string)
    (projectId filePath content : string) (uuid : string) (now : Z)
    (s : ProjectManager.state) : answer * ProjectManager.state :=
  if String.eqb projectId "" then (Failed "No project context available", s)
  else
    let r2Key := projectId +:+ "/" +:+ filePath in
    let s := with_bucket (R2.put r2Key content None (ProjectManager.FILES s)) s in
    match
      ProjectManager.fetch
        {| ProjectManager.method := "PUT";
           ProjectManager.pathname :=
             URL_pathname (file_url projectId filePath);
           ProjectManager.X_User_Id := None;
           ProjectManager.json := ProjectManager.ContentBody content |}
        uuid now s
    with
    | (ProjectManager.Throws e, s) => (Failed e, s)
    | (ProjectManager.Returns response, s) =>
        if ok response then (Written filePath, s)
        else (Failed ("Failed to update file metadata: "
                      +:+ statusText (Response.status response)), s)
    end.

(** The tool [createFile]; without a [content] argument the parameter
    default makes it the empty string. *)
Definition createFile (projectId path : string) (type : FileType)
    (content : string) (uuid : string) (now : Z) (s : ProjectManager.state)
  : answer * ProjectManager.state :=
  if String.eqb projectId "" then (Failed "No project context available", s)
  else
    let parts := JS.split path "/" in
    let parentPath := string_or (Some (JS.join (removelast parts) "/")) None in
    let name := or_else (default "" (JS.pop parts)) path in
    match
      ProjectManager.fetch
        {| ProjectManager.method := "POST";
           ProjectManager.pathname := URL_pathname (files_url projectId);
           ProjectManager.X_User_Id := None;
           ProjectManager.json :=
             ProjectManager.FileBody
               {| FileData.path := path; FileData.name := name;
                  FileData.type := type; FileData.parent_path := parentPath;
                  FileData.size :=
                    Some (match type with
                          | file => Z.of_nat (JS.length content)
                          | directory => 0
                          end);
                  FileData.content := None |} |}
        uuid now s
    with
    | (ProjectManager.Throws e, s) => (Failed e, s)
    | (ProjectManager.Returns response, s) =>
        if ok response then
          match type with
          | file =>
              (Created path type,
               with_bucket (R2.put (projectId +:+ "/" +:+ path) content None
                                   (ProjectManager.FILES s)) s)
          | directory => (Created path type, s)
          end
        else (Failed "Failed to create file", s)
    end.

Definition deleteFile (projectId filePath : string) (uuid : string) (now : Z)
    (s : ProjectManager.state) : answer * ProjectManager.state :=
  if String.eqb projectId "" then (Failed "No project context available", s)
  else
    match
      ProjectManager.fetch
        {| ProjectManager.method := "DELETE";
           ProjectManager.pathname :=
             URL_pathname (file_url projectId filePath);
           ProjectManager.X_User_Id := None;
           ProjectManager.json := ProjectManager.NoBody |}
        uuid now s
    with
    | (ProjectManager.Throws e, s) => (Failed e, s)
    | (ProjectManager.Returns response, s) =>
        if ok response then (Deleted filePath, s)
        else (Failed "Failed to delete file", s)
    end.

(** A response that is [ok] and whose body is not a list of rows makes
    [files.map] throw; the message is the one of the runtime. *)
Definition listFiles (projectId : string) (uuid : string) (now : Z)
    (s : ProjectManager.state) : listing * ProjectManager.state :=
  if String.eqb projectId "" then (NotListed "No project context available", s)
  else
    match
      ProjectManager.fetch
        {| ProjectManager.method := "GET";
           ProjectManager.pathname := URL_pathname (files_url projectId);
           ProjectManager.X_User_Id := None;
           ProjectManager.json := ProjectManager.NoBody |}
        uuid now s
    with
    | (ProjectManager.Throws e, s) => (NotListed e, s)
    | (ProjectManager.Returns response, s) =>
        if ok response then
          match Response.payload response with
          | Response.Files fs => (Listed (entry_of <$> fs), s)
          | _ => (NotListed "files.map is not a function", s)
          end
        else (NotListed "Failed to get files", s)
    end.

End WithURL.

End CodeTools.

(** ** The import of a cloned repository: [importGitFilesIntoProject] *)

Module GitClone.

Module GitFile.
Record t := { path : string; content : string; type : FileType }.
End GitFile.

(** [path.split("/").slice(0, -1).join("/") || null] *)
Definition parent_of (path : string) : option string :=
  string_or (Some (JS.join (removelast (JS.split path "/")) "/")) None.

(** [path.split("/").pop() || path] *)
Definition name_of (path : string) : string :=
  CodeTools.or_else (default "" (JS.pop (JS.split path "/"))) path.

(** The bodies of the two kinds of request. *)
Definition directory_body (dir : GitFile.t) : FileData.t :=
  {| FileData.path := GitFile.path dir;
     FileData.name := name_of (GitFile.path dir);
     FileData.type := directory;
     FileData.parent_path := parent_of (GitFile.path dir);
     FileData.size := Some 0;
     FileData.content := None |}.

Definition file_body (f : GitFile.t) : FileData.t :=
  {| FileData.path := GitFile.path f;
     FileData.name := name_of (GitFile.path f);
     FileData.type := file;
     FileData.parent_path := parent_of (GitFile.path f);
     FileData.size := Some (Z.of_nat (JS.length (GitFile.content f)));
     FileData.content := Some (GitFile.content f) |}.

Definition files_url (projectId : string) : string :=
  "http://internal/projects/" +:+ projectId +:+ "/files".

Section WithURL.

Variable URL_pathname : string -> string.

(** One loop of requests: the [i]-th request to the Project Actor
    consumes the identifier [uuid i] and the clock reading [now i].  A
    response is dropped whatever its status; a request that rejects is
    not caught, and the import ends there with its error. *)
Fixpoint post_all (projectId : string) (uuid : nat -> string)
    (now : nat -> Z) (i : nat) (bodies : list FileData.t)
    (s : ProjectManager.state) : option string * ProjectManager.state :=
  match bodies with
  | [] => (None, s)
  | data :: rest =>
      match
        ProjectManager.fetch
          {| ProjectManager.method := "POST";
             ProjectManager.pathname := URL_pathname (files_url projectId);
             ProjectManager.X_User_Id := None;
             ProjectManager.json := ProjectManager.FileBody data |}
          (uuid i) (now i) s
      with
      | (ProjectManager.Throws e, s) => (Some e, s)
      | (ProjectManager.Returns _, s) =>
          post_all projectId uuid now (S i) rest s
      end
  end.

(** [None] when the promise of the import resolves, the error when it
    rejects. *)
Definition importGitFilesIntoProject (projectId : string)
    (files : list GitFile.t) (uuid : nat -> string) (now : nat -> Z)
    (s : ProjectManager.state) : option string * ProjectManager.state :=
  let directories :=
    filter (fun f => type_text (GitFile.type f) = "directory") files in
  match post_all projectId uuid now 0 (directory_body <$> directories) s with
  | (Some e, s) => (Some e, s)
  | (None, s) =>
      let regularFiles :=
        filter (fun f => type_text (GitFile.type f) = "file") files in
      post_all projectId uuid now (length directories)
               (file_body <$> regularFiles) s
  end.

End WithURL.

End GitClone.

(** ** Scenarios: the concrete inputs of the examples *)

Module Scenario.

Definition index_html : FileData.t :=
  {| FileData.path := "index.html"; FileData.name := "index.html";
     FileData.type := file; FileData.parent_path := None;
     FileData.size := None; FileData.content := Some "<h1>hi</h1>" |}.

Definition src_dir : FileData.t :=
  {| FileData.path := "src"; FileData.name := "src";
     FileData.type := directory; FileData.parent_path := None;
     FileData.size := Some 0; FileData.content := None |}.

Definition a_txt : FileData.t :=
  {| FileData.path := "a.txt"; FileData.name := "a.txt";
     FileData.type := file; FileData.parent_path := None;
     FileData.size := Some 1; FileData.content := Some "x" |}.

(** A project [demo] that holds the one file [index.html]. *)
Definition demo : ProjectManager.state :=
  (ProjectManager.createFile "demo" index_html "f1" 1 ProjectManager.init).2.

(** A project [p] with the directory [src] and, created after it, the
    file [a.txt]. *)
Definition with_dir : ProjectManager.state :=
  (ProjectManager.createFile "p" src_dir "d1" 1 ProjectManager.init).2.

Definition dir_and_file : ProjectManager.state :=
  (ProjectManager.createFile "p" a_txt "f1" 2 with_dir).2.

(** The bucket of a static site, a build request for it, and the
    reference reader as [JSON.parse]. *)
Definition object (body : string) : R2.object :=
  {| R2.body := body; R2.contentType := None |}.

Definition config (projectId : string) : BuildConfig.t :=
  {| BuildConfig.projectId := projectId; BuildConfig.buildCommand := None;
     BuildConfig.installCommand := None; BuildConfig.outputDir := None |}.

Definition site : gmap string R2.object :=
  {[ "demo/index.html" := object "<h1>hi</h1>" ]}.

(** A Vue manifest and one component: no conventional entry file. *)
Definition vue_app : gmap string R2.object :=
  <[ "vue/package.json" :=
       object (JSON.text "{'dependencies': {'vue': '^3.4.0'}}") ]>
    {[ "vue/src/App.vue" := object "<template></template>" ]}.

(** A React manifest and one component: no conventional entry file. *)
Definition react_app : gmap string R2.object :=
  <[ "react/package.json" :=
       object (JSON.text "{'dependencies': {'react': '^18.2.0'}}") ]>
    {[ "react/src/App.tsx" := object "export default () => null;" ]}.

(** A React manifest and the entry file [src/main.tsx]. *)
Definition react_entry : gmap string R2.object :=
  <[ "app/package.json" :=
       object (JSON.text "{'dependencies': {'react': '^18.2.0'}}") ]>
    {[ "app/src/main.tsx" := object "render();" ]}.

(** A manifest that is not JSON. *)
Definition broken_manifest : gmap string R2.object :=
  <[ "broken/package.json" := object "{ name: demo" ]>
    {[ "broken/index.html" := object "<h1>hi</h1>" ]}.

(** One script and nothing the detection knows. *)
Definition script_only : gmap string R2.object :=
  {[ "py/main.py" := object "print(1)" ]}.

(** A repository as [cloneGitRepository] returns it, and the
    identifiers and clock readings of the requests of its import. *)
Definition repo : list GitClone.GitFile.t :=
  [ {| GitClone.GitFile.path := "README.md";
       GitClone.GitFile.content := "# demo";
       GitClone.GitFile.type := file |};
    {| GitClone.GitFile.path := "src";
       GitClone.GitFile.content := "";
       GitClone.GitFile.type := directory |};
    {| GitClone.GitFile.path := "src/a.txt";
       GitClone.GitFile.content := "x";
       GitClone.GitFile.type := file |} ].

Definition ids (i : nat) : string := "id-" +:+ JS.of_nat i.

Definition clock (i : nat) : Z := 100 + Z.of_nat i.

(** A project of 1001 objects: 999 assets, [index.html], and a manifest
    that is not JSON, whose key is the last in the order of the
    listing; and clock readings for the turns of its build. *)
Definition large : gmap string R2.object :=
  <[ "big/package.json" := object "{ name: demo" ]>
    (<[ "big/index.html" := object "<h1>hi</h1>" ]>
       (list_to_map
          ((fun i => ("big/a" +:+ JS.of_nat i, object "x")) <$> seq 0 999))).

Definition ticks : list Z := Z.of_nat <$> seq 11 2002.

(** A build record as [buildProject] may receive it. *)
Definition some_build : BuildStatus.t :=
  {| BuildStatus.id := "b0"; BuildStatus.projectId := "demo";
     BuildStatus.status := building; BuildStatus.logs := [];
     BuildStatus.previewUrl := None; BuildStatus.startedAt := 0;
     BuildStatus.completedAt := None; BuildStatus.error := None |}.

(** The build [b1] of [site] right after [startBuild]. *)
Definition started : BuildRunner.state :=
  (BuildRunner.startBuild (config "demo") "b1" 10 (BuildRunner.init site)).2.

End Scenario.

(** * Properties *)

(** ** Sorting *)

Section SortFacts.

Context {A : Type} (before : A -> A -> bool).

Lemma insert_sorted_perm x l : JS.insert_sorted before x l ≡ₚ x :: l.
Proof.
  induction l as [|y l IH]; cbn; [reflexivity|].
  destruct (before x y); [reflexivity|].
  rewrite IH. apply Permutation_swap.
Qed.

Lemma sort_perm l : JS.sort before l ≡ₚ l.
Proof.
  induction l as [|x l IH]; cbn; [reflexivity|].
  by rewrite insert_sorted_perm, IH.
Qed.

Hypothesis before_total : forall x y, before x y = false -> before y x = true.

Lemma insert_sorted_Sorted x l :
  Sorted (fun a b => before a b = true) l ->
  Sorted (fun a b => before a b = true) (JS.insert_sorted before x l).
Proof.
  induction 1 as [|y l Hl IH Hhd]; cbn.
  - repeat constructor.
  - destruct (before x y) eqn:Hxy.
    + repeat constructor; assumption.
    + constructor; [exact IH|].
      destruct Hhd as [|z l' Hyz]; cbn.
      * constructor. by apply before_total.
      * destruct (before x z); constructor; auto.
Qed.

Lemma sort_Sorted l : Sorted (fun a b => before a b = true) (JS.sort before l).
Proof.
  induction l as [|x l IH]; cbn; [constructor|].
  by apply insert_sorted_Sorted.
Qed.

End SortFacts.

(** ** The Project Actor *)

Section ProjectManagerFacts.

Import ProjectManager.

Lemma filter_fmap_commute {A : Type} (P : A -> Prop)
    `{!forall x, Decision (P x)} (g : A -> A) (l : list A) :
  (forall x, P (g x) <-> P x) -> filter P (g <$> l) = g <$> filter P l.
Proof.
  intros Hg. induction l as [|x l IH]; [reflexivity|].
  rewrite fmap_cons, !filter_cons.
  destruct (decide (P (g x))) as [Hy|Hn], (decide (P x)) as [Hy'|Hn'];
    rewrite ?fmap_cons, IH; try reflexivity.
  - exfalso. apply Hn', Hg, Hy.
  - exfalso. apply Hn, Hg, Hy'.
Qed.

Lemma select_file_update_file pid filePath sz now fid fs :
  select_file pid filePath (update_file sz now fid fs)
  = update_file sz now fid (select_file pid filePath fs).
Proof.
  unfold select_file, update_file. apply filter_fmap_commute.
  intros f. destruct (decide (FileNode.id f = fid)); reflexivity.
Qed.

Lemma select_file_by_id_update_file fid' sz now fid fs :
  select_file_by_id fid' (update_file sz now fid fs)
  = update_file sz now fid (select_file_by_id fid' fs).
Proof.
  unfold select_file_by_id, update_file. apply filter_fmap_commute.
  intros f. destruct (decide (FileNode.id f = fid)); reflexivity.
Qed.

Lemma select_file_head_in pid filePath fs f rest :
  select_file pid filePath fs = f :: rest ->
  f ∈ fs /\ FileNode.project_id f = pid /\ FileNode.path f = filePath.
Proof.
  intros H.
  assert (Hin : f ∈ select_file pid filePath fs) by (rewrite H; left).
  apply list_elem_of_filter in Hin as [[? ?] ?]. auto.
Qed.

Lemma select_file_by_id_of_member f fs :
  f ∈ fs -> exists g rest, select_file_by_id (FileNode.id f) fs = g :: rest.
Proof.
  intros Hin.
  assert (H : f ∈ select_file_by_id (FileNode.id f) fs)
    by (apply list_elem_of_filter; auto).
  destruct (select_file_by_id (FileNode.id f) fs) as [|g rest]; eauto.
  inversion H.
Qed.

(** C3: when the metadata row of [filePath] exists, [updateFile] answers
    200 with the new content, and the [getFile] that follows returns
    that content together with a row whose [size] is the length of the
    UTF-8 encoding of the content. *)
Theorem updateFile_then_getFile pid filePath content now s :
  select_file pid filePath (files s) <> [] ->
  exists updated f,
    updateFile pid filePath content now s
    = (Returns (Response.json (Response.FileWithContent updated content)),
       (updateFile pid filePath content now s).2)
    /\ getFile pid filePath (updateFile pid filePath content now s).2
       = (Returns (Response.json (Response.FileWithContent f content)),
          (updateFile pid filePath content now s).2)
    /\ FileNode.size f
       = Z.of_nat (length (JS.TextEncoder_encode content))
    /\ FileNode.path f = filePath
    /\ FileNode.project_id f = pid.
Proof.
  intros Hrow. unfold updateFile.
  destruct (select_file pid filePath (files s)) as [|f0 rest] eqn:Hsel;
    [congruence|].
  destruct (select_file_head_in _ _ _ _ _ Hsel) as (Hin & Hp & Hpath).
  destruct (select_file_by_id_of_member _ _ Hin) as (g & grest & Hid).
  rewrite select_file_by_id_update_file, Hid.
  cbn [update_file fmap list_fmap snd]. cbn.
  eexists _, _. split; [reflexivity|].
  unfold getFile; cbn [files FILES].
  rewrite select_file_update_file, Hsel. cbn.
  rewrite decide_True by reflexivity.
  unfold R2.get, R2.put. rewrite lookup_insert_eq. cbn.
  split; [reflexivity|]. auto.
Qed.

Lemma insert_file_inv f fs fs' :
  insert_file f fs = inr fs' ->
  select_file_by_id (FileNode.id f) fs = []
  /\ select_file (FileNode.project_id f) (FileNode.path f) fs = []
  /\ fs' = fs ++ [f].
Proof.
  unfold insert_file.
  destruct (select_file_by_id (FileNode.id f) fs); [|discriminate].
  destruct (select_file (FileNode.project_id f) (FileNode.path f) fs);
    [|discriminate].
  intros [= <-]. auto.
Qed.

(** C5, as the code has it: a [createFile] of a file that succeeds
    stores the [size] that the caller sent, 0 when it sent none, whatever
    the content is; the content written under the key of the file is the
    one provided, or the empty string. *)
Theorem createFile_size_from_caller pid data id now s r s' :
  FileData.type data = file ->
  createFile pid data id now s = (Returns r, s') ->
  exists f,
    r = Response.json (Response.OneFile f)
    /\ select_file pid (FileData.path data) (files s') = [f]
    /\ FileNode.type f = file
    /\ FileNode.size f = default 0 (FileData.size data)
    /\ R2.get (r2Key pid (FileData.path data)) (FILES s')
       = Some {| R2.body :=
                   default "" (string_or (FileData.content data) (Some ""));
                 R2.contentType := None |}.
Proof.
  intros Htype. unfold createFile.
  destruct (insert_file _ (files s)) as [e|fs] eqn:Hins; [discriminate|].
  apply insert_file_inv in Hins as (Hid & Hsel & ->).
  cbn [FileNode.id FileNode.project_id FileNode.path] in Hid, Hsel.
  unfold select_file_by_id in *. rewrite filter_app, Hid.
  rewrite filter_cons, decide_True by reflexivity.
  cbn [filter list_filter app]. intros [= <- <-].
  eexists. split; [reflexivity|]. cbn [files FILES].
  unfold select_file in *. rewrite filter_app, Hsel.
  rewrite filter_cons, decide_True by (split; reflexivity).
  cbn [filter list_filter app FileNode.type FileNode.size].
  rewrite Htype.
  repeat split; try reflexivity.
  unfold R2.get, R2.put. apply lookup_insert_eq.
Qed.

(** C5, the witness: [index.html] created in a fresh project. *)
Lemma createFile_size_from_caller_witness :
  exists f,
    select_file "demo" "index.html" (files Scenario.demo) = [f]
    /\ FileNode.size f = 0.
Proof.
  destruct (createFile_size_from_caller "demo" Scenario.index_html "f1" 1
              init
              (Response.json (Response.OneFile
                 {| FileNode.id := "f1"; FileNode.project_id := "demo";
                    FileNode.path := "index.html";
                    FileNode.name := "index.html"; FileNode.type := file;
                    FileNode.parent_path := None; FileNode.size := 0;
                    FileNode.created_at := 1; FileNode.updated_at := 1 |}))
              Scenario.demo eq_refl)
    as (f & _ & Hsel & _ & Hsize & _).
  - vm_compute. reflexivity.
  - exists f. split; [exact Hsel | exact Hsize].
Defined.

(** C5, the claim refuted: the file is created with the eleven bytes
    of ["<h1>hi</h1>"] and no [size] in the request; the stored row
    has [size] 0. *)
Lemma createFile_size_not_byte_length :
  exists f,
    (createFile "demo" Scenario.index_html "f1" 1 init).1
    = Returns (Response.json (Response.OneFile f))
    /\ R2.body <$> R2.get (r2Key "demo" "index.html") (FILES Scenario.demo)
       = Some "<h1>hi</h1>"
    /\ FileNode.type f = file
    /\ FileNode.size f
       <> Z.of_nat (length (JS.TextEncoder_encode "<h1>hi</h1>")).
Proof.
  eexists. split; [vm_compute; reflexivity|].
  split; [vm_compute; reflexivity|].
  split; [reflexivity|]. vm_compute. discriminate.
Qed.

(** C3, the witness: the file of [Scenario.demo] rewritten. *)
Lemma updateFile_then_getFile_witness :
  exists f,
    getFile "demo" "index.html"
            (updateFile "demo" "index.html" "héllo" 2 Scenario.demo).2
    = (Returns (Response.json (Response.FileWithContent f "héllo")),
       (updateFile "demo" "index.html" "héllo" 2 Scenario.demo).2)
    /\ FileNode.size f = 6.
Proof.
  destruct (updateFile_then_getFile "demo" "index.html" "héllo" 2
              Scenario.demo)
    as (u & f & _ & Hget & Hsize & _).
  - vm_compute. discriminate.
  - exists f. split; [exact Hget | exact Hsize].
Defined.

(** C2, the failing run: [src] is created as a directory and then
    [updateFile] is called on its path.  The call answers 200 and leaves
    a content blob under the key of the directory. *)
Lemma updateFile_writes_blob_for_directory :
  let s := (updateFile "p" "src" "x" 2 Scenario.with_dir).2 in
  R2.get (r2Key "p" "src") (FILES Scenario.with_dir) = None
  /\ FileNode.type <$> select_file "p" "src" (files s) = [directory]
  /\ R2.body <$> R2.get (r2Key "p" "src") (FILES s) = Some "x"
  /\ Response.status
       <$> (match (updateFile "p" "src" "x" 2 Scenario.with_dir).1 with
            | Returns r => Some r
            | Throws _ => None
            end) = Some 200.
Proof. vm_compute. repeat split; reflexivity. Qed.

(** C4, the failing run: a project with the directory [src] and the
    file [a.txt]; the listing puts the file in front of the directory. *)
Lemma getFileTree_lists_file_before_directory :
  exists fs,
    (getFileTree "p" Scenario.dir_and_file).1
    = Returns (Response.json (Response.Files fs))
    /\ (fun f => (FileNode.name f, FileNode.type f)) <$> fs
       = [("a.txt", file); ("src", directory)].
Proof. eexists. split; vm_compute; reflexivity. Qed.

(** *** The order of the listing *)

Lemma by_type_desc_name_asc_total a b :
  by_type_desc_name_asc a b = false -> by_type_desc_name_asc b a = true.
Proof.
  unfold by_type_desc_name_asc.
  destruct (String.leb_total (FileNode.name a) (FileNode.name b)) as [H|H];
    destruct (FileNode.type a), (FileNode.type b);
    change (String.compare (type_text file) (type_text file)) with Eq;
    change (String.compare (type_text directory) (type_text directory))
      with Eq;
    change (String.compare (type_text file) (type_text directory)) with Gt;
    change (String.compare (type_text directory) (type_text file)) with Lt;
    cbv iota; congruence.
Qed.

Lemma directory_then_directories a l :
  Sorted (fun a b => by_type_desc_name_asc a b = true) (a :: l) ->
  FileNode.type a = directory ->
  Forall (fun f => FileNode.type f = directory) l.
Proof.
  revert a. induction l as [|b l IH]; intros a Hs Ha; [constructor|].
  inversion Hs as [|? ? Hs' Hrel]; subst.
  assert (Hhd : by_type_desc_name_asc a b = true)
    by (inversion Hrel; assumption).
  assert (Hb : FileNode.type b = directory).
  { unfold by_type_desc_name_asc in Hhd. rewrite Ha in Hhd.
    destruct (FileNode.type b); [|reflexivity].
    change (String.compare (type_text file) (type_text directory)) with Gt
      in Hhd.
    discriminate. }
  constructor; [exact Hb | by apply (IH b)].
Qed.

Lemma sorted_files_then_directories l :
  Sorted (fun a b => by_type_desc_name_asc a b = true) l ->
  exists files_ directories,
    l = files_ ++ directories
    /\ Forall (fun f => FileNode.type f = file) files_
    /\ Forall (fun f => FileNode.type f = directory) directories.
Proof.
  induction l as [|a l IH]; intros Hs.
  - exists [], []. repeat split; constructor.
  - destruct (FileNode.type a) eqn:Ha.
    + inversion Hs as [|? ? Hs' _]; subst.
      destruct (IH Hs') as (l1 & l2 & Hl & H1 & H2).
      exists (a :: l1), l2. rewrite Hl. repeat split; auto.
    + exists [], (a :: l). repeat split; [constructor|].
      constructor; [exact Ha|].
      by apply (directory_then_directories a).
Qed.

(** X22: what [getFileTree] returns: every row of the project, once;
    the rows of type [file] first and the rows of type [directory]
    after them; neighbours in the order of
    [ORDER BY type DESC, name ASC]. *)
Lemma getFileTree_files_then_directories pid s :
  exists fs files_ directories,
    getFileTree pid s = (Returns (Response.json (Response.Files fs)), s)
    /\ fs ≡ₚ filter (fun f => FileNode.project_id f = pid) (files s)
    /\ Sorted (fun a b => by_type_desc_name_asc a b = true) fs
    /\ fs = files_ ++ directories
    /\ Forall (fun f => FileNode.type f = file) files_
    /\ Forall (fun f => FileNode.type f = directory) directories.
Proof.
  unfold getFileTree.
  set (rows := filter _ (files s)).
  pose proof (sort_Sorted _ by_type_desc_name_asc_total rows) as Hsorted.
  destruct (sorted_files_then_directories _ Hsorted) as (l1 & l2 & Hl & H1 & H2).
  exists (JS.sort by_type_desc_name_asc rows), l1, l2.
  repeat split; auto. apply sort_perm.
Qed.

(** *** Requests that the router turns away *)

(** The two requests by which the editor asks for a move and for a
    rename match no route. *)
Lemma fetch_move_and_rename_not_found body userId uuid now s :
  fetch {| method := "POST"; pathname := "/projects/demo/files/move";
           X_User_Id := userId; json := body |} uuid now s
  = (Returns {| Response.status := 404;
                Response.payload := Response.Text "Not found" |}, s)
  /\ fetch {| method := "POST"; pathname := "/projects/demo/files/rename";
              X_User_Id := userId; json := body |} uuid now s
     = (Returns {| Response.status := 404;
                   Response.payload := Response.Text "Not found" |}, s).
Proof. split; reflexivity. Qed.

(** *** Requests that [updateFile] turns away *)

Lemma updateFile_unknown_path pid filePath content now s :
  select_file pid filePath (files s) = [] ->
  updateFile pid filePath content now s
  = (Returns {| Response.status := 404;
                Response.payload := Response.Text "File not found" |}, s).
Proof. intros H. unfold updateFile. by rewrite H. Qed.

End ProjectManagerFacts.

(** ** The Build Coordinator *)

Section BuildRunnerFacts.

Import BuildRunner.

Variable JSON_parse : string -> string + JSON.value.

(** *** [cancelBuild] *)

(** C6, as the code has it: on a build that is not terminal,
    [cancelBuild] sets [failed], the error ["Build cancelled by user"]
    and [completedAt], appends one log line, and the next
    [getBuildStatus] returns that record. *)
Theorem cancelBuild_non_terminal buildId now s build :
  builds s !! buildId = Some build ->
  terminal (BuildStatus.status build) = false ->
  exists build',
    cancelBuild buildId now s
    = (Json build', (cancelBuild buildId now s).2)
    /\ getBuildStatus buildId (cancelBuild buildId now s).2 = Json build'
    /\ BuildStatus.status build' = failed
    /\ BuildStatus.error build' = Some "Build cancelled by user"
    /\ BuildStatus.completedAt build' = Some now
    /\ BuildStatus.logs build'
       = BuildStatus.logs build
         ++ [{| LogLine.at_ := now; LogLine.text := "Build cancelled" |}].
Proof.
  intros Hb Hterm. unfold cancelBuild, getBuildStatus. rewrite Hb.
  destruct (BuildStatus.status build) eqn:Hst; try discriminate;
    (eexists; split; [reflexivity|]; cbn [snd builds];
     rewrite lookup_insert_eq; repeat split; reflexivity).
Qed.

(** C6, the witness: the build of [Scenario.started] is cancelled. *)
Lemma cancelBuild_non_terminal_witness :
  exists build',
    getBuildStatus "b1" (cancelBuild "b1" 11 Scenario.started).2
    = Json build'
    /\ BuildStatus.status build' = failed
    /\ BuildStatus.error build' = Some "Build cancelled by user".
Proof.
  destruct (cancelBuild_non_terminal "b1" 11 Scenario.started
              (on_start (Scenario.config "demo") 10
                 {| BuildStatus.id := "b1"; BuildStatus.projectId := "demo";
                    BuildStatus.status := pending; BuildStatus.logs := [];
                    BuildStatus.previewUrl := None;
                    BuildStatus.startedAt := 10;
                    BuildStatus.completedAt := None;
                    BuildStatus.error := None |}))
    as (b & _ & Hget & Hst & Herr & _).
  - vm_compute. reflexivity.
  - reflexivity.
  - exists b. auto.
Defined.

(** C6, the claim refuted: the error of a cancelled build is not the
    string ["cancelled"]. *)
Lemma cancelBuild_error_is_not_cancelled :
  exists build',
    getBuildStatus "b1" (cancelBuild "b1" 11 Scenario.started).2
    = Json build'
    /\ BuildStatus.status build' = failed
    /\ BuildStatus.error build' <> Some "cancelled".
Proof.
  eexists. split; [vm_compute; reflexivity|].
  split; [reflexivity|]. cbn. discriminate.
Qed.

(** *** The build phase *)

Lemma set_fresh k v (m : list (string * string)) :
  k ∉ m.*1 -> StringMap.set k v m = m ++ [(k, v)].
Proof.
  induction m as [|[k' v'] m IH]; intros Hk; [reflexivity|].
  cbn [StringMap.set]. rewrite fmap_cons in Hk.
  apply not_elem_of_cons in Hk as [Hne Hk].
  destruct (String.eqb_spec k' k) as [->|_]; [contradiction|].
  cbn. by rewrite IH.
Qed.

Lemma copy_all_fresh files : forall builtFiles,
  NoDup (BuildFile.path <$> files) ->
  (forall f, f ∈ files -> BuildFile.path f ∉ builtFiles.*1) ->
  copy_all files builtFiles = builtFiles ++ (entry_of <$> files).
Proof.
  induction files as [|f files IH]; intros m Hnd Hfresh.
  - cbn. by rewrite app_nil_r.
  - rewrite fmap_cons in Hnd. apply NoDup_cons in Hnd as [Hf Hnd].
    unfold copy_all in *. cbn [foldl].
    rewrite set_fresh by (apply Hfresh; left).
    rewrite IH; [by rewrite <- app_assoc| done |].
    intros g Hg. rewrite fmap_app. cbn. rewrite elem_of_app.
    intros [Hin|Hin].
    + eapply Hfresh; [right; exact Hg | exact Hin].
    + apply list_elem_of_singleton in Hin. apply Hf. rewrite <- Hin.
      apply list_elem_of_fmap. eauto.
Qed.

Lemma static_copy files config now build :
  NoDup (BuildFile.path <$> files) ->
  buildProject files "static" config now build
  = (inr (entry_of <$> files), build).
Proof.
  intros Hnd. unfold buildProject. cbn [String.eqb Ascii.eqb Bool.eqb].
  unfold ret. by rewrite copy_all_fresh by (done || set_solver).
Qed.

(** *** The files that a build reads *)

Lemma substring_whole s : substring 0 (String.length s) s = s.
Proof. induction s as [|c s IH]; cbn; [reflexivity | by rewrite IH]. Qed.

Lemma prefix_split p : forall k,
  String.prefix p k = true ->
  k = p +:+ substring (String.length p) (String.length k - String.length p) k.
Proof.
  induction p as [|a p IH]; intros k Hp.
  - cbn. by rewrite Nat.sub_0_r, substring_whole.
  - destruct k as [|b k]; [discriminate|]. cbn in Hp.
    destruct (ascii_dec a b) as [->|]; [|discriminate].
    cbn [String.length Nat.sub substring].
    change (String b k = String b (p +:+ substring (String.length p)
              (String.length k - String.length p) k)).
    f_equal. by apply IH.
Qed.

Lemma replace_prefix k p :
  p <> "" -> String.prefix p k = true ->
  replace k p ""
  = substring (String.length p) (String.length k - String.length p) k.
Proof.
  intros Hne Hp. unfold replace.
  assert (Hidx : index 0 p k = Some 0%nat).
  { destruct k as [|b k]; [by destruct p|]. cbn [index]. by rewrite Hp. }
  rewrite Hidx. cbn [Nat.add]. by destruct k.
Qed.

Lemma replace_prefix_inj p k1 k2 :
  p <> "" -> String.prefix p k1 = true -> String.prefix p k2 = true ->
  replace k1 p "" = replace k2 p "" -> k1 = k2.
Proof.
  intros Hne H1 H2 Heq. rewrite !replace_prefix in Heq by done.
  rewrite (prefix_split p k1 H1), (prefix_split p k2 H2). by rewrite Heq.
Qed.

Lemma read_paths projectId bucket keys : forall files,
  BuildFile.path <$> foldl (fun fs key => read_object projectId key bucket fs)
                           files keys
  = (BuildFile.path <$> files)
    ++ ((fun key => replace key (projectId +:+ "/") "")
          <$> filter (fun key => is_Some (bucket !! key)) keys).
Proof.
  induction keys as [|key keys IH]; intros files; cbn [foldl].
  - by rewrite app_nil_r.
  - rewrite IH, filter_cons. unfold read_object, R2.get.
    destruct (bucket !! key) as [o|] eqn:Hk.
    + rewrite decide_True by eauto.
      by rewrite fmap_app, fmap_cons, <- app_assoc.
    + rewrite decide_False by (intros [? ?]; discriminate). reflexivity.
Qed.

Lemma list_NoDup prefix bucket : NoDup (R2.list prefix bucket).
Proof.
  unfold R2.list. eapply sublist_NoDup; [|apply sublist_take].
  rewrite sort_perm. apply NoDup_filter, NoDup_fst_map_to_list.
Qed.

Lemma list_prefix prefix bucket key :
  key ∈ R2.list prefix bucket -> String.prefix prefix key = true.
Proof.
  unfold R2.list. intros Hin.
  apply subseteq_take in Hin.
  rewrite sort_perm in Hin. by apply list_elem_of_filter in Hin as [? _].
Qed.

(** The files that [getProjectFiles] returns have pairwise distinct
    paths. *)
Lemma getProjectFiles_NoDup projectId bucket :
  NoDup (BuildFile.path <$> getProjectFiles projectId bucket).
Proof.
  unfold getProjectFiles. rewrite read_paths. cbn [fmap list_fmap app].
  assert (Hne : projectId +:+ "/" <> "") by (by destruct projectId).
  apply NoDup_fmap_2_strong; [|apply NoDup_filter, list_NoDup].
  intros k1 k2 H1 H2.
  apply list_elem_of_filter in H1 as [_ H1], H2 as [_ H2].
  apply replace_prefix_inj; [done | by eapply list_prefix..].
Qed.

(** C8, as the code has it: for a project whose files are detected as
    [static], [buildProject] returns exactly the files that the build
    read, path by path and content by content, in their order; it throws
    nothing and logs nothing. *)
Theorem buildProject_static_copies_files projectId bucket config now build :
  detectProjectType JSON_parse (getProjectFiles projectId bucket) = "static" ->
  buildProject (getProjectFiles projectId bucket)
               (detectProjectType JSON_parse
                                  (getProjectFiles projectId bucket))
               config now build
  = (inr (entry_of <$> getProjectFiles projectId bucket), build).
Proof.
  intros ->. apply static_copy, getProjectFiles_NoDup.
Qed.

(** A cancellation that comes after the end changes nothing. *)
Lemma cancelBuild_terminal buildId now s build :
  builds s !! buildId = Some build ->
  terminal (BuildStatus.status build) = true ->
  cancelBuild buildId now s = (Json build, s).
Proof.
  intros Hb Hterm. unfold cancelBuild. rewrite Hb.
  by destruct (BuildStatus.status build).
Qed.

(** *** The background task, left alone *)

Lemma resumes_app nows1 : forall nows2 config build at_ bucket,
  resumes JSON_parse (nows1 ++ nows2) config build at_ bucket
  = let '(build', at', bucket') :=
      resumes JSON_parse nows1 config build at_ bucket in
    resumes JSON_parse nows2 config build' at' bucket'.
Proof.
  induction nows1 as [|now nows1 IH]; intros; [reflexivity|].
  cbn [app resumes].
  destruct (resume _ _ _ _ _ _) as [[b' a'] k']. apply IH.
Qed.

Lemma resumes_Finished nows : forall config build bucket,
  resumes JSON_parse nows config build Finished bucket
  = (build, Finished, bucket).
Proof. induction nows as [|now nows IH]; intros; [reflexivity|]. apply IH. Qed.

Lemma resumes_AwaitGet keys : forall nows now files config build bucket,
  keys <> [] ->
  S (length nows) = length keys ->
  resumes JSON_parse (nows ++ [now]) config build (AwaitGet keys files) bucket
  = (on_files JSON_parse
       (foldl (fun fs key =>
                 read_object (BuildConfig.projectId config) key bucket fs)
              files keys)
       config now build, bucket).
Proof.
  induction keys as [|key keys IH]; intros nows now files config build bucket
    Hne Hlen; [congruence|].
  destruct keys as [|key' keys].
  - destruct nows; [|discriminate].
    cbn [app resumes resume at_pc BuildRunner.config foldl].
    by destruct (on_files _ _ _ _ _).
  - destruct nows as [|n nows]; [discriminate|].
    cbn [app resumes resume at_pc BuildRunner.config].
    rewrite IH; [reflexivity | discriminate |].
    cbn in Hlen |- *. lia.
Qed.

Lemma resumes_AwaitList nows now config build bucket :
  length nows
  = length (R2.list (BuildConfig.projectId config +:+ "/") bucket) ->
  resumes JSON_parse (nows ++ [now]) config build AwaitList bucket
  = (on_files JSON_parse
       (getProjectFiles (BuildConfig.projectId config) bucket)
       config now build, bucket).
Proof.
  intros Hlen. unfold getProjectFiles.
  destruct (R2.list _ bucket) as [|key keys] eqn:Hkeys.
  - destruct nows; [|discriminate].
    cbn [app resumes resume at_pc BuildRunner.config]. rewrite Hkeys.
    by destruct (on_files _ _ _ _ _).
  - destruct nows as [|n nows]; [discriminate|].
    cbn [app resumes resume at_pc BuildRunner.config]. rewrite Hkeys.
    apply resumes_AwaitGet; [discriminate|]. cbn in Hlen |- *. lia.
Qed.

(** Enough turns: one per listed key and one for the listing itself
    bring the task to the end of [on_files]; if it finished there,
    further turns change nothing. *)
Lemma resumes_to_end nows config build bucket :
  (length (R2.list (BuildConfig.projectId config +:+ "/") bucket)
   < length nows)%nat ->
  exists now,
    now ∈ nows /\
    forall build',
      on_files JSON_parse
               (getProjectFiles (BuildConfig.projectId config) bucket)
               config now build = (build', Finished) ->
      resumes JSON_parse nows config build AwaitList bucket
      = (build', Finished, bucket).
Proof.
  intros Hlen.
  set (k := length (R2.list (BuildConfig.projectId config +:+ "/") bucket))
    in *.
  destruct (drop k nows) as [|now rest] eqn:Hdrop.
  { apply (f_equal length) in Hdrop. rewrite length_drop in Hdrop.
    cbn [length] in Hdrop. fold k in Hlen. lia. }
  exists now. split.
  { rewrite <- (take_drop k nows), Hdrop. set_solver. }
  intros build' Hend.
  rewrite <- (take_drop k nows), Hdrop.
  change (now :: rest) with ([now] ++ rest).
  rewrite app_assoc, resumes_app, resumes_AwaitList, Hend.
  - apply resumes_Finished.
  - rewrite length_take. lia.
Qed.

Lemma run_turns buildId nows : forall s t build,
  tasks s !! buildId = Some t ->
  builds s !! buildId = Some build ->
  run JSON_parse s (turns buildId nows)
  = let '(build', at', bucket') :=
      resumes JSON_parse nows (BuildRunner.config t) build (at_pc t)
              (FILES s) in
    {| builds := <[buildId := build']> (builds s);
       tasks := <[buildId := {| BuildRunner.config := BuildRunner.config t;
                                at_pc := at' |}]> (tasks s);
       FILES := bucket' |}.
Proof.
  induction nows as [|now nows IH]; intros s t build Ht Hb.
  - cbn. rewrite !insert_id; [by destruct s | by destruct t | done].
  - cbn [turns fmap list_fmap run foldl step resumes].
    unfold turn at 1. rewrite Ht, Hb. destruct t as [cfg a]. cbn [at_pc BuildRunner.config].
    destruct (resume _ _ _ _ _ _) as [[b1 a1] k1] eqn:Hres.
    fold (turns buildId nows).
    change (foldl (step JSON_parse) ?s0 (turns buildId nows))
      with (run JSON_parse s0 (turns buildId nows)).
    erewrite IH; [| cbn; apply lookup_insert_eq | cbn; apply lookup_insert_eq].
    cbn [at_pc BuildRunner.config builds tasks FILES].
    destruct (resumes _ _ _ _ _ _) as [[b2 a2] k2].
    by rewrite !insert_insert_eq.
Qed.

(** X23: once the task of a build has run to its end, neither a turn
    nor a cancellation changes the state. *)
Lemma finished_build_is_stable buildId s t build :
  tasks s !! buildId = Some t ->
  at_pc t = Finished ->
  builds s !! buildId = Some build ->
  terminal (BuildStatus.status build) = true ->
  (forall now, (cancelBuild buildId now s).2 = s)
  /\ (forall fault now, turn JSON_parse buildId fault now s = s).
Proof.
  intros Ht Hpc Hb Hterm. split.
  - intros now. by rewrite (cancelBuild_terminal _ _ _ _ Hb Hterm).
  - intros fault now. unfold turn. rewrite Ht, Hb.
    destruct t as [cfg a]. cbn in Hpc. subst a. cbn.
    rewrite !insert_id by done. by destruct s.
Qed.

(** *** Failing phases *)

Lemma find_existsb {A : Type} (f : A -> bool) (l : list A) (x : A) :
  find f l = Some x -> existsb f l = true.
Proof.
  intros H. apply find_some in H as [Hin Hf].
  apply existsb_exists. eauto.
Qed.

(** Only a manifest that parses to something other than [null] makes
    the detection answer with a framework. *)
Lemma detectProjectType_framework files :
  detectProjectType JSON_parse files <> "static" ->
  detectProjectType JSON_parse files <> "unknown" ->
  exists packageJson pkg,
    find (has_path "package.json") files = Some packageJson
    /\ JSON_parse (BuildFile.content packageJson) = inr pkg
    /\ pkg <> JSON.Null.
Proof.
  unfold detectProjectType.
  assert (Hfb : fallback files = "static" \/ fallback files = "unknown")
    by (unfold fallback; destruct (existsb _ files); auto).
  destruct (find (has_path "package.json") files) as [packageJson|];
    [|intros; exfalso; destruct Hfb; congruence].
  destruct (JSON_parse (BuildFile.content packageJson)) as [e|pkg]
    eqn:Hparse; [intros; exfalso; destruct Hfb; congruence|].
  destruct pkg; try (intros; exfalso; destruct Hfb; congruence);
    intros _ _; eexists _, _;
    (split; [reflexivity|]; split; [exact Hparse | discriminate]).
Qed.

Ltac run_phases :=
  unfold phases, installDependencies, buildProject, bind, log, set_status,
    ret, throw.

Lemma phases_no_entry files config now build projectType :
  detectProjectType JSON_parse files = projectType ->
  projectType = "react" \/ projectType = "vite-react" ->
  find is_entry files = None ->
  exists build',
    phases JSON_parse files config now build
    = (inl "No entry file found (main.tsx, index.tsx, etc.)", build')
    /\ BuildStatus.status build' = building
    /\ BuildStatus.previewUrl build' = BuildStatus.previewUrl build.
Proof.
  intros Hdetect Htype Hentry.
  destruct (detectProjectType_framework files)
    as (packageJson & pkg & Hfind & Hparse & Hnull).
  { rewrite Hdetect. destruct Htype as [-> | ->]; discriminate. }
  { rewrite Hdetect. destruct Htype as [-> | ->]; discriminate. }
  run_phases. rewrite (find_existsb _ _ _ Hfind), Hfind, Hparse, Hdetect.
  destruct Htype as [-> | ->]; rewrite Hentry;
    destruct pkg; try contradiction;
    (eexists; split; [reflexivity|]; split; reflexivity).
Qed.

Lemma phases_bad_manifest files config now build packageJson error :
  find (has_path "package.json") files = Some packageJson ->
  JSON_parse (BuildFile.content packageJson) = inl error ->
  exists build',
    phases JSON_parse files config now build
    = (inl ("Failed to parse package.json: " +:+ error), build')
    /\ BuildStatus.status build' = BuildStatus.status build
    /\ BuildStatus.previewUrl build' = BuildStatus.previewUrl build.
Proof.
  intros Hfind Hparse. run_phases.
  rewrite (find_existsb _ _ _ Hfind), Hfind, Hparse.
  eexists; split; [reflexivity|]; split; reflexivity.
Qed.

(** A build that was just started, left to its task for enough turns,
    ends where [on_files] ends when that is the [catch] block. *)
Lemma run_to_catch config buildId now nows s message :
  (length (R2.list (BuildConfig.projectId config +:+ "/") (FILES s))
   < length nows)%nat ->
  (forall at_ build,
      BuildStatus.status build = installing ->
      BuildStatus.previewUrl build = None ->
      exists build',
        phases JSON_parse
               (getProjectFiles (BuildConfig.projectId config) (FILES s))
               config at_ build = (inl message, build')
        /\ BuildStatus.previewUrl build' = None) ->
  exists build before at_,
    builds (run JSON_parse s (Start config buildId now :: turns buildId nows))
      !! buildId = Some build
    /\ build = on_error message at_ before
    /\ at_pc <$> tasks (run JSON_parse s
                          (Start config buildId now :: turns buildId nows))
                 !! buildId = Some Finished
    /\ FILES (run JSON_parse s (Start config buildId now :: turns buildId nows))
       = FILES s
    /\ BuildStatus.previewUrl before = None
    /\ phases JSON_parse
              (getProjectFiles (BuildConfig.projectId config) (FILES s))
              config at_
              (on_start config now
                 {| BuildStatus.id := buildId;
                    BuildStatus.projectId := BuildConfig.projectId config;
                    BuildStatus.status := pending; BuildStatus.logs := [];
                    BuildStatus.previewUrl := None;
                    BuildStatus.startedAt := now;
                    BuildStatus.completedAt := None;
                    BuildStatus.error := None |})
       = (inl message, before).
Proof.
  intros Hlen Hphases.
  change (run JSON_parse s (Start config buildId now :: turns buildId nows))
    with (run JSON_parse (startBuild config buildId now s).2
              (turns buildId nows)).
  unfold startBuild; cbn [snd].
  set (b0 := on_start config now _).
  erewrite run_turns;
    [| cbn [tasks]; apply lookup_insert_eq
     | cbn [builds]; apply lookup_insert_eq].
  cbn [at_pc BuildRunner.config FILES].
  destruct (resumes_to_end nows config b0 (FILES s) Hlen) as (at_ & _ & Hend).
  destruct (Hphases at_ b0 eq_refl eq_refl) as (before & Hph & Hurl).
  rewrite (Hend (on_error message at_ before))
    by (unfold on_files; by rewrite Hph).
  exists (on_error message at_ before), before, at_. cbn [builds tasks FILES].
  rewrite !lookup_insert_eq. auto 10.
Qed.

(** C7, as the code has it: a project detected as [react] or
    [vite-react] with none of [src/main.tsx], [src/main.jsx],
    [src/index.tsx], [src/index.jsx] among its files: the build that
    [startBuild] starts ends [failed] with the error that names the
    missing entry file, without a preview URL and without writing to the
    bucket. *)
Theorem react_build_without_entry_fails config buildId now nows s :
  detectProjectType JSON_parse
    (getProjectFiles (BuildConfig.projectId config) (FILES s)) = "react"
  \/ detectProjectType JSON_parse
       (getProjectFiles (BuildConfig.projectId config) (FILES s))
     = "vite-react" ->
  find is_entry (getProjectFiles (BuildConfig.projectId config) (FILES s))
  = None ->
  (length (R2.list (BuildConfig.projectId config +:+ "/") (FILES s))
   < length nows)%nat ->
  exists build,
    builds (run JSON_parse s (Start config buildId now :: turns buildId nows))
      !! buildId = Some build
    /\ BuildStatus.status build = failed
    /\ BuildStatus.error build
       = Some "No entry file found (main.tsx, index.tsx, etc.)"
    /\ BuildStatus.previewUrl build = None
    /\ at_pc <$> tasks (run JSON_parse s
                          (Start config buildId now :: turns buildId nows))
                 !! buildId = Some Finished
    /\ FILES (run JSON_parse s (Start config buildId now :: turns buildId nows))
       = FILES s.
Proof.
  intros Htype Hentry Hlen.
  destruct (run_to_catch config buildId now nows s
              "No entry file found (main.tsx, index.tsx, etc.)" Hlen)
    as (build & before & at_ & Hb & -> & Hpc & Hfiles & Hurl & _).
  { intros at_ b _ Hurl.
    destruct (phases_no_entry _ config at_ b _ eq_refl Htype Hentry)
      as (b' & Hph & _ & Hurl').
    exists b'. split; [exact Hph | congruence]. }
  exists (on_error "No entry file found (main.tsx, index.tsx, etc.)" at_
                   before).
  repeat split; auto.
Qed.

(** A [package.json] among the files read that is not valid JSON: the
    build that [startBuild] starts ends [failed] with the error
    ["Failed to parse package.json: "] followed by the parser's error;
    the [catch] block is entered while the status is [installing], no
    preview URL is set and nothing is written to the bucket. *)
Lemma invalid_manifest_fails_build config buildId now nows s packageJson
    error :
  find (has_path "package.json")
       (getProjectFiles (BuildConfig.projectId config) (FILES s))
  = Some packageJson ->
  JSON_parse (BuildFile.content packageJson) = inl error ->
  (length (R2.list (BuildConfig.projectId config +:+ "/") (FILES s))
   < length nows)%nat ->
  exists build before at_,
    builds (run JSON_parse s (Start config buildId now :: turns buildId nows))
      !! buildId = Some build
    /\ BuildStatus.status build = failed
    /\ BuildStatus.error build
       = Some ("Failed to parse package.json: " +:+ error)
    /\ BuildStatus.previewUrl build = None
    /\ build = on_error ("Failed to parse package.json: " +:+ error)
                        at_ before
    /\ BuildStatus.status before = installing
    /\ at_pc <$> tasks (run JSON_parse s
                          (Start config buildId now :: turns buildId nows))
                 !! buildId = Some Finished
    /\ FILES (run JSON_parse s (Start config buildId now :: turns buildId nows))
       = FILES s.
Proof.
  intros Hfind Hparse Hlen.
  destruct (run_to_catch config buildId now nows s
              ("Failed to parse package.json: " +:+ error) Hlen)
    as (build & before & at_ & Hb & -> & Hpc & Hfiles & Hurl & Hph).
  { intros at_ b _ Hurl.
    destruct (phases_bad_manifest _ config at_ b _ _ Hfind Hparse)
      as (b' & Hph & _ & Hurl').
    exists b'. split; [exact Hph | congruence]. }
  destruct (phases_bad_manifest _ config at_
              (on_start config now
                 {| BuildStatus.id := buildId;
                    BuildStatus.projectId := BuildConfig.projectId config;
                    BuildStatus.status := pending; BuildStatus.logs := [];
                    BuildStatus.previewUrl := None;
                    BuildStatus.startedAt := now;
                    BuildStatus.completedAt := None;
                    BuildStatus.error := None |}) _ _ Hfind Hparse)
    as (b' & Hph' & Hst & _).
  rewrite Hph in Hph'. injection Hph' as <-.
  eexists _, before, at_. repeat split; eauto.
Qed.

End BuildRunnerFacts.

(** ** Runs on the scenarios *)

Section Runs.

Import BuildRunner.

(** C1, the failing run: the build of a static site is cancelled while
    its task waits for the listing of the bucket.  The task then runs
    on: the terminal [failed] becomes [building] and then [success],
    [completedAt] and [previewUrl] are written again, and the error of
    the cancellation stays in the record. *)
Lemma cancelled_build_is_overwritten :
  let cancelled :=
    run JSON.parse (init Scenario.site)
        [Start (Scenario.config "demo") "b1" 10; Cancel "b1" 11] in
  let deploying := run JSON.parse cancelled (turns "b1" [12; 13]) in
  let finished := run JSON.parse deploying (turns "b1" [14]) in
  (fun b => (BuildStatus.status b, BuildStatus.error b,
             BuildStatus.completedAt b, BuildStatus.previewUrl b))
    <$> builds cancelled !! "b1"
  = Some (failed, Some "Build cancelled by user", Some 11, None)
  /\ BuildStatus.status <$> builds deploying !! "b1" = Some building
  /\ (fun b => (BuildStatus.status b, BuildStatus.error b,
                BuildStatus.completedAt b, BuildStatus.previewUrl b))
       <$> builds finished !! "b1"
     = Some (success, Some "Build cancelled by user", Some 14,
             Some "/preview/demo/b1/").
Proof. vm_compute. repeat split; reflexivity. Qed.

(** C7, the witness: a React manifest and no entry file. *)
Lemma react_build_without_entry_fails_witness :
  exists build,
    builds (run JSON.parse (init Scenario.react_app)
                (Start (Scenario.config "react") "b2" 10
                 :: turns "b2" [11; 12; 13])) !! "b2" = Some build
    /\ BuildStatus.status build = failed
    /\ BuildStatus.error build
       = Some "No entry file found (main.tsx, index.tsx, etc.)".
Proof.
  destruct (react_build_without_entry_fails JSON.parse
              (Scenario.config "react") "b2" 10 [11; 12; 13]
              (init Scenario.react_app))
    as (build & Hb & Hst & Herr & _).
  - left. vm_compute. reflexivity.
  - vm_compute. reflexivity.
  - vm_compute. lia.
  - exists build. auto.
Defined.

(** C7, the claim refuted: a project detected as [vue] has none of the
    entry files, and its build ends in [success] with a preview URL. *)
Lemma vue_build_without_entry_succeeds :
  detectProjectType JSON.parse (getProjectFiles "vue" Scenario.vue_app)
  = "vue"
  /\ find is_entry (getProjectFiles "vue" Scenario.vue_app) = None
  /\ (fun b => (BuildStatus.status b, BuildStatus.error b,
                BuildStatus.previewUrl b))
       <$> builds (run JSON.parse (init Scenario.vue_app)
                       (Start (Scenario.config "vue") "b3" 10
                        :: turns "b3" [11; 12; 13])) !! "b3"
     = Some (success, None, Some "/preview/vue/b3/")
  /\ at_pc <$> tasks (run JSON.parse (init Scenario.vue_app)
                          (Start (Scenario.config "vue") "b3" 10
                           :: turns "b3" [11; 12; 13])) !! "b3"
     = Some Finished.
Proof. vm_compute. repeat split; reflexivity. Qed.

(** C8, the witness: the static site of [Scenario.site]. *)
Lemma buildProject_static_copies_files_witness :
  buildProject (getProjectFiles "demo" Scenario.site)
    (detectProjectType JSON.parse (getProjectFiles "demo" Scenario.site))
    (Scenario.config "demo") 12 Scenario.some_build
  = (inr [("index.html", "<h1>hi</h1>")], Scenario.some_build).
Proof.
  apply (buildProject_static_copies_files JSON.parse "demo" Scenario.site).
  vm_compute. reflexivity.
Defined.

(** C8, the claim refuted: a project that holds one script is detected
    as [unknown], and its build phase returns the empty output. *)
Lemma buildProject_unknown_copies_nothing :
  entry_of <$> getProjectFiles "py" Scenario.script_only
  = [("main.py", "print(1)")]
  /\ detectProjectType JSON.parse (getProjectFiles "py" Scenario.script_only)
     = "unknown"
  /\ buildProject (getProjectFiles "py" Scenario.script_only)
       (detectProjectType JSON.parse
          (getProjectFiles "py" Scenario.script_only))
       (Scenario.config "py") 12 Scenario.some_build
     = (inr [], Scenario.some_build).
Proof. vm_compute. repeat split; reflexivity. Qed.

(** C10, the failing run: a project of 1001 objects whose
    [package.json], not valid JSON, is the last key of the listing.
    [getProjectFiles] reads the first 1000 keys and never follows the
    cursor: the manifest is not among the files read, the project is
    detected as [static] and the build ends in [success]. *)
Lemma manifest_beyond_listing_is_ignored :
  let finished :=
    run JSON.parse (init Scenario.large)
        (Start (Scenario.config "big") "b6" 10 :: turns "b6" Scenario.ticks) in
  R2.body <$> Scenario.large !! "big/package.json" = Some "{ name: demo"
  /\ (if JSON.parse "{ name: demo" is inl _ then true else false) = true
  /\ R2.count "big/" Scenario.large = 1001%nat
  /\ find (has_path "package.json") (getProjectFiles "big" Scenario.large)
     = None
  /\ detectProjectType JSON.parse (getProjectFiles "big" Scenario.large)
     = "static"
  /\ (fun b => (BuildStatus.status b, BuildStatus.error b,
                BuildStatus.previewUrl b))
       <$> builds finished !! "b6"
     = Some (success, None, Some "/preview/big/b6/").
Proof. vm_compute. repeat split; reflexivity. Qed.

(** C9, the failing run: [index.html] is moved to [home.html].  The
    tool reports success; the content is under the new key, and the
    project is left without a metadata row for either path, so that
    [getFile] answers 404 on the new path. *)
Lemma moveFile_loses_metadata :
  let '(result, s) :=
    CodeTools.moveFile URL.pathname "demo" "index.html" "home.html" "u" 2 3
                       Scenario.demo
  in
  FileNode.path <$> ProjectManager.files Scenario.demo = ["index.html"]
  /\ result = CodeTools.Moved "index.html" "home.html"
  /\ R2.body <$> R2.get "demo/home.html" (ProjectManager.FILES s)
     = Some "<h1>hi</h1>"
  /\ R2.get "demo/index.html" (ProjectManager.FILES s) = None
  /\ ProjectManager.files s = []
  /\ (ProjectManager.getFile "demo" "home.html" s).1
     = ProjectManager.Returns
         {| Response.status := 404;
            Response.payload := Response.Text "File not found" |}.
Proof. vm_compute. repeat split; reflexivity. Qed.

End Runs.

(** ** Strings *)

Section StringFacts.

Lemma append_cons x (a b : string) : String x a +:+ b = String x (a +:+ b).
Proof. reflexivity. Qed.

Lemma append_assoc (a b c : string) : (a +:+ b) +:+ c = a +:+ (b +:+ c).
Proof.
  induction a as [|x a IH]; [done|]. by rewrite !append_cons, IH.
Qed.

Lemma append_nil_r (a : string) : a +:+ "" = a.
Proof. induction a as [|x a IH]; [done|]. by rewrite append_cons, IH. Qed.

Lemma length_append (a b : string) :
  String.length (a +:+ b) = (String.length a + String.length b)%nat.
Proof.
  induction a as [|x a IH]; [done|].
  rewrite append_cons. cbn [String.length]. by rewrite IH.
Qed.

Lemma prefix_nil_r (s : string) : String.prefix "" s = true.
Proof. by destruct s. Qed.

Lemma prefix_append (p b : string) : String.prefix p (p +:+ b) = true.
Proof.
  induction p as [|x p IH]; [apply prefix_nil_r|].
  rewrite append_cons. cbn [String.prefix].
  by destruct (ascii_dec x x).
Qed.

Lemma substring_append_skip (a b : string) m :
  substring (String.length a) m (a +:+ b) = substring 0 m b.
Proof.
  induction a as [|x a IH]; [done|].
  rewrite append_cons. cbn [String.length substring]. exact IH.
Qed.

Lemma endsWith_append (a p : string) : JS.endsWith (a +:+ p) p = true.
Proof.
  unfold JS.endsWith. cbv zeta. rewrite length_append.
  replace (String.length a + String.length p - String.length p)%nat
    with (String.length a) by lia.
  rewrite substring_append_skip, substring_whole, String.eqb_refl.
  rewrite andb_true_r. apply Nat.leb_le. lia.
Qed.

Lemma includes_append (a p b : string) :
  JS.includes (a +:+ p +:+ b) p = true.
Proof.
  unfold JS.includes.
  assert (H : exists n, index 0 p (a +:+ p +:+ b) = Some n);
    [|by destruct H as [n ->]].
  induction a as [|x a [n IH]].
  - change ("" +:+ p +:+ b) with (p +:+ b).
    destruct (p +:+ b) as [|y r] eqn:Hr.
    + destruct p; [cbn; eauto | discriminate].
    + cbn [index]. rewrite <- Hr, prefix_append. eauto.
  - rewrite append_cons. cbn [index]. rewrite IH.
    destruct (String.prefix p (String x (a +:+ p +:+ b))); eauto.
Qed.

Lemma split_cons c x s :
  JS.split (String x s) (String c "")
  = if ascii_dec c x then "" :: JS.split s (String c "")
    else match JS.split s (String c "") with
         | p :: ps => String x p :: ps
         | [] => []
         end.
Proof.
  unfold JS.split. cbn [JS.split_go String.prefix]. rewrite prefix_nil_r.
  cbn [String.length Nat.sub].
  destruct (ascii_dec c x); by destruct (JS.split_go (String c "") 0 s).
Qed.

Lemma split_not_nil s sep : JS.split s sep <> [].
Proof. unfold JS.split. by destruct (JS.split_go sep 0 s). Qed.

(** Splitting at a separator of one byte. *)
Lemma split_append c a b :
  JS.split (a +:+ String c "" +:+ b) (String c "")
  = JS.split a (String c "") ++ JS.split b (String c "").
Proof.
  induction a as [|x a IH].
  - change ("" +:+ String c "" +:+ b) with (String c b). rewrite split_cons.
    by destruct (ascii_dec c c).
  - rewrite append_cons, !split_cons, IH.
    destruct (ascii_dec c x); [done|].
    pose proof (split_not_nil a (String c "")).
    by destruct (JS.split a (String c "")).
Qed.

Lemma split_append_slash a b :
  JS.split (a +:+ "/" +:+ b) "/" = JS.split a "/" ++ JS.split b "/".
Proof. apply (split_append "/"). Qed.

(** Joining what was split gives the string back. *)
Lemma join_split_slash s : JS.join (JS.split s "/") "/" = s.
Proof.
  induction s as [|x s IH]; [done|].
  rewrite split_cons. pose proof (split_not_nil s "/") as Hnil.
  destruct (ascii_dec "/" x) as [<-|Hne].
  - destruct (JS.split s "/") as [|p ps]; [done|].
    cbn [JS.join] in *. by rewrite IH.
  - destruct (JS.split s "/") as [|p [|q ps]]; [done|..];
      cbn [JS.join] in *; by rewrite <- IH.
Qed.

Lemma join_snoc l x :
  l <> [] -> JS.join (l ++ [x]) "/" = JS.join l "/" +:+ "/" +:+ x.
Proof.
  induction l as [|y l IH]; intros Hne; [done|].
  destruct l as [|z l]; [reflexivity|].
  change ((y :: z :: l) ++ [x]) with (y :: ((z :: l) ++ [x])).
  assert (Hcons : forall r, r <> [] ->
            JS.join (y :: r) "/" = y +:+ "/" +:+ JS.join r "/")
    by (intros [|? ?]; done).
  rewrite !Hcons, IH by (done || by destruct l).
  by rewrite !append_assoc.
Qed.

End StringFacts.

(** ** More on the Project Actor *)

Section ProjectManagerMore.

Import ProjectManager.

Lemma append_inv_head p : forall a b : string, p +:+ a = p +:+ b -> a = b.
Proof.
  induction p as [|c p IH]; intros a b H; [exact H|].
  injection H as H. by apply IH.
Qed.

Lemma r2Key_inj pid a b : r2Key pid a = r2Key pid b -> a = b.
Proof.
  unfold r2Key. intros H. apply append_inv_head in H.
  by apply (append_inv_head "/") in H.
Qed.

(** X1: whatever the state, a [getFile] that follows [deleteFile] on the
    same path answers 404. *)
Theorem deleteFile_then_getFile pid filePath now s :
  exists message,
    (getFile pid filePath (deleteFile pid filePath now s).2).1
    = Returns {| Response.status := 404;
                 Response.payload := Response.Text message |}.
Proof.
  unfold deleteFile.
  destruct (select_file pid filePath (files s)) as [|f rest] eqn:Hsel.
  - cbn [snd]. unfold getFile. rewrite Hsel. eauto.
  - cbn [snd]. unfold getFile. cbn [files FILES].
    destruct (select_file pid filePath (delete_file (FileNode.id f) (files s)));
      [eauto|].
    unfold R2.get, R2.delete. rewrite lookup_delete_eq. eauto.
Qed.

(** X2: [createFile] on a path that the project already has throws, and
    neither the tables nor the bucket change. *)
Theorem createFile_existing_path pid data id now s :
  select_file pid (FileData.path data) (files s) <> [] ->
  exists error, createFile pid data id now s = (Throws error, s).
Proof.
  intros Hrow. unfold createFile, insert_file.
  cbn [FileNode.id FileNode.project_id FileNode.path].
  destruct (select_file_by_id id (files s)); [|eauto].
  destruct (select_file pid (FileData.path data) (files s)); [done|eauto].
Qed.

Lemma createFile_existing_path_witness :
  exists error,
    createFile "demo" Scenario.index_html "f2" 2 Scenario.demo
    = (Throws error, Scenario.demo).
Proof.
  apply (createFile_existing_path "demo" Scenario.index_html "f2" 2
           Scenario.demo).
  vm_compute. discriminate.
Defined.

Lemma update_file_update_file sz1 now1 sz2 now2 fid fs :
  update_file sz2 now2 fid (update_file sz1 now1 fid fs)
  = update_file sz2 now2 fid fs.
Proof.
  unfold update_file. rewrite <- list_fmap_compose. apply list_fmap_ext.
  intros i f _. cbn.
  destruct (decide (FileNode.id f = fid)) as [Heq|Hne]; cbn.
  - by rewrite decide_True.
  - by rewrite decide_False.
Qed.

Lemma touch_project_touch_project now1 now2 pid ps :
  touch_project now2 pid (touch_project now1 pid ps)
  = touch_project now2 pid ps.
Proof.
  unfold touch_project. rewrite <- list_fmap_compose. apply list_fmap_ext.
  intros i q _. cbn.
  destruct (decide (Project.id q = pid)) as [Heq|Hne]; cbn.
  - by rewrite decide_True.
  - by rewrite decide_False.
Qed.

(** X3: the later of two [updateFile] calls on a path wins completely:
    the response and the state are those of the later call alone. *)
Theorem updateFile_overwrites pid filePath content1 now1 content2 now2 s :
  updateFile pid filePath content2 now2
             (updateFile pid filePath content1 now1 s).2
  = updateFile pid filePath content2 now2 s.
Proof.
  unfold updateFile at 2.
  destruct (select_file pid filePath (files s)) as [|f rest] eqn:Hsel;
    [reflexivity|].
  assert (Hstate :
    updateFile pid filePath content2 now2
      {| projects := touch_project now1 pid (projects s);
         files := update_file
                    (Z.of_nat (length (JS.TextEncoder_encode content1))) now1
                    (FileNode.id f) (files s);
         FILES := R2.put (r2Key pid filePath) content1 None (FILES s) |}
    = updateFile pid filePath content2 now2 s).
  { unfold updateFile. cbn [projects files FILES].
    rewrite select_file_update_file, Hsel. cbn [update_file fmap list_fmap].
    rewrite decide_True by reflexivity. cbn [FileNode.resize FileNode.id].
    rewrite update_file_update_file, touch_project_touch_project.
    unfold R2.put. by rewrite insert_insert_eq. }
  by destruct (select_file_by_id (FileNode.id f) _).
Qed.

(** *** What a request can do to the state *)

Lemma getProject_state pid s : (getProject pid s).2 = s.
Proof. unfold getProject. by destruct (select_project pid (projects s)). Qed.

Lemma getFile_state pid filePath s : (getFile pid filePath s).2 = s.
Proof.
  unfold getFile. destruct (select_file pid filePath (files s)); [done|].
  by destruct (R2.get _ _).
Qed.

(** The handler that a request reaches, as far as the state goes: none,
    or the one that its method names. *)
Lemma dispatch_effect req uuid now s :
  (dispatch req uuid now s).2 = s
  \/ (method req = "POST"
      /\ exists name description userId,
           (dispatch req uuid now s).2
           = (createProject name description userId uuid now s).2)
  \/ (method req = "POST"
      /\ exists pid data,
           (dispatch req uuid now s).2 = (createFile pid data uuid now s).2)
  \/ (method req = "PUT"
      /\ exists pid filePath content,
           (dispatch req uuid now s).2
           = (updateFile pid filePath content now s).2)
  \/ (method req = "DELETE"
      /\ exists pid filePath,
           (dispatch req uuid now s).2 = (deleteFile pid filePath now s).2).
Proof.
  unfold dispatch, on_project. cbv zeta.
  set (path := pathname req). set (m := method req).
  destruct (String.eqb path "/projects" && String.eqb m "GET") eqn:E1.
  { left. by destruct (string_or _ _). }
  destruct (String.eqb path "/projects" && String.eqb m "POST") eqn:E2.
  { apply andb_true_iff in E2 as [_ E2]. apply String.eqb_eq in E2.
    destruct (string_or _ _); [|by left].
    destruct (json req); try (by left). right; left. eauto 10. }
  destruct (JS.startsWith path "/projects/" && JS.endsWith path "/files"
            && String.eqb m "GET") eqn:E3.
  { left. by destruct (segment2 _). }
  destruct (JS.startsWith path "/projects/" && negb (JS.includes path "/files")
            && String.eqb m "GET") eqn:E4.
  { left. destruct (segment2 _); [apply getProject_state | done]. }
  destruct (JS.startsWith path "/projects/" && JS.includes path "/files/"
            && String.eqb m "GET") eqn:E5.
  { left. destruct (segment2 _); [apply getFile_state | done]. }
  destruct (JS.startsWith path "/projects/" && JS.endsWith path "/files"
            && String.eqb m "POST") eqn:E6.
  { apply andb_true_iff in E6 as [_ E6]. apply String.eqb_eq in E6.
    destruct (json req); try (by left).
    destruct (segment2 _); [|by left]. right; right; left. eauto 10. }
  destruct (JS.startsWith path "/projects/" && JS.includes path "/files/"
            && String.eqb m "PUT") eqn:E7.
  { apply andb_true_iff in E7 as [_ E7]. apply String.eqb_eq in E7.
    destruct (json req); try (by left).
    destruct (segment2 _); [|by left]. right; right; right; left. eauto 10. }
  destruct (JS.startsWith path "/projects/" && JS.includes path "/files/"
            && String.eqb m "DELETE") eqn:E8.
  { apply andb_true_iff in E8 as [_ E8]. apply String.eqb_eq in E8.
    destruct (segment2 _); [|by left]. right; right; right; right. eauto 10. }
  by left.
Qed.

Lemma fetch_state req uuid now s :
  (fetch req uuid now s).2 = (dispatch req uuid now s).2.
Proof. unfold fetch. by destruct (dispatch req uuid now s) as [[e|r] s']. Qed.

(** X4: a GET request changes neither the tables nor the bucket. *)
Theorem fetch_GET_reads_only req uuid now s :
  method req = "GET" -> (fetch req uuid now s).2 = s.
Proof.
  intros Hget. rewrite fetch_state.
  destruct (dispatch_effect req uuid now s)
    as [H|[[Hm _]|[[Hm _]|[[Hm _]|[Hm _]]]]];
    [exact H | congruence..].
Qed.

Lemma fetch_GET_reads_only_witness :
  (fetch {| method := "GET"; pathname := "/projects/demo/files/index.html";
            X_User_Id := None; json := NoBody |} "u" 5 Scenario.demo).2
  = Scenario.demo.
Proof. by apply fetch_GET_reads_only. Defined.

(** *** The keys of the tables *)

Lemma not_in_select_file_by_id fid fs :
  select_file_by_id fid fs = [] -> fid ∉ FileNode.id <$> fs.
Proof.
  intros Hsel Hin. apply list_elem_of_fmap in Hin as (f & -> & Hf).
  assert (H : f ∈ select_file_by_id (FileNode.id f) fs)
    by (apply list_elem_of_filter; auto).
  rewrite Hsel in H. inversion H.
Qed.

Lemma not_in_select_file pid filePath fs :
  select_file pid filePath fs = [] ->
  (pid, filePath)
    ∉ (fun f => (FileNode.project_id f, FileNode.path f)) <$> fs.
Proof.
  intros Hsel Hin. apply list_elem_of_fmap in Hin as (f & Heq & Hf).
  injection Heq as -> ->.
  assert (H : f ∈ select_file (FileNode.project_id f) (FileNode.path f) fs)
    by (apply list_elem_of_filter; auto).
  rewrite Hsel in H. inversion H.
Qed.

Lemma not_in_select_project pid ps :
  select_project pid ps = [] -> pid ∉ Project.id <$> ps.
Proof.
  intros Hsel Hin. apply list_elem_of_fmap in Hin as (q & -> & Hq).
  assert (H : q ∈ select_project (Project.id q) ps)
    by (apply list_elem_of_filter; auto).
  rewrite Hsel in H. inversion H.
Qed.

Lemma NoDup_snoc {A : Type} (l : list A) (x : A) :
  NoDup l -> x ∉ l -> NoDup (l ++ [x]).
Proof.
  intros Hl Hx. apply NoDup_app. repeat split; [done | | apply NoDup_singleton].
  intros y Hy Hy'. apply list_elem_of_singleton in Hy'. by subst.
Qed.

Lemma touch_project_ids now pid ps :
  Project.id <$> touch_project now pid ps = Project.id <$> ps.
Proof.
  unfold touch_project. rewrite <- list_fmap_compose. apply list_fmap_ext.
  intros i q _. cbn. by destruct (decide (Project.id q = pid)).
Qed.

Lemma update_file_keys {B : Type} (key : FileNode.t -> B) sz now fid fs :
  (forall f, key (FileNode.resize sz now f) = key f) ->
  key <$> update_file sz now fid fs = key <$> fs.
Proof.
  intros Hkey. unfold update_file. rewrite <- list_fmap_compose.
  apply list_fmap_ext. intros i f _. cbn.
  destruct (decide (FileNode.id f = fid)); [apply Hkey | done].
Qed.

Lemma NoDup_fmap_filter {A B : Type} (key : A -> B) (P : A -> Prop)
    `{!forall x, Decision (P x)} (l : list A) :
  NoDup (key <$> l) -> NoDup (key <$> filter P l).
Proof.
  intros Hnd. eapply sublist_NoDup; [exact Hnd|].
  apply fmap_sublist, sublist_filter.
Qed.

Lemma createProject_unique name description userId id now s :
  unique_keys s -> unique_keys (createProject name description userId id now s).2.
Proof.
  intros (Hp & Hf & Hk). unfold createProject, insert_project.
  cbn [Project.id].
  destruct (select_project id (projects s)) eqn:Hsel; [|done].
  assert (Hu : unique_keys
            {| projects := projects s ++
                 [{| Project.id := id; Project.name := name;
                     Project.description := string_or description None;
                     Project.user_id := userId; Project.created_at := now;
                     Project.updated_at := now |}];
               files := files s; FILES := FILES s |}).
  { repeat split; cbn [projects files]; [|done..].
    rewrite fmap_app. apply NoDup_snoc; [done|].
    by apply not_in_select_project. }
  by destruct (select_project id (_ ++ _)).
Qed.

Lemma createFile_unique pid data id now s :
  unique_keys s -> unique_keys (createFile pid data id now s).2.
Proof.
  intros (Hp & Hf & Hk). unfold createFile.
  destruct (insert_file _ (files s)) as [e|fs] eqn:Hins; [done|].
  apply insert_file_inv in Hins as (Hid & Hsel & ->).
  cbn [FileNode.id FileNode.project_id FileNode.path] in Hid, Hsel.
  match goal with
  | |- unique_keys (match ?l with [] => (_, ?s1) | _ :: _ => _ end).2 =>
      assert (Hu : unique_keys s1); [|by destruct l]
  end.
  repeat split; cbn [projects files].
  - by rewrite touch_project_ids.
  - rewrite fmap_app. apply NoDup_snoc; [done|].
    by apply not_in_select_file_by_id.
  - rewrite fmap_app. apply NoDup_snoc; [done|].
    by apply not_in_select_file.
Qed.

Lemma updateFile_unique pid filePath content now s :
  unique_keys s -> unique_keys (updateFile pid filePath content now s).2.
Proof.
  intros (Hp & Hf & Hk). unfold updateFile.
  destruct (select_file pid filePath (files s)) as [|f rest]; [done|].
  match goal with
  | |- unique_keys (match ?l with [] => (_, ?s1) | _ :: _ => _ end).2 =>
      assert (Hu : unique_keys s1); [|by destruct l]
  end.
  repeat split; cbn [projects files].
  - by rewrite touch_project_ids.
  - by rewrite update_file_keys.
  - by rewrite update_file_keys.
Qed.

Lemma deleteFile_unique pid filePath now s :
  unique_keys s -> unique_keys (deleteFile pid filePath now s).2.
Proof.
  intros (Hp & Hf & Hk). unfold deleteFile.
  destruct (select_file pid filePath (files s)) as [|f rest]; [done|].
  repeat split; cbn [snd projects files].
  - by rewrite touch_project_ids.
  - by apply NoDup_fmap_filter.
  - by apply NoDup_fmap_filter.
Qed.

(** X5: no request breaks the keys of the schema: in both tables the
    ids stay pairwise distinct, and so do the pairs of project and path
    of the files. *)
Theorem fetch_keeps_unique_keys req uuid now s :
  unique_keys s -> unique_keys (fetch req uuid now s).2.
Proof.
  intros Hu. rewrite fetch_state.
  destruct (dispatch_effect req uuid now s)
    as [H|[[_ (n & d & u & H)]|[[_ (pid & data & H)]
       |[[_ (pid & fp & c & H)]|[_ (pid & fp & H)]]]]]; rewrite H.
  - exact Hu.
  - by apply createProject_unique.
  - by apply createFile_unique.
  - by apply updateFile_unique.
  - by apply deleteFile_unique.
Qed.

Lemma fetch_keeps_unique_keys_witness :
  unique_keys
    (fetch {| method := "POST"; pathname := "/projects/demo/files";
              X_User_Id := None; json := FileBody Scenario.a_txt |}
           "f2" 5 Scenario.demo).2.
Proof.
  apply fetch_keeps_unique_keys.
  repeat split; refine (bool_decide_unpack _ _); vm_compute; exact I.
Defined.

(** *** One path at a time *)

Lemma NoDup_fmap_eq {A B : Type} (key : A -> B) (l : list A) x y :
  NoDup (key <$> l) -> x ∈ l -> y ∈ l -> key x = key y -> x = y.
Proof.
  induction l as [|a l IH]; intros Hnd Hx Hy Heq; [inversion Hx|].
  rewrite fmap_cons in Hnd. apply NoDup_cons in Hnd as [Ha Hnd].
  apply elem_of_cons in Hx as [->|Hx], Hy as [->|Hy]; auto.
  - exfalso. apply Ha. rewrite Heq. apply list_elem_of_fmap. eauto.
  - exfalso. apply Ha. rewrite <- Heq. apply list_elem_of_fmap. eauto.
Qed.

Lemma update_file_absent sz now fid l :
  (forall g, g ∈ l -> FileNode.id g <> fid) -> update_file sz now fid l = l.
Proof.
  intros Hl. unfold update_file. rewrite <- (list_fmap_id l) at 2.
  apply list_fmap_ext. intros i g Hg. cbn.
  rewrite decide_False; [done|]. apply Hl. by eapply list_elem_of_lookup_2.
Qed.

Lemma delete_file_absent fid l :
  (forall g, g ∈ l -> FileNode.id g <> fid) -> delete_file fid l = l.
Proof.
  intros Hl. unfold delete_file. induction l as [|g l IH]; [done|].
  rewrite filter_cons, decide_True by (apply Hl; left).
  rewrite IH; [done|]. intros h Hh. apply Hl. by right.
Qed.

Lemma select_file_delete_file pid filePath fid fs :
  select_file pid filePath (delete_file fid fs)
  = delete_file fid (select_file pid filePath fs).
Proof.
  unfold select_file, delete_file. induction fs as [|f fs IH]; [done|].
  rewrite !filter_cons.
  destruct (decide (FileNode.id f <> fid)),
    (decide (FileNode.project_id f = pid /\ FileNode.path f = filePath));
    rewrite ?filter_cons, ?decide_True, ?decide_False by done; by rewrite IH.
Qed.

(** The rows of another path have another id than the row of
    [filePath], when ids are unique. *)
Lemma other_path_other_id pid filePath path' fs f rest g :
  NoDup (FileNode.id <$> fs) ->
  path' <> filePath ->
  select_file pid filePath fs = f :: rest ->
  g ∈ select_file pid path' fs ->
  FileNode.id g <> FileNode.id f.
Proof.
  intros Hnd Hne Hsel Hg Hid.
  apply select_file_head_in in Hsel as (Hf & _ & Hpath).
  apply list_elem_of_filter in Hg as [[_ Hpath'] Hg].
  assert (g = f) by (by eapply (NoDup_fmap_eq FileNode.id)).
  subst g. congruence.
Qed.

(** X6: with unique ids, [updateFile] and [deleteFile] on one path leave
    what [getFile] answers for every other path of the project as it
    was. *)
Theorem other_paths_untouched pid filePath path' content now s :
  NoDup (FileNode.id <$> files s) ->
  path' <> filePath ->
  (getFile pid path' (updateFile pid filePath content now s).2).1
  = (getFile pid path' s).1
  /\ (getFile pid path' (deleteFile pid filePath now s).2).1
     = (getFile pid path' s).1.
Proof.
  intros Hnd Hne.
  assert (Hkey : r2Key pid filePath <> r2Key pid path')
    by (intros H; apply r2Key_inj in H; congruence).
  unfold updateFile, deleteFile.
  destruct (select_file pid filePath (files s)) as [|f rest] eqn:Hsel;
    [done|].
  split.
  - match goal with
    | |- (getFile _ _ (match ?l with [] => (_, ?s1) | _ :: _ => _ end).2).1 = _ =>
        replace (match l with [] => _ | _ :: _ => _ end).2 with s1
          by (by destruct l)
    end.
    unfold getFile. cbn [files FILES].
    rewrite select_file_update_file, update_file_absent
      by (intros g Hg;
          exact (other_path_other_id pid filePath path' (files s) f rest g
                   Hnd Hne Hsel Hg)).
    unfold R2.get, R2.put. rewrite lookup_insert_ne by done.
    destruct (select_file pid path' (files s)); [done|].
    by destruct (FILES s !! r2Key pid path').
  - cbn [snd]. unfold getFile. cbn [files FILES].
    rewrite select_file_delete_file, delete_file_absent
      by (intros g Hg;
          exact (other_path_other_id pid filePath path' (files s) f rest g
                   Hnd Hne Hsel Hg)).
    unfold R2.get, R2.delete. rewrite lookup_delete_ne by done.
    destruct (select_file pid path' (files s)); [done|].
    by destruct (FILES s !! r2Key pid path').
Qed.

Lemma other_paths_untouched_witness :
  (getFile "p" "a.txt"
           (updateFile "p" "src" "x" 9 Scenario.dir_and_file).2).1
  = (getFile "p" "a.txt" Scenario.dir_and_file).1
  /\ (getFile "p" "a.txt" (deleteFile "p" "src" 9 Scenario.dir_and_file).2).1
     = (getFile "p" "a.txt" Scenario.dir_and_file).1.
Proof.
  apply other_paths_untouched.
  - refine (bool_decide_unpack _ _). vm_compute. exact I.
  - discriminate.
Defined.

(** *** Reading back what was created *)

(** X7: the [getFile] that follows a successful [createFile] of a file
    returns the created row with the content that was sent, or the empty
    string when none was sent. *)
Theorem createFile_then_getFile pid data id now s r s' :
  FileData.type data = file ->
  createFile pid data id now s = (Returns r, s') ->
  exists f,
    r = Response.json (Response.OneFile f)
    /\ getFile pid (FileData.path data) s'
       = (Returns (Response.json
                     (Response.FileWithContent f
                        (default "" (string_or (FileData.content data)
                                               (Some ""))))), s')
    /\ FileNode.id f = id
    /\ FileNode.name f = FileData.name data
    /\ FileNode.created_at f = now.
Proof.
  intros Htype. unfold createFile.
  destruct (insert_file _ (files s)) as [e|fs] eqn:Hins; [discriminate|].
  apply insert_file_inv in Hins as (Hid & Hsel & ->).
  cbn [FileNode.id FileNode.project_id FileNode.path] in Hid, Hsel.
  unfold select_file_by_id in *. rewrite filter_app, Hid.
  rewrite filter_cons, decide_True by reflexivity.
  cbn [filter list_filter app]. intros [= <- <-].
  eexists. split; [reflexivity|]. unfold getFile. cbn [files FILES].
  unfold select_file in *. rewrite filter_app, Hsel.
  rewrite filter_cons, decide_True by (split; reflexivity).
  cbn [filter list_filter app]. rewrite Htype.
  unfold R2.get, R2.put. rewrite lookup_insert_eq. cbn. auto.
Qed.

Lemma createFile_then_getFile_witness :
  exists f,
    getFile "demo" "index.html" Scenario.demo
    = (Returns (Response.json (Response.FileWithContent f "<h1>hi</h1>")),
       Scenario.demo).
Proof.
  destruct (createFile_then_getFile "demo" Scenario.index_html "f1" 1 init
              (Response.json (Response.OneFile
                 {| FileNode.id := "f1"; FileNode.project_id := "demo";
                    FileNode.path := "index.html";
                    FileNode.name := "index.html"; FileNode.type := file;
                    FileNode.parent_path := None; FileNode.size := 0;
                    FileNode.created_at := 1; FileNode.updated_at := 1 |}))
              Scenario.demo eq_refl)
    as (f & _ & Hget & _).
  - vm_compute. reflexivity.
  - exists f. exact Hget.
Defined.

(** X8: a directory that was just created cannot be read: when no blob
    lies under its key, [getFile] on its path answers 404. *)
Theorem createFile_directory_then_getFile pid data id now s r s' :
  FileData.type data = directory ->
  R2.get (r2Key pid (FileData.path data)) (FILES s) = None ->
  createFile pid data id now s = (Returns r, s') ->
  FILES s' = FILES s
  /\ getFile pid (FileData.path data) s'
     = (Returns {| Response.status := 404;
                   Response.payload := Response.Text "File content not found" |},
        s').
Proof.
  intros Htype Hblob. unfold createFile.
  destruct (insert_file _ (files s)) as [e|fs] eqn:Hins; [discriminate|].
  apply insert_file_inv in Hins as (Hid & Hsel & ->).
  cbn [FileNode.id FileNode.project_id FileNode.path] in Hid, Hsel.
  unfold select_file_by_id in *. rewrite filter_app, Hid.
  rewrite filter_cons, decide_True by reflexivity.
  cbn [filter list_filter app]. intros [= <- <-]. rewrite Htype.
  split; [reflexivity|]. unfold getFile. cbn [files FILES].
  unfold select_file in *. rewrite filter_app, Hsel.
  rewrite filter_cons, decide_True by (split; reflexivity).
  cbn [filter list_filter app]. by rewrite Hblob.
Qed.

Lemma createFile_directory_then_getFile_witness :
  (getFile "p" "src" Scenario.with_dir).1
  = Returns {| Response.status := 404;
               Response.payload := Response.Text "File content not found" |}.
Proof.
  destruct (createFile_directory_then_getFile "p" Scenario.src_dir "d1" 1
              init
              (Response.json (Response.OneFile
                 {| FileNode.id := "d1"; FileNode.project_id := "p";
                    FileNode.path := "src"; FileNode.name := "src";
                    FileNode.type := directory;
                    FileNode.parent_path := None; FileNode.size := 0;
                    FileNode.created_at := 1; FileNode.updated_at := 1 |}))
              Scenario.with_dir eq_refl) as [_ Hget].
  - reflexivity.
  - vm_compute. reflexivity.
  - change (FileData.path Scenario.src_dir) with "src" in Hget.
    by rewrite Hget.
Defined.

(** *** Projects *)

Lemma by_updated_desc_total a b :
  by_updated_desc a b = false -> by_updated_desc b a = true.
Proof. unfold by_updated_desc. lia. Qed.

Lemma Sorted_by_updated l :
  Sorted (fun a b => by_updated_desc a b = true) l ->
  StronglySorted (fun a b => Project.updated_at b <= Project.updated_at a) l.
Proof.
  intros Hs. apply Sorted_StronglySorted.
  - intros a b c Hab Hbc. lia.
  - induction Hs as [|a l Hl IH Hhd]; constructor; [exact IH|].
    destruct Hhd as [|b l' Hab]; constructor.
    unfold by_updated_desc in Hab. lia.
Qed.

(** X9: [getProjects] returns the projects of the user and no other,
    each once, the most recently updated first. *)
Theorem getProjects_of_owner_newest_first userId s :
  exists ps,
    getProjects userId s = (Returns (Response.json (Response.Projects ps)), s)
    /\ ps ≡ₚ filter (fun p => Project.user_id p = userId) (projects s)
    /\ StronglySorted
         (fun a b => Project.updated_at b <= Project.updated_at a) ps.
Proof.
  unfold getProjects. eexists. split; [reflexivity|]. split.
  - apply sort_perm.
  - apply Sorted_by_updated, sort_Sorted, by_updated_desc_total.
Qed.

(** X10: [createProject] with an id that no project has stores the
    project for its user, [getProject] returns it, and what [getProjects]
    answers to any other user is as before. *)
Theorem createProject_then_getProject name description userId id now s :
  select_project id (projects s) = [] ->
  exists p,
    createProject name description userId id now s
    = (Returns (Response.json (Response.OneProject p)),
       (createProject name description userId id now s).2)
    /\ getProject id (createProject name description userId id now s).2
       = (Returns (Response.json (Response.OneProject p)),
          (createProject name description userId id now s).2)
    /\ Project.name p = name
    /\ Project.user_id p = userId
    /\ Project.created_at p = now
    /\ Project.updated_at p = now
    /\ forall other,
         other <> userId ->
         (getProjects other
            (createProject name description userId id now s).2).1
         = (getProjects other s).1.
Proof.
  intros Hfresh. unfold createProject, insert_project. cbn [Project.id].
  rewrite Hfresh. unfold select_project in *.
  rewrite filter_app, Hfresh, filter_cons, decide_True by reflexivity.
  cbn [filter list_filter app snd]. eexists. split; [reflexivity|].
  unfold getProject, select_project. cbn [projects].
  rewrite filter_app, Hfresh, filter_cons, decide_True by reflexivity.
  cbn [filter list_filter app]. repeat split.
  intros other Hother. unfold getProjects. cbn [projects fst].
  rewrite filter_app, filter_cons, decide_False by (cbn; congruence).
  cbn [filter list_filter]. by rewrite app_nil_r.
Qed.

Lemma createProject_then_getProject_witness :
  exists p,
    getProject "demo" (createProject "demo" None "alice" "demo" 1 init).2
    = (Returns (Response.json (Response.OneProject p)),
       (createProject "demo" None "alice" "demo" 1 init).2)
    /\ Project.user_id p = "alice".
Proof.
  destruct (createProject_then_getProject "demo" None "alice" "demo" 1 init)
    as (p & _ & Hget & _ & Hu & _).
  - reflexivity.
  - exists p. auto.
Defined.

End ProjectManagerMore.

(** ** More on the Build Coordinator *)

Section BuildRunnerMore.

Import BuildRunner.

Variable JSON_parse : string -> string + JSON.value.

(** *** Records only grow *)

Lemma grows_refl build : grows build build.
Proof. by repeat split. Qed.

Lemma grows_trans b1 b2 b3 : grows b1 b2 -> grows b2 b3 -> grows b1 b3.
Proof.
  intros (Hi & Hp & Hs & Hl & Hst) (Hi' & Hp' & Hs' & Hl' & Hst').
  repeat split; try congruence; [by etrans | auto].
Qed.

Lemma grows_log now text build : grows build (BuildStatus.log now text build).
Proof. repeat split; cbn; [by apply prefix_app_r | done]. Qed.

Lemma grows_set_status st build :
  st <> pending -> grows build (BuildStatus.set_status st build).
Proof. by repeat split. Qed.

Lemma grows_set_error e build : grows build (BuildStatus.set_error e build).
Proof. by repeat split. Qed.

Lemma grows_set_completedAt now build :
  grows build (BuildStatus.set_completedAt now build).
Proof. by repeat split. Qed.

Lemma grows_set_previewUrl u build :
  grows build (BuildStatus.set_previewUrl u build).
Proof. by repeat split. Qed.

Lemma growing_bind {A B : Type} (m : action A) (k : A -> action B) :
  growing m -> (forall a, growing (k a)) -> growing (bind m k).
Proof.
  intros Hm Hk build. unfold bind. specialize (Hm build).
  destruct (m build) as [[e|a] b1]; [exact Hm|].
  eapply grows_trans; [exact Hm | apply Hk].
Qed.

Lemma growing_log now text : growing (log now text).
Proof. intros build. apply grows_log. Qed.

Lemma growing_ret {A : Type} (a : A) : growing (ret a).
Proof. intros build. apply grows_refl. Qed.

Lemma growing_throw {A : Type} message : growing (@throw A message).
Proof. intros build. apply grows_refl. Qed.

Lemma growing_phases files config now :
  growing (phases JSON_parse files config now).
Proof.
  unfold phases.
  repeat (apply growing_bind; [|intros _]); try apply growing_log.
  - destruct (existsb _ files); [|apply growing_ret].
    apply growing_bind; [apply growing_log | intros _].
    destruct (find _ files); [|apply growing_ret].
    unfold installDependencies.
    destruct (JSON_parse _) as [e|[]]; try apply growing_throw;
      (apply growing_bind; [|intros _]; apply growing_log).
  - intros build. by apply grows_set_status.
  - unfold buildProject. destruct (String.eqb _ "static"); [apply growing_ret|].
    destruct (_ || _); [|apply growing_ret].
    apply growing_bind; [apply growing_log | intros _].
    destruct (find _ files); [apply growing_ret | apply growing_throw].
Qed.

Lemma grows_on_error message now build :
  grows build (on_error message now build).
Proof.
  unfold on_error.
  eapply grows_trans; [|apply grows_log].
  eapply grows_trans; [|apply grows_set_completedAt].
  eapply grows_trans; [|apply grows_set_error].
  by apply grows_set_status.
Qed.

Lemma grows_on_deployed config now build :
  grows build (on_deployed config now build).
Proof.
  unfold on_deployed.
  eapply grows_trans; [|apply grows_log].
  eapply grows_trans; [|apply grows_log].
  eapply grows_trans; [|apply grows_set_completedAt].
  eapply grows_trans; [|apply grows_set_previewUrl].
  by apply grows_set_status.
Qed.

Lemma grows_on_files files config now build :
  grows build (on_files JSON_parse files config now build).1.
Proof.
  unfold on_files. pose proof (growing_phases files config now build) as H.
  destruct (phases _ _ _ _ _) as [[e|[|entry entries]] b1]; cbn [fst snd] in *.
  - eapply grows_trans; [exact H | apply grows_on_error].
  - eapply grows_trans; [exact H | apply grows_on_deployed].
  - exact H.
Qed.

Lemma grows_resume fault now t build bucket :
  grows build (resume JSON_parse fault now t build bucket).1.1.
Proof.
  unfold resume.
  destruct (at_pc t) as [|keys files|entries|], fault as [message|];
    repeat match goal with
           | |- context [match ?x with _ => _ end] => destruct x
           end;
    cbn [fst];
    first [ apply grows_on_error | apply grows_on_files
          | apply grows_on_deployed | apply grows_refl ].
Qed.

Lemma grows_cancel buildId now s build :
  builds s !! buildId = Some build ->
  exists build',
    builds (cancelBuild buildId now s).2 !! buildId = Some build'
    /\ grows build build'.
Proof.
  intros Hb. unfold cancelBuild. rewrite Hb.
  destruct (BuildStatus.status build) eqn:Hst; cbn [snd builds];
    rewrite ?lookup_insert_eq, ?Hb; eexists; (split; [reflexivity|]);
    try apply grows_refl;
    (eapply grows_trans; [|apply grows_log];
     eapply grows_trans; [|apply grows_set_completedAt];
     eapply grows_trans; [|apply grows_set_error];
     by apply grows_set_status).
Qed.

Lemma grows_step s e buildId build :
  builds s !! buildId = Some build ->
  (forall config now, e <> Start config buildId now) ->
  exists build',
    builds (step JSON_parse s e) !! buildId = Some build'
    /\ grows build build'.
Proof.
  intros Hb Hstart. destruct e as [config id now|id now|id fault now];
    cbn [step].
  - destruct (decide (id = buildId)) as [->|Hne];
      [by destruct (Hstart config now)|].
    exists build. split; [|apply grows_refl].
    cbn. by rewrite lookup_insert_ne.
  - destruct (decide (id = buildId)) as [->|Hne]; [by apply grows_cancel|].
    exists build. split; [|apply grows_refl].
    unfold cancelBuild. destruct (builds s !! id) as [b|]; [|done].
    destruct (BuildStatus.status b); cbn [snd builds];
      by rewrite ?lookup_insert_ne.
  - unfold turn.
    destruct (tasks s !! id) as [t|]; [|exists build; split;
                                        [done | apply grows_refl]].
    destruct (builds s !! id) as [b|] eqn:Hid; [|exists build; split;
                                                  [done | apply grows_refl]].
    pose proof (grows_resume fault now t b (FILES s)) as Hg.
    destruct (resume _ _ _ _ _ _) as [[b1 a1] k1]. cbn [fst builds] in *.
    destruct (decide (id = buildId)) as [->|Hne].
    + rewrite lookup_insert_eq. exists b1. split; [done|]. congruence.
    + rewrite lookup_insert_ne by done. exists build.
      split; [done | apply grows_refl].
Qed.

(** X11: along every run that does not start the build again, the
    record of a build keeps its id, project and start time, its log only
    grows at the end, and a status other than [pending] never becomes
    [pending]. *)
Theorem build_record_only_grows es : forall s buildId build,
  builds s !! buildId = Some build ->
  Forall (fun e => forall config now, e <> Start config buildId now) es ->
  exists build',
    builds (run JSON_parse s es) !! buildId = Some build'
    /\ grows build build'.
Proof.
  induction es as [|e es IH]; intros s buildId build Hb Hes.
  - exists build. split; [done | apply grows_refl].
  - apply Forall_cons in Hes as [He Hes].
    destruct (grows_step s e buildId build Hb He) as (b1 & Hb1 & Hg1).
    destruct (IH _ buildId b1 Hb1 Hes) as (b2 & Hb2 & Hg2).
    exists b2. split; [exact Hb2 | by eapply grows_trans].
Qed.

(** *** No build is seen pending *)

Lemma step_no_new_build s e buildId :
  builds s !! buildId = None ->
  (forall config now, e <> Start config buildId now) ->
  builds (step JSON_parse s e) !! buildId = None.
Proof.
  intros Hb Hstart. destruct e as [config id now|id now|id fault now];
    cbn [step].
  - destruct (decide (id = buildId)) as [->|Hne];
      [by destruct (Hstart config now)|].
    cbn. by rewrite lookup_insert_ne.
  - unfold cancelBuild. destruct (builds s !! id) as [b|] eqn:Hid; [|done].
    assert (id <> buildId) by congruence.
    destruct (BuildStatus.status b); cbn [snd builds];
      by rewrite ?lookup_insert_ne.
  - unfold turn. destruct (tasks s !! id) as [t|]; [|done].
    destruct (builds s !! id) as [b|] eqn:Hid; [|done].
    assert (id <> buildId) by congruence.
    destruct (resume _ _ _ _ _ _) as [[b1 a1] k1]. cbn [builds].
    by rewrite lookup_insert_ne.
Qed.

Lemma step_not_pending s e :
  (forall buildId build,
      builds s !! buildId = Some build ->
      BuildStatus.status build <> pending) ->
  forall buildId build,
    builds (step JSON_parse s e) !! buildId = Some build ->
    BuildStatus.status build <> pending.
Proof.
  intros Hinv buildId build Hb.
  assert (Hcase : (exists config now, e = Start config buildId now)
                  \/ forall config now, e <> Start config buildId now).
  { destruct e as [config id now| |]; [|by right..].
    destruct (decide (id = buildId)) as [->|Hne]; [left; eauto|].
    right. congruence. }
  destruct Hcase as [(config & now & ->)|Hne].
  - cbn in Hb. rewrite lookup_insert_eq in Hb. by injection Hb as <-.
  - destruct (builds s !! buildId) as [b|] eqn:Hold.
    + destruct (grows_step s e buildId b Hold Hne) as (b' & Hb' & Hg).
      rewrite Hb in Hb'. injection Hb' as <-.
      destruct Hg as (_ & _ & _ & _ & Hst). eapply Hst, Hinv, Hold.
    + by rewrite (step_no_new_build s e buildId Hold Hne) in Hb.
Qed.

(** X12: whatever requests and turns follow one another, no build of the
    registry has the status [pending]: [startBuild] has already moved
    the build to [installing] when it answers. *)
Theorem no_build_is_pending bucket es buildId build :
  builds (run JSON_parse (init bucket) es) !! buildId = Some build ->
  BuildStatus.status build <> pending.
Proof.
  assert (Hrun : forall es s,
    (forall i b, builds s !! i = Some b -> BuildStatus.status b <> pending) ->
    forall i b, builds (run JSON_parse s es) !! i = Some b ->
                BuildStatus.status b <> pending).
  { clear. induction es as [|e es IH]; intros s Hinv; [exact Hinv|].
    apply (IH (step JSON_parse s e)), step_not_pending, Hinv. }
  apply Hrun. intros i b Hb. cbn in Hb. by rewrite lookup_empty in Hb.
Qed.

(** *** A bucket call that fails *)

Lemma resume_fault message now t build bucket :
  at_pc t <> Finished ->
  resume JSON_parse (Some message) now t build bucket
  = (on_error message now build, Finished, bucket).
Proof.
  intros Hpc. unfold resume.
  destruct (at_pc t) as [|[|key [|key' keys]] files
                         |[|[path content] [|entry entries]]|]; done.
Qed.

(** X13: when the bucket call that a task waits for fails, the build is
    [failed] with the message of the failure as its error and the time
    of the failure as [completedAt]; the task is over and the bucket is
    as it was. *)
Theorem fault_fails_build s buildId t build message now :
  tasks s !! buildId = Some t ->
  at_pc t <> Finished ->
  builds s !! buildId = Some build ->
  exists build',
    builds (turn JSON_parse buildId (Some message) now s) !! buildId
    = Some build'
    /\ BuildStatus.status build' = failed
    /\ BuildStatus.error build' = Some message
    /\ BuildStatus.completedAt build' = Some now
    /\ BuildStatus.previewUrl build' = BuildStatus.previewUrl build
    /\ BuildStatus.logs build'
       = BuildStatus.logs build
         ++ [{| LogLine.at_ := now; LogLine.text := "ERROR: " +:+ message |}]
    /\ at_pc <$> tasks (turn JSON_parse buildId (Some message) now s)
                 !! buildId = Some Finished
    /\ FILES (turn JSON_parse buildId (Some message) now s) = FILES s.
Proof.
  intros Ht Hpc Hb. unfold turn. rewrite Ht, Hb, resume_fault by done.
  cbn [builds tasks FILES]. rewrite !lookup_insert_eq.
  eexists; repeat split; reflexivity.
Qed.

(** *** The deploy phase *)

Lemma resumes_AwaitPut entries : forall nows now config build bucket,
  entries <> [] ->
  S (length nows) = length entries ->
  resumes JSON_parse (nows ++ [now]) config build (AwaitPut entries) bucket
  = (on_deployed config now build, Finished,
     deployPreview (BuildStatus.id build) entries
                   (BuildConfig.projectId config) bucket).
Proof.
  induction entries as [|[path content] entries IH];
    intros nows now config build bucket Hne Hlen; [done|].
  destruct entries as [|entry entries].
  - destruct nows; [|discriminate]. reflexivity.
  - destruct nows as [|n nows]; [discriminate|].
    cbn [app resumes resume at_pc BuildRunner.config].
    rewrite IH; [reflexivity | discriminate |].
    cbn in Hlen |- *. lia.
Qed.

Lemma preview_key_inj pid bid a b :
  preview_key pid bid a = preview_key pid bid b -> a = b.
Proof.
  unfold preview_key. intros H.
  repeat (apply append_inv_head in H). exact H.
Qed.

Lemma deployPreview_other bid pid entries : forall bucket k,
  (forall path, path ∈ entries.*1 -> k <> preview_key pid bid path) ->
  deployPreview bid entries pid bucket !! k = bucket !! k.
Proof.
  induction entries as [|[p c] entries IH]; intros bucket k Hk; [done|].
  unfold deployPreview in *. cbn [foldl fst snd].
  rewrite IH by (intros path Hp; apply Hk; cbn; by right).
  unfold R2.put. rewrite lookup_insert_ne; [done|].
  intros Heq. eapply Hk; [|by symmetry]. cbn. left.
Qed.

Lemma deployPreview_lookup bid pid entries : forall bucket path content,
  NoDup entries.*1 ->
  (path, content) ∈ entries ->
  deployPreview bid entries pid bucket !! preview_key pid bid path
  = Some {| R2.body := content;
            R2.contentType := Some (getContentType path) |}.
Proof.
  induction entries as [|[p c] entries IH];
    intros bucket path content Hnd Hin; [inversion Hin|].
  cbn in Hnd. apply NoDup_cons in Hnd as [Hp Hnd].
  unfold deployPreview in *. cbn [foldl fst snd].
  apply elem_of_cons in Hin as [[= -> ->]|Hin].
  - fold (deployPreview bid entries pid
            (R2.put (preview_key pid bid p) c (Some (getContentType p)) bucket)).
    rewrite deployPreview_other.
    + unfold R2.put. by rewrite lookup_insert_eq.
    + intros q Hq Heq. apply preview_key_inj in Heq. by subst.
  - by apply IH.
Qed.

(** The keys of the output of [buildProject] are pairwise distinct. *)
Lemma set_keys k v (m : list (string * string)) :
  k ∈ m.*1 -> (StringMap.set k v m).*1 = m.*1.
Proof.
  induction m as [|[k' v'] m IH]; intros Hk; [inversion Hk|].
  cbn [StringMap.set]. destruct (String.eqb_spec k' k) as [->|Hne]; [done|].
  cbn. f_equal. apply IH. cbn in Hk. apply elem_of_cons in Hk as [?|?]; [|done].
  congruence.
Qed.

Lemma set_NoDup k v (m : list (string * string)) :
  NoDup m.*1 -> NoDup (StringMap.set k v m).*1.
Proof.
  intros Hnd. destruct (decide (k ∈ m.*1)) as [Hin|Hout].
  - by rewrite set_keys.
  - rewrite set_fresh by done. rewrite fmap_app. cbn.
    apply NoDup_app. repeat split; [done | | apply NoDup_singleton].
    intros x Hx Hx'. apply list_elem_of_singleton in Hx'. by subst.
Qed.

Lemma copy_all_NoDup files : forall m,
  NoDup m.*1 -> NoDup (copy_all files m).*1.
Proof.
  induction files as [|f files IH]; intros m Hm; [done|].
  unfold copy_all in *. cbn [foldl]. by apply IH, set_NoDup.
Qed.

Lemma phases_NoDup files config now build entries :
  (phases JSON_parse files config now build).1 = inr entries ->
  NoDup entries.*1.
Proof.
  unfold phases, bind, log, set_status.
  destruct (if existsb _ files then _ else _) as [[e|[]] b1]; [discriminate|].
  unfold buildProject, bind, log, ret, throw.
  destruct (String.eqb _ "static").
  { intros [= <-]. apply copy_all_NoDup, NoDup_nil_2. }
  destruct (_ || _); [|intros [= <-]; apply NoDup_nil_2].
  destruct (find is_entry files); [|discriminate].
  intros [= <-]. apply copy_all_NoDup. cbn. apply NoDup_singleton.
Qed.

(** A build whose phases throw nothing, left to its task for enough
    turns, ends in [success] with everything deployed. *)
Lemma run_to_success config buildId now nows s entries :
  (forall at_ build,
      (phases JSON_parse
              (getProjectFiles (BuildConfig.projectId config) (FILES s))
              config at_ build).1 = inr entries) ->
  (length (R2.list (BuildConfig.projectId config +:+ "/") (FILES s))
   + length entries < length nows)%nat ->
  exists build,
    builds (run JSON_parse s (Start config buildId now :: turns buildId nows))
      !! buildId = Some build
    /\ BuildStatus.status build = success
    /\ BuildStatus.previewUrl build
       = Some (previewUrl_of (BuildConfig.projectId config) buildId)
    /\ at_pc <$> tasks (run JSON_parse s
                          (Start config buildId now :: turns buildId nows))
                 !! buildId = Some Finished
    /\ FILES (run JSON_parse s (Start config buildId now :: turns buildId nows))
       = deployPreview buildId entries (BuildConfig.projectId config) (FILES s).
Proof.
  intros Hphases Hlen.
  change (run JSON_parse s (Start config buildId now :: turns buildId nows))
    with (run JSON_parse (startBuild config buildId now s).2
              (turns buildId nows)).
  unfold startBuild; cbn [snd].
  set (b0 := on_start config now _).
  erewrite run_turns;
    [| cbn [tasks]; apply lookup_insert_eq
     | cbn [builds]; apply lookup_insert_eq].
  cbn [at_pc BuildRunner.config FILES].
  set (k := length (R2.list (BuildConfig.projectId config +:+ "/") (FILES s)))
    in *.
  destruct (drop k nows) as [|now1 rest1] eqn:Hdrop.
  { apply (f_equal length) in Hdrop. rewrite length_drop in Hdrop.
    cbn [length] in Hdrop. lia. }
  assert (Hrest1 : (length entries <= length rest1)%nat).
  { apply (f_equal length) in Hdrop. rewrite length_drop in Hdrop.
    cbn [length] in Hdrop. lia. }
  rewrite <- (take_drop k nows), Hdrop.
  change (now1 :: rest1) with ([now1] ++ rest1).
  rewrite app_assoc, resumes_app, resumes_AwaitList
    by (rewrite length_take; lia).
  unfold on_files. specialize (Hphases now1 b0).
  pose proof (growing_phases
                (getProjectFiles (BuildConfig.projectId config) (FILES s))
                config now1 b0) as (Hid & _).
  destruct (phases _ _ _ _ _) as [r b1]. cbn [fst snd] in Hphases, Hid.
  subst r. change (BuildStatus.id b0) with buildId in Hid.
  destruct entries as [|entry entries].
  - rewrite resumes_Finished. cbn [builds tasks FILES].
    rewrite !lookup_insert_eq. eexists. repeat split; cbn; by rewrite ?Hid.
  - destruct (drop (length entries) rest1) as [|now2 rest2] eqn:Hdrop2.
    { apply (f_equal length) in Hdrop2. rewrite length_drop in Hdrop2.
      cbn [length] in Hdrop2, Hrest1. lia. }
    rewrite <- (take_drop (length entries) rest1), Hdrop2.
    change (now2 :: rest2) with ([now2] ++ rest2).
    rewrite app_assoc, resumes_app, resumes_AwaitPut;
      [| discriminate | rewrite length_take; cbn [length] in *; lia].
    rewrite resumes_Finished. cbn [builds tasks FILES].
    rewrite !lookup_insert_eq, Hid.
    eexists. repeat split; cbn; by rewrite ?Hid.
Qed.

Lemma phases_static files config now build :
  detectProjectType JSON_parse files = "static" ->
  NoDup (BuildFile.path <$> files) ->
  (forall packageJson,
      find (has_path "package.json") files = Some packageJson ->
      exists pkg,
        JSON_parse (BuildFile.content packageJson) = inr pkg
        /\ pkg <> JSON.Null) ->
  (phases JSON_parse files config now build).1 = inr (entry_of <$> files).
Proof.
  intros Hdetect Hnd Hmanifest. unfold phases. rewrite Hdetect.
  set (install := if existsb (has_path "package.json") files then _ else _).
  assert (Hinstall : forall b, exists b1, install b = (inr tt, b1)).
  { intros b. subst install. destruct (existsb _ files); [|by eexists].
    unfold bind, log.
    destruct (find _ files) as [packageJson|] eqn:Hfind; [|by eexists].
    destruct (Hmanifest _ eq_refl) as (pkg & Hparse & Hnull).
    unfold installDependencies, bind, log. rewrite Hparse.
    destruct pkg; try done; by eexists. }
  unfold bind, log, set_status. cbv beta iota.
  match goal with
  | |- context [install ?b] => destruct (Hinstall b) as (b1 & ->)
  end.
  cbv beta iota. by rewrite static_copy.
Qed.

(** The run of a static site, in terms of the files that the task
    reads. *)
Lemma static_run config buildId now nows s :
  detectProjectType JSON_parse
    (getProjectFiles (BuildConfig.projectId config) (FILES s)) = "static" ->
  (forall packageJson,
      find (has_path "package.json")
           (getProjectFiles (BuildConfig.projectId config) (FILES s))
      = Some packageJson ->
      exists pkg,
        JSON_parse (BuildFile.content packageJson) = inr pkg
        /\ pkg <> JSON.Null) ->
  (length (R2.list (BuildConfig.projectId config +:+ "/") (FILES s))
   + length (getProjectFiles (BuildConfig.projectId config) (FILES s))
   < length nows)%nat ->
  exists build,
    builds (run JSON_parse s (Start config buildId now :: turns buildId nows))
      !! buildId = Some build
    /\ BuildStatus.status build = success
    /\ BuildStatus.previewUrl build
       = Some ("/preview/" +:+ BuildConfig.projectId config +:+ "/"
               +:+ buildId +:+ "/")
    /\ (forall f,
          f ∈ getProjectFiles (BuildConfig.projectId config) (FILES s) ->
          FILES (run JSON_parse s
                     (Start config buildId now :: turns buildId nows))
            !! preview_key (BuildConfig.projectId config) buildId
                           (BuildFile.path f)
          = Some {| R2.body := BuildFile.content f;
                    R2.contentType :=
                      Some (getContentType (BuildFile.path f)) |})
    /\ (forall k,
          (forall path,
              k <> preview_key (BuildConfig.projectId config) buildId path) ->
          FILES (run JSON_parse s
                     (Start config buildId now :: turns buildId nows)) !! k
          = FILES s !! k).
Proof.
  intros Hdetect Hmanifest Hlen.
  set (files := getProjectFiles (BuildConfig.projectId config) (FILES s)) in *.
  assert (Hnd : NoDup (BuildFile.path <$> files))
    by apply getProjectFiles_NoDup.
  destruct (run_to_success config buildId now nows s (entry_of <$> files))
    as (build & Hb & Hst & Hurl & _ & Hfiles).
  { intros at_ b. by apply phases_static. }
  { by rewrite length_fmap. }
  exists build. rewrite Hfiles. repeat split; try done.
  - intros f Hf. apply deployPreview_lookup.
    + by rewrite <- list_fmap_compose.
    + apply list_elem_of_fmap. by exists f.
  - intros k Hk. apply deployPreview_other. auto.
Qed.

(** *** A React project with an entry file *)

Lemma set_elem k v (m : list (string * string)) :
  (k, v) ∈ StringMap.set k v m.
Proof.
  induction m as [|[k' v'] m IH]; cbn [StringMap.set]; [left|].
  destruct (String.eqb_spec k' k) as [->|Hne]; [left | by right].
Qed.

Lemma set_elem_other k v k' v' (m : list (string * string)) :
  (k', v') ∈ m -> k' <> k -> (k', v') ∈ StringMap.set k v m.
Proof.
  induction m as [|[k0 v0] m IH]; intros Hin Hne; [inversion Hin|].
  cbn [StringMap.set]. apply elem_of_cons in Hin as [[= <- <-]|Hin].
  - destruct (String.eqb_spec k' k); [done | left].
  - destruct (String.eqb_spec k0 k); right; auto.
Qed.

Lemma copy_all_keeps files : forall m k v,
  (k, v) ∈ m -> k ∉ BuildFile.path <$> files -> (k, v) ∈ copy_all files m.
Proof.
  induction files as [|f files IH]; intros m k v Hin Hk; [done|].
  unfold copy_all in *. cbn [foldl]. rewrite fmap_cons in Hk.
  apply not_elem_of_cons in Hk as [Hne Hk].
  apply IH; [by apply set_elem_other | done].
Qed.

Lemma copy_all_elem files : forall m f,
  NoDup (BuildFile.path <$> files) ->
  f ∈ files ->
  (BuildFile.path f, BuildFile.content f) ∈ copy_all files m.
Proof.
  induction files as [|g files IH]; intros m f Hnd Hf; [inversion Hf|].
  rewrite fmap_cons in Hnd. apply NoDup_cons in Hnd as [Hg Hnd].
  unfold copy_all in *. cbn [foldl].
  apply elem_of_cons in Hf as [->|Hf]; [|by apply IH].
  apply (copy_all_keeps files); [apply set_elem | done].
Qed.

Lemma copy_all_length files : forall m,
  (length (copy_all files m) <= length m + length files)%nat.
Proof.
  assert (Hset : forall k v (m : list (string * string)),
             (length (StringMap.set k v m) <= S (length m))%nat).
  { intros k v m. induction m as [|[k' v'] m IH]; cbn [StringMap.set];
      [cbn; lia|].
    destruct (String.eqb k' k); cbn [length]; lia. }
  induction files as [|f files IH]; intros m; [cbn; lia|].
  unfold copy_all in *. cbn [foldl length].
  specialize (IH (StringMap.set (BuildFile.path f) (BuildFile.content f) m)).
  specialize (Hset (BuildFile.path f) (BuildFile.content f) m). lia.
Qed.

Lemma createHTMLWrapper_existing files entryPath f :
  NoDup (BuildFile.path <$> files) ->
  f ∈ files ->
  BuildFile.path f = "index.html" ->
  createHTMLWrapper files entryPath = BuildFile.content f.
Proof.
  intros Hnd Hf Hpath. unfold createHTMLWrapper.
  destruct (find (has_path "index.html") files) as [g|] eqn:Hfind.
  - apply find_some in Hfind as [Hg Hgp]. apply list_elem_of_In in Hg.
    unfold has_path in Hgp. apply String.eqb_eq in Hgp.
    f_equal. eapply (NoDup_fmap_eq BuildFile.path); eauto. congruence.
  - exfalso. apply list_elem_of_In in Hf.
    eapply (find_none _ _ Hfind) in Hf. unfold has_path in Hf.
    rewrite Hpath in Hf. discriminate.
Qed.

Lemma phases_react files config now build entryFile :
  detectProjectType JSON_parse files = "react"
  \/ detectProjectType JSON_parse files = "vite-react" ->
  find is_entry files = Some entryFile ->
  (phases JSON_parse files config now build).1
  = inr (copy_all files
           [("index.html",
             createHTMLWrapper files (BuildFile.path entryFile))]).
Proof.
  intros Htype Hentry.
  destruct (detectProjectType_framework JSON_parse files)
    as (packageJson & pkg & Hfind & Hparse & Hnull).
  { destruct Htype as [-> | ->]; discriminate. }
  { destruct Htype as [-> | ->]; discriminate. }
  unfold phases, installDependencies, buildProject, bind, log, set_status,
    ret, throw.
  rewrite (find_existsb _ _ _ Hfind), Hfind, Hparse.
  destruct Htype as [-> | ->]; rewrite Hentry;
    destruct pkg; try contradiction; reflexivity.
Qed.

(** The run of a React project, in terms of the files that the task
    reads. *)
Lemma react_run config buildId now nows s entryFile :
  detectProjectType JSON_parse
    (getProjectFiles (BuildConfig.projectId config) (FILES s)) = "react"
  \/ detectProjectType JSON_parse
       (getProjectFiles (BuildConfig.projectId config) (FILES s))
     = "vite-react" ->
  find is_entry (getProjectFiles (BuildConfig.projectId config) (FILES s))
  = Some entryFile ->
  (length (R2.list (BuildConfig.projectId config +:+ "/") (FILES s))
   + S (length (getProjectFiles (BuildConfig.projectId config) (FILES s)))
   < length nows)%nat ->
  exists build,
    builds (run JSON_parse s (Start config buildId now :: turns buildId nows))
      !! buildId = Some build
    /\ BuildStatus.status build = success
    /\ BuildStatus.previewUrl build
       = Some ("/preview/" +:+ BuildConfig.projectId config +:+ "/"
               +:+ buildId +:+ "/")
    /\ FILES (run JSON_parse s
                  (Start config buildId now :: turns buildId nows))
         !! preview_key (BuildConfig.projectId config) buildId "index.html"
       = Some {| R2.body :=
                   createHTMLWrapper
                     (getProjectFiles (BuildConfig.projectId config) (FILES s))
                     (BuildFile.path entryFile);
                 R2.contentType := Some (R2.Mime "text/html") |}
    /\ (forall f,
          f ∈ getProjectFiles (BuildConfig.projectId config) (FILES s) ->
          FILES (run JSON_parse s
                     (Start config buildId now :: turns buildId nows))
            !! preview_key (BuildConfig.projectId config) buildId
                           (BuildFile.path f)
          = Some {| R2.body := BuildFile.content f;
                    R2.contentType :=
                      Some (getContentType (BuildFile.path f)) |}).
Proof.
  intros Htype Hentry Hlen.
  set (files := getProjectFiles (BuildConfig.projectId config) (FILES s)) in *.
  assert (Hnd : NoDup (BuildFile.path <$> files))
    by apply getProjectFiles_NoDup.
  set (html := createHTMLWrapper files (BuildFile.path entryFile)).
  set (entries := copy_all files [("index.html", html)]).
  assert (Hkeys : NoDup entries.*1)
    by (apply copy_all_NoDup; cbn; apply NoDup_singleton).
  destruct (run_to_success config buildId now nows s entries)
    as (build & Hb & Hst & Hurl & _ & Hfiles).
  { intros at_ b. by apply phases_react. }
  { pose proof (copy_all_length files [("index.html", html)]) as Hle.
    fold entries in Hle. cbn [length] in Hle. fold files. lia. }
  exists build. rewrite Hfiles. repeat split; try done.
  - change (Some (R2.Mime "text/html"))
      with (Some (getContentType "index.html")).
    apply deployPreview_lookup; [done|].
    destruct (decide ("index.html" ∈ BuildFile.path <$> files)) as [Hin|Hout].
    + apply list_elem_of_fmap in Hin as (f & Hpath & Hf).
      subst html. rewrite (createHTMLWrapper_existing files _ f) by done.
      rewrite Hpath. by apply copy_all_elem.
    + apply copy_all_keeps; [left | done].
  - intros f Hf. apply deployPreview_lookup; [done|]. by apply copy_all_elem.
Qed.

(** *** The files read and the objects of the bucket *)

Lemma read_elem projectId bucket f keys : forall files,
  f ∈ foldl (fun fs key => read_object projectId key bucket fs) files keys
  <-> f ∈ files
      \/ exists key object,
           key ∈ keys /\ bucket !! key = Some object
           /\ f = {| BuildFile.path := replace key (projectId +:+ "/") "";
                     BuildFile.content := R2.body object |}.
Proof.
  induction keys as [|key keys IH]; intros files; cbn [foldl].
  - split; [by left|]. intros [H|(key & o & H & _)]; [done|].
    by apply elem_of_nil in H.
  - rewrite IH. unfold read_object, R2.get.
    destruct (bucket !! key) as [o|] eqn:Hkey.
    + rewrite elem_of_app, list_elem_of_singleton. split.
      * intros [[H| ->]|(k & o' & Hk & Hb & Hf)]; [by left|..].
        -- right. exists key, o. rewrite elem_of_cons. auto.
        -- right. exists k, o'. rewrite elem_of_cons. auto.
      * intros [H|(k & o' & Hk & Hb & Hf)]; [by left; left|].
        apply elem_of_cons in Hk as [->|Hk].
        -- left. right. congruence.
        -- right. eauto.
    + split.
      * intros [H|(k & o' & Hk & Hb & Hf)]; [by left|].
        right. exists k, o'. rewrite elem_of_cons. auto.
      * intros [H|(k & o' & Hk & Hb & Hf)]; [by left|].
        apply elem_of_cons in Hk as [->|Hk]; [congruence|].
        right. eauto.
Qed.

(** A listing that the limit does not cut holds every key under the
    prefix. *)
Lemma list_all prefix bucket key object :
  (R2.count prefix bucket <= R2.list_limit)%nat ->
  bucket !! key = Some object ->
  String.prefix prefix key = true ->
  key ∈ R2.list prefix bucket.
Proof.
  unfold R2.count, R2.list. intros Hcount Hkey Hprefix.
  rewrite take_ge.
  - rewrite sort_perm. apply list_elem_of_filter. split; [done|].
    apply list_elem_of_fmap. exists (key, object). split; [done|].
    by apply elem_of_map_to_list.
  - by rewrite (Permutation_length (sort_perm _ _)).
Qed.

Lemma length_list prefix bucket :
  (length (R2.list prefix bucket) <= R2.count prefix bucket)%nat.
Proof.
  unfold R2.count, R2.list. rewrite length_take.
  rewrite (Permutation_length (sort_perm _ _)). lia.
Qed.

Lemma length_getProjectFiles projectId bucket :
  (length (getProjectFiles projectId bucket)
   <= R2.count (projectId +:+ "/") bucket)%nat.
Proof.
  pose proof (read_paths projectId bucket
                (R2.list (projectId +:+ "/") bucket) []) as Hpaths.
  apply (f_equal length) in Hpaths.
  rewrite !length_fmap in Hpaths. cbn [fmap list_fmap app length] in Hpaths.
  rewrite length_fmap in Hpaths. unfold getProjectFiles. rewrite Hpaths.
  etrans; [apply length_filter | apply length_list].
Qed.

Lemma replace_project_prefix projectId path :
  replace (projectId +:+ "/" +:+ path) (projectId +:+ "/") "" = path.
Proof.
  assert (Hne : projectId +:+ "/" <> "") by (by destruct projectId).
  rewrite <- append_assoc.
  rewrite replace_prefix by (done || apply prefix_append).
  rewrite (length_append (projectId +:+ "/") path).
  replace (String.length (projectId +:+ "/") + String.length path
           - String.length (projectId +:+ "/"))%nat
    with (String.length path) by lia.
  by rewrite substring_append_skip, substring_whole.
Qed.

(** Every file read is an object of the project, and in a project of at
    most 1000 objects every object is read. *)
Lemma getProjectFiles_of_object projectId bucket f :
  f ∈ getProjectFiles projectId bucket ->
  exists object,
    bucket !! (projectId +:+ "/" +:+ BuildFile.path f) = Some object
    /\ BuildFile.content f = R2.body object.
Proof.
  unfold getProjectFiles. rewrite read_elem.
  intros [H|(key & object & Hin & Hkey & ->)]; [by apply elem_of_nil in H|].
  apply list_prefix in Hin. exists object. cbn [BuildFile.path].
  split; [|done].
  assert (Heq : projectId +:+ "/" +:+ replace key (projectId +:+ "/") ""
                = key).
  { rewrite <- append_assoc.
    rewrite replace_prefix by (done || by destruct projectId).
    symmetry. by apply prefix_split. }
  by rewrite Heq.
Qed.

Lemma getProjectFiles_all projectId bucket path object :
  (R2.count (projectId +:+ "/") bucket <= R2.list_limit)%nat ->
  bucket !! (projectId +:+ "/" +:+ path) = Some object ->
  {| BuildFile.path := path; BuildFile.content := R2.body object |}
    ∈ getProjectFiles projectId bucket.
Proof.
  intros Hcount Hkey. unfold getProjectFiles. rewrite read_elem. right.
  exists (projectId +:+ "/" +:+ path), object. split; [|split; [done|]].
  - apply (list_all _ _ _ object); [done..|].
    rewrite <- append_assoc. apply prefix_append.
  - by rewrite replace_project_prefix.
Qed.

(** X14: a static site of at most 1000 objects (its manifest, if there
    is one, parsing to something other than [null]) builds to
    [success]: once the task has had its turns the record carries the
    preview URL [/preview/{projectId}/{buildId}/], every object of the
    project lies under its preview key with its content and with what
    [getContentType] answers for its path, and no other key of the
    bucket has changed. *)
Theorem static_site_is_published config buildId now nows s :
  (R2.count (BuildConfig.projectId config +:+ "/") (FILES s)
   <= R2.list_limit)%nat ->
  detectProjectType JSON_parse
    (getProjectFiles (BuildConfig.projectId config) (FILES s)) = "static" ->
  (forall packageJson,
      FILES s !! (BuildConfig.projectId config +:+ "/" +:+ "package.json")
      = Some packageJson ->
      exists pkg,
        JSON_parse (R2.body packageJson) = inr pkg /\ pkg <> JSON.Null) ->
  (2 * R2.count (BuildConfig.projectId config +:+ "/") (FILES s)
   < length nows)%nat ->
  exists build,
    builds (run JSON_parse s (Start config buildId now :: turns buildId nows))
      !! buildId = Some build
    /\ BuildStatus.status build = success
    /\ BuildStatus.previewUrl build
       = Some ("/preview/" +:+ BuildConfig.projectId config +:+ "/"
               +:+ buildId +:+ "/")
    /\ (forall path object,
          FILES s !! (BuildConfig.projectId config +:+ "/" +:+ path)
          = Some object ->
          FILES (run JSON_parse s
                     (Start config buildId now :: turns buildId nows))
            !! preview_key (BuildConfig.projectId config) buildId path
          = Some {| R2.body := R2.body object;
                    R2.contentType := Some (getContentType path) |})
    /\ (forall k,
          (forall path,
              k <> preview_key (BuildConfig.projectId config) buildId path) ->
          FILES (run JSON_parse s
                     (Start config buildId now :: turns buildId nows)) !! k
          = FILES s !! k).
Proof.
  intros Hcount Hdetect Hmanifest Hlen.
  destruct (static_run config buildId now nows s Hdetect)
    as (build & Hb & Hst & Hurl & Hfiles & Hother).
  - intros packageJson Hfind.
    pose proof (find_some _ _ Hfind) as [Hin Hpath].
    apply list_elem_of_In in Hin.
    apply getProjectFiles_of_object in Hin as (object & Hkey & Hbody).
    apply String.eqb_eq in Hpath. rewrite Hpath in Hkey.
    rewrite Hbody. by apply Hmanifest.
  - pose proof (length_list (BuildConfig.projectId config +:+ "/") (FILES s)).
    pose proof (length_getProjectFiles (BuildConfig.projectId config)
                  (FILES s)).
    lia.
  - exists build. repeat split; try done.
    intros path object Hkey.
    apply (Hfiles {| BuildFile.path := path;
                     BuildFile.content := R2.body object |}).
    by apply getProjectFiles_all.
Qed.

(** X15: a project of at most 1000 objects that is detected as [react]
    or [vite-react] and has one of the entry files builds to [success];
    nothing is transformed: every object of the project is published
    under its preview key with its own content, except that
    [index.html] is published with the content that
    [createHTMLWrapper] gives for the entry file (the project's own
    [index.html] when it has one). *)
Theorem react_app_is_published config buildId now nows s entryFile :
  (R2.count (BuildConfig.projectId config +:+ "/") (FILES s)
   <= R2.list_limit)%nat ->
  detectProjectType JSON_parse
    (getProjectFiles (BuildConfig.projectId config) (FILES s)) = "react"
  \/ detectProjectType JSON_parse
       (getProjectFiles (BuildConfig.projectId config) (FILES s))
     = "vite-react" ->
  find is_entry (getProjectFiles (BuildConfig.projectId config) (FILES s))
  = Some entryFile ->
  (2 * R2.count (BuildConfig.projectId config +:+ "/") (FILES s) + 1
   < length nows)%nat ->
  exists build,
    builds (run JSON_parse s (Start config buildId now :: turns buildId nows))
      !! buildId = Some build
    /\ BuildStatus.status build = success
    /\ BuildStatus.previewUrl build
       = Some ("/preview/" +:+ BuildConfig.projectId config +:+ "/"
               +:+ buildId +:+ "/")
    /\ FILES (run JSON_parse s
                  (Start config buildId now :: turns buildId nows))
         !! preview_key (BuildConfig.projectId config) buildId "index.html"
       = Some {| R2.body :=
                   createHTMLWrapper
                     (getProjectFiles (BuildConfig.projectId config) (FILES s))
                     (BuildFile.path entryFile);
                 R2.contentType := Some (R2.Mime "text/html") |}
    /\ (forall path object,
          FILES s !! (BuildConfig.projectId config +:+ "/" +:+ path)
          = Some object ->
          FILES (run JSON_parse s
                     (Start config buildId now :: turns buildId nows))
            !! preview_key (BuildConfig.projectId config) buildId path
          = Some {| R2.body := R2.body object;
                    R2.contentType := Some (getContentType path) |}).
Proof.
  intros Hcount Htype Hentry Hlen.
  destruct (react_run config buildId now nows s entryFile Htype Hentry)
    as (build & Hb & Hst & Hurl & Hindex & Hfiles).
  - pose proof (length_list (BuildConfig.projectId config +:+ "/") (FILES s)).
    pose proof (length_getProjectFiles (BuildConfig.projectId config)
                  (FILES s)).
    lia.
  - exists build. repeat split; try done.
    intros path object Hkey.
    apply (Hfiles {| BuildFile.path := path;
                     BuildFile.content := R2.body object |}).
    by apply getProjectFiles_all.
Qed.

(** *** A manifest that is read *)

Lemma find_has_path files : forall f,
  NoDup (BuildFile.path <$> files) ->
  f ∈ files ->
  find (has_path (BuildFile.path f)) files = Some f.
Proof.
  induction files as [|g files IH]; intros f Hnd Hin.
  - by apply elem_of_nil in Hin.
  - rewrite fmap_cons in Hnd. apply NoDup_cons in Hnd as [Hg Hnd].
    cbn [find]. unfold has_path at 1.
    destruct (String.eqb_spec (BuildFile.path g) (BuildFile.path f))
      as [Heq|Hne].
    + apply elem_of_cons in Hin as [->|Hin]; [done|].
      exfalso. apply Hg. rewrite Heq. by apply list_elem_of_fmap_2.
    + apply elem_of_cons in Hin as [->|Hin]; [done|]. by apply IH.
Qed.

(** X29: in a project of at most 1000 objects, a [package.json] that
    is not valid JSON fails the build: it ends [failed] with the error
    ["Failed to parse package.json: "] followed by the parser's error,
    without a preview URL and with the bucket as it was. *)
Theorem invalid_manifest_fails_small_project config buildId now nows s
    packageJson error :
  (R2.count (BuildConfig.projectId config +:+ "/") (FILES s)
   <= R2.list_limit)%nat ->
  FILES s !! (BuildConfig.projectId config +:+ "/" +:+ "package.json")
  = Some packageJson ->
  JSON_parse (R2.body packageJson) = inl error ->
  (R2.count (BuildConfig.projectId config +:+ "/") (FILES s)
   < length nows)%nat ->
  exists build,
    builds (run JSON_parse s (Start config buildId now :: turns buildId nows))
      !! buildId = Some build
    /\ BuildStatus.status build = failed
    /\ BuildStatus.error build
       = Some ("Failed to parse package.json: " +:+ error)
    /\ BuildStatus.previewUrl build = None
    /\ FILES (run JSON_parse s (Start config buildId now :: turns buildId nows))
       = FILES s.
Proof.
  intros Hcount Hkey Hparse Hlen.
  pose proof (getProjectFiles_all _ _ _ _ Hcount Hkey) as Hin.
  apply find_has_path in Hin; [|apply getProjectFiles_NoDup].
  cbn [BuildFile.path] in Hin.
  destruct (invalid_manifest_fails_build JSON_parse config buildId now nows s
              _ error Hin Hparse)
    as (build & before & at_ & Hb & Hst & Herr & Hurl & _ & _ & _ & Hfiles).
  - pose proof (length_list (BuildConfig.projectId config +:+ "/") (FILES s)).
    lia.
  - exists build. auto.
Qed.

(** *** The router of the Build Coordinator *)

(** X16: under [/build/], a GET is always answered with the status of
    the build that the third segment names, also when the path ends in
    [/logs]; and a request whose path ends in [/logs] never changes the
    state, whatever its method. *)
Theorem fetch_build_routes method path config uuid now s :
  JS.startsWith path "/build/" = true ->
  (method = "GET" ->
   exists buildId,
     buildId_of path = Some buildId
     /\ fetch method path config uuid now s
        = (Reply (getBuildStatus buildId s), s))
  /\ (JS.endsWith path "/logs" = true ->
      (fetch method path config uuid now s).2 = s).
Proof.
  intros Hpre.
  pose proof (prefix_split "/build/" path Hpre) as Hpath.
  set (rest := substring (String.length "/build/")
                 (String.length path - String.length "/build/") path)
    in Hpath.
  assert (Hid : exists buildId, buildId_of path = Some buildId).
  { rewrite Hpath. unfold buildId_of, JS.split. cbv [String.append]. cbn.
    replace (String.prefix "" rest) with true by (by destruct rest).
    destruct (JS.split_go "/" 0 rest) as [p ps]. cbn. eauto. }
  assert (Hne : String.eqb path "/build" = false)
    by (rewrite Hpath; reflexivity).
  destruct Hid as (buildId & Hid).
  unfold fetch. rewrite Hid, Hne, Hpre.
  cbn [andb]. split.
  - intros ->. cbn. eauto.
  - intros Hlogs. rewrite Hlogs.
    by destruct (String.eqb method "GET").
Qed.

End BuildRunnerMore.

(** ** More runs on the scenarios *)

Section MoreRuns.

Import BuildRunner.

(** X11, on the build [b1] of the static site: cancelled and then left
    to run. *)
Lemma build_record_only_grows_witness :
  exists build build',
    builds Scenario.started !! "b1" = Some build
    /\ builds (run JSON.parse Scenario.started
                   (Cancel "b1" 11 :: turns "b1" [12; 13; 14])) !! "b1"
       = Some build'
    /\ grows build build'.
Proof.
  destruct (builds Scenario.started !! "b1") as [build|] eqn:Hb;
    [|vm_compute in Hb; discriminate].
  destruct (build_record_only_grows JSON.parse
              (Cancel "b1" 11 :: turns "b1" [12; 13; 14])
              Scenario.started "b1" build Hb) as (build' & Hb' & Hg).
  - repeat constructor; intros config now; discriminate.
  - exists build, build'. auto.
Defined.

(** X12, right after [startBuild] has answered. *)
Lemma no_build_is_pending_witness :
  exists build,
    builds (run JSON.parse (init Scenario.site)
                [Start (Scenario.config "demo") "b1" 10]) !! "b1" = Some build
    /\ BuildStatus.status build <> pending.
Proof.
  destruct (builds (run JSON.parse (init Scenario.site)
                        [Start (Scenario.config "demo") "b1" 10]) !! "b1")
    as [build|] eqn:Hb; [|vm_compute in Hb; discriminate].
  exists build. split; [reflexivity|].
  exact (no_build_is_pending JSON.parse Scenario.site
           [Start (Scenario.config "demo") "b1" 10] "b1" build Hb).
Defined.

(** X13: the listing of the bucket fails for the build [b1]. *)
Lemma fault_fails_build_witness :
  exists build',
    builds (turn JSON.parse "b1" (Some "Network connection lost") 11
                 Scenario.started) !! "b1" = Some build'
    /\ BuildStatus.status build' = failed
    /\ BuildStatus.error build' = Some "Network connection lost"
    /\ BuildStatus.completedAt build' = Some 11.
Proof.
  destruct (builds Scenario.started !! "b1") as [build|] eqn:Hb;
    [|vm_compute in Hb; discriminate].
  destruct (fault_fails_build JSON.parse Scenario.started "b1"
              {| config := Scenario.config "demo"; at_pc := AwaitList |}
              build "Network connection lost" 11)
    as (build' & Hb' & Hst & Herr & Hat & _).
  - vm_compute. reflexivity.
  - discriminate.
  - exact Hb.
  - exists build'. auto.
Defined.

(** X14, on the static site. *)
Lemma static_site_is_published_witness :
  exists build,
    builds (run JSON.parse (init Scenario.site)
                (Start (Scenario.config "demo") "b1" 10
                 :: turns "b1" [11; 12; 13])) !! "b1" = Some build
    /\ BuildStatus.status build = success
    /\ BuildStatus.previewUrl build = Some "/preview/demo/b1/"
    /\ FILES (run JSON.parse (init Scenario.site)
                  (Start (Scenario.config "demo") "b1" 10
                   :: turns "b1" [11; 12; 13]))
         !! "previews/demo/b1/index.html"
       = Some {| R2.body := "<h1>hi</h1>";
                 R2.contentType := Some (R2.Mime "text/html") |}.
Proof.
  destruct (static_site_is_published JSON.parse (Scenario.config "demo")
              "b1" 10 [11; 12; 13] (init Scenario.site))
    as (build & Hb & Hst & Hurl & Hfiles & _).
  - apply Nat.leb_le. vm_compute. reflexivity.
  - vm_compute. reflexivity.
  - intros packageJson Hfind. vm_compute in Hfind. discriminate.
  - apply Nat.ltb_lt. vm_compute. reflexivity.
  - exists build. split; [exact Hb|]. split; [exact Hst|].
    split; [exact Hurl|].
    exact (Hfiles "index.html" (Scenario.object "<h1>hi</h1>") eq_refl).
Defined.

(** X15, on a React manifest with the entry file [src/main.tsx]. *)
Lemma react_app_is_published_witness :
  exists build,
    builds (run JSON.parse (init Scenario.react_entry)
                (Start (Scenario.config "app") "b5" 10
                 :: turns "b5" [11; 12; 13; 14; 15; 16])) !! "b5"
    = Some build
    /\ BuildStatus.status build = success
    /\ BuildStatus.previewUrl build = Some "/preview/app/b5/"
    /\ FILES (run JSON.parse (init Scenario.react_entry)
                  (Start (Scenario.config "app") "b5" 10
                   :: turns "b5" [11; 12; 13; 14; 15; 16]))
         !! "previews/app/b5/src/main.tsx"
       = Some {| R2.body := "render();";
                 R2.contentType := Some (R2.Mime "text/plain") |}.
Proof.
  destruct (react_app_is_published JSON.parse (Scenario.config "app")
              "b5" 10 [11; 12; 13; 14; 15; 16] (init Scenario.react_entry)
              {| BuildFile.path := "src/main.tsx";
                 BuildFile.content := "render();" |})
    as (build & Hb & Hst & Hurl & _ & Hfiles).
  - apply Nat.leb_le. vm_compute. reflexivity.
  - left. vm_compute. reflexivity.
  - vm_compute. reflexivity.
  - apply Nat.ltb_lt. vm_compute. reflexivity.
  - exists build. split; [exact Hb|]. split; [exact Hst|].
    split; [exact Hurl|].
    exact (Hfiles "src/main.tsx" (Scenario.object "render();") eq_refl).
Defined.

(** X29, on a manifest that is not JSON next to an [index.html]. *)
Lemma invalid_manifest_fails_small_project_witness :
  exists build,
    builds (run JSON.parse (init Scenario.broken_manifest)
                (Start (Scenario.config "broken") "b4" 10
                 :: turns "b4" [11; 12; 13])) !! "b4" = Some build
    /\ BuildStatus.status build = failed
    /\ BuildStatus.error build
       = Some ("Failed to parse package.json: "
               +:+ "SyntaxError: Unexpected token in JSON").
Proof.
  destruct (invalid_manifest_fails_small_project JSON.parse
              (Scenario.config "broken") "b4" 10 [11; 12; 13]
              (init Scenario.broken_manifest)
              (Scenario.object "{ name: demo")
              "SyntaxError: Unexpected token in JSON")
    as (build & Hb & Hst & Herr & _).
  - apply Nat.leb_le. vm_compute. reflexivity.
  - reflexivity.
  - vm_compute. reflexivity.
  - apply Nat.ltb_lt. vm_compute. reflexivity.
  - exists build. auto.
Defined.

(** X16: a GET for the logs of the build [b1]. *)
Lemma fetch_build_routes_witness :
  exists buildId,
    buildId_of "/build/b1/logs" = Some buildId
    /\ fetch "GET" "/build/b1/logs" None "u" 11 Scenario.started
       = (Reply (getBuildStatus buildId Scenario.started), Scenario.started).
Proof.
  apply (fetch_build_routes "GET" "/build/b1/logs" None "u" 11
           Scenario.started); reflexivity.
Defined.

(** X23, on the build [b1] of the static site, run to its end. *)
Lemma finished_build_is_stable_witness :
  let finished :=
    run JSON.parse (init Scenario.site)
        (Start (Scenario.config "demo") "b1" 10 :: turns "b1" [11; 12; 13]) in
  (cancelBuild "b1" 20 finished).2 = finished
  /\ turn JSON.parse "b1" None 21 finished = finished.
Proof.
  intros finished.
  destruct (builds finished !! "b1") as [build|] eqn:Hb;
    [|vm_compute in Hb; discriminate].
  destruct (finished_build_is_stable JSON.parse "b1" finished
              {| config := Scenario.config "demo"; at_pc := Finished |}
              build) as [Hcancel Hturn].
  - vm_compute. reflexivity.
  - reflexivity.
  - exact Hb.
  - vm_compute in Hb. injection Hb as <-. reflexivity.
  - split; [apply Hcancel | apply Hturn].
Defined.

End MoreRuns.

(** ** Content types *)

Section ContentTypes.

Import BuildRunner.

Lemma lower_dot x : JS.lower x = "."%char <-> x = "."%char.
Proof.
  destruct x as [[] [] [] [] [] [] [] []]; vm_compute; split; congruence.
Qed.

Lemma split_toLowerCase s :
  JS.split (JS.toLowerCase s) "." = JS.toLowerCase <$> JS.split s ".".
Proof.
  induction s as [|x s IH]; [done|].
  cbn [JS.toLowerCase]. rewrite !split_cons, IH.
  pose proof (lower_dot x) as Hdot.
  destruct (ascii_dec "." (JS.lower x)) as [Hl|Hl],
           (ascii_dec "." x) as [Hx|Hx].
  - done.
  - symmetry in Hl. apply Hdot in Hl. congruence.
  - subst x. by vm_compute in Hl.
  - by destruct (JS.split s ".").
Qed.

Lemma lower_lower x : JS.lower (JS.lower x) = JS.lower x.
Proof. destruct x as [[] [] [] [] [] [] [] []]; reflexivity. Qed.

Lemma toLowerCase_idemp s :
  JS.toLowerCase (JS.toLowerCase s) = JS.toLowerCase s.
Proof.
  induction s as [|x s IH]; [done|].
  cbn [JS.toLowerCase]. by rewrite lower_lower, IH.
Qed.

(** X24: the content type of a path is that of what follows its last
    dot, and the case of the letters does not matter. *)
Theorem getContentType_last_extension a b :
  getContentType (a +:+ "." +:+ b) = getContentType b
  /\ getContentType (JS.toLowerCase b) = getContentType b.
Proof.
  unfold getContentType, JS.pop. cbv zeta. split.
  - rewrite split_append, last_app.
    pose proof (split_not_nil b ".") as Hnil.
    destruct (last (JS.split b ".")) as [e|] eqn:He; [done|].
    by apply last_None in He.
  - rewrite split_toLowerCase, fmap_last.
    destruct (last (JS.split b ".")) as [e|]; [|done].
    cbn [fmap option_fmap option_map]. by rewrite toLowerCase_idemp.
Qed.

End ContentTypes.

(** ** The tools *)

Section CodeToolsMore.

Import ProjectManager.

Variable URL_pathname : string -> string.

Lemma segment2_project pid :
  JS.split pid "/" = [pid] -> segment2 ("/projects/" +:+ pid) = Some pid.
Proof.
  intros Hpid. unfold segment2.
  change ("/projects/" +:+ pid) with ("" +:+ "/" +:+ "projects" +:+ "/" +:+ pid).
  by rewrite !split_append_slash, Hpid.
Qed.

Lemma segment2_files pid :
  JS.split pid "/" = [pid] ->
  segment2 (CodeTools.files_pathname pid) = Some pid.
Proof.
  intros Hpid. unfold segment2, CodeTools.files_pathname.
  change ("/projects/" +:+ pid +:+ "/files")
    with ("" +:+ "/" +:+ "projects" +:+ "/" +:+ pid +:+ "/" +:+ "files").
  by rewrite !split_append_slash, Hpid.
Qed.

Lemma file_pathname_includes pid filePath :
  JS.includes (CodeTools.file_pathname pid filePath) "/files/" = true.
Proof.
  unfold CodeTools.file_pathname.
  rewrite <- (append_assoc "/projects/" pid).
  apply includes_append.
Qed.

Lemma file_pathname_startsWith pid filePath :
  JS.startsWith (CodeTools.file_pathname pid filePath) "/projects/" = true.
Proof. apply prefix_append. Qed.

Lemma file_pathname_not_projects pid filePath :
  String.eqb (CodeTools.file_pathname pid filePath) "/projects" = false.
Proof. reflexivity. Qed.

(** Where the router sends the requests of the tools. *)
Lemma dispatch_PUT pid filePath content userId uuid now s :
  CodeTools.resolves URL_pathname pid filePath ->
  dispatch {| method := "PUT";
              pathname := URL_pathname (CodeTools.file_url pid filePath);
              X_User_Id := userId; json := ContentBody content |} uuid now s
  = updateFile pid filePath content now s.
Proof.
  intros (Hurl & Hpid & Hsplit). unfold dispatch. cbv zeta.
  cbn [method pathname json]. rewrite Hurl.
  rewrite file_pathname_includes, file_pathname_startsWith,
    file_pathname_not_projects, Hsplit.
  change (default "" (["/projects/" +:+ pid; filePath] !! 0%nat))
    with ("/projects/" +:+ pid).
  change (default "" (["/projects/" +:+ pid; filePath] !! 1%nat))
    with filePath.
  rewrite (segment2_project pid Hpid).
  change (String.eqb "PUT" "GET") with false.
  change (String.eqb "PUT" "POST") with false.
  change (String.eqb "PUT" "PUT") with true.
  rewrite !andb_false_r. reflexivity.
Qed.

Lemma dispatch_DELETE pid filePath userId body uuid now s :
  CodeTools.resolves URL_pathname pid filePath ->
  dispatch {| method := "DELETE";
              pathname := URL_pathname (CodeTools.file_url pid filePath);
              X_User_Id := userId; json := body |} uuid now s
  = deleteFile pid filePath now s.
Proof.
  intros (Hurl & Hpid & Hsplit). unfold dispatch. cbv zeta.
  cbn [method pathname json]. rewrite Hurl.
  rewrite file_pathname_includes, file_pathname_startsWith,
    file_pathname_not_projects, Hsplit.
  change (default "" (["/projects/" +:+ pid; filePath] !! 0%nat))
    with ("/projects/" +:+ pid).
  change (default "" (["/projects/" +:+ pid; filePath] !! 1%nat))
    with filePath.
  rewrite (segment2_project pid Hpid).
  change (String.eqb "DELETE" "GET") with false.
  change (String.eqb "DELETE" "POST") with false.
  change (String.eqb "DELETE" "PUT") with false.
  change (String.eqb "DELETE" "DELETE") with true.
  rewrite !andb_false_r. reflexivity.
Qed.

Lemma files_pathname_endsWith pid :
  JS.endsWith (CodeTools.files_pathname pid) "/files" = true.
Proof.
  unfold CodeTools.files_pathname.
  rewrite <- (append_assoc "/projects/" pid). apply endsWith_append.
Qed.

Lemma files_pathname_startsWith pid :
  JS.startsWith (CodeTools.files_pathname pid) "/projects/" = true.
Proof. apply prefix_append. Qed.

Lemma dispatch_POST pid data userId uuid now s :
  JS.split pid "/" = [pid] ->
  dispatch {| method := "POST"; pathname := CodeTools.files_pathname pid;
              X_User_Id := userId; json := FileBody data |} uuid now s
  = createFile pid data uuid now s.
Proof.
  intros Hpid. unfold dispatch. cbv zeta. cbn [method pathname json].
  assert (Hinc : JS.includes (CodeTools.files_pathname pid) "/files" = true).
  { unfold CodeTools.files_pathname.
    rewrite <- (append_assoc "/projects/" pid).
    rewrite <- (append_nil_r "/files") at 1. apply includes_append. }
  rewrite files_pathname_endsWith, files_pathname_startsWith, Hinc,
    (segment2_files pid Hpid).
  change (String.eqb (CodeTools.files_pathname pid) "/projects") with false.
  change (String.eqb "POST" "GET") with false.
  change (String.eqb "POST" "POST") with true.
  cbn [andb negb]. rewrite !andb_false_r. reflexivity.
Qed.

Lemma pid_given pid : pid <> "" -> String.eqb pid "" = false.
Proof. intros H. by destruct (String.eqb_spec pid ""). Qed.

(** Whatever the pathname, a PUT or DELETE request is answered: it
    reaches [updateFile] or [deleteFile], which throw nothing, or no
    handler at all. *)
Lemma updateFile_returns pid filePath content now s :
  exists r, (updateFile pid filePath content now s).1 = Returns r.
Proof.
  unfold updateFile. destruct (select_file pid filePath (files s)); [eauto|].
  destruct (select_file_by_id _ _); eauto.
Qed.

Lemma deleteFile_returns pid filePath now s :
  exists r, (deleteFile pid filePath now s).1 = Returns r.
Proof.
  unfold deleteFile. destruct (select_file pid filePath (files s)); eauto.
Qed.

Lemma dispatch_PUT_cases path userId content uuid now s :
  (exists r,
     dispatch {| method := "PUT"; pathname := path; X_User_Id := userId;
                 json := ContentBody content |} uuid now s = (Returns r, s))
  \/ exists pid filePath,
       dispatch {| method := "PUT"; pathname := path; X_User_Id := userId;
                   json := ContentBody content |} uuid now s
       = updateFile pid filePath content now s.
Proof.
  unfold dispatch, on_project, respond. cbv zeta.
  cbn [method pathname json X_User_Id].
  change (String.eqb "PUT" "GET") with false.
  change (String.eqb "PUT" "POST") with false.
  change (String.eqb "PUT" "PUT") with true.
  change (String.eqb "PUT" "DELETE") with false.
  rewrite !andb_false_r, andb_true_r.
  destruct (JS.startsWith path "/projects/" && JS.includes path "/files/");
    [|eauto].
  destruct (segment2 _); eauto.
Qed.

Lemma dispatch_DELETE_cases path userId body uuid now s :
  (exists r,
     dispatch {| method := "DELETE"; pathname := path; X_User_Id := userId;
                 json := body |} uuid now s = (Returns r, s))
  \/ exists pid filePath,
       dispatch {| method := "DELETE"; pathname := path; X_User_Id := userId;
                   json := body |} uuid now s
       = deleteFile pid filePath now s.
Proof.
  unfold dispatch, on_project, respond. cbv zeta.
  cbn [method pathname json X_User_Id].
  change (String.eqb "DELETE" "GET") with false.
  change (String.eqb "DELETE" "POST") with false.
  change (String.eqb "DELETE" "PUT") with false.
  change (String.eqb "DELETE" "DELETE") with true.
  rewrite !andb_false_r, andb_true_r.
  destruct (JS.startsWith path "/projects/" && JS.includes path "/files/");
    [|eauto].
  destruct (segment2 _); eauto.
Qed.

Lemma fetch_PUT_returns path userId content uuid now s :
  exists r,
    (fetch {| method := "PUT"; pathname := path; X_User_Id := userId;
              json := ContentBody content |} uuid now s).1 = Returns r.
Proof.
  unfold fetch.
  destruct (dispatch_PUT_cases path userId content uuid now s)
    as [[r ->]|(pid & filePath & ->)]; [eauto|apply updateFile_returns].
Qed.

Lemma fetch_DELETE_returns path userId body uuid now s :
  exists r,
    (fetch {| method := "DELETE"; pathname := path; X_User_Id := userId;
              json := body |} uuid now s).1 = Returns r.
Proof.
  unfold fetch.
  destruct (dispatch_DELETE_cases path userId body uuid now s)
    as [[r ->]|(pid & filePath & ->)]; [eauto|apply deleteFile_returns].
Qed.

(** X17: [writeFile] on a path that has a metadata row, when the router
    reads the project and the path back from the URL of the request,
    does what [updateFile] does: it reports success and leaves the
    state of one [updateFile] call. *)
Theorem writeFile_existing statusText pid filePath content uuid now s :
  CodeTools.resolves URL_pathname pid filePath ->
  pid <> "" ->
  select_file pid filePath (files s) <> [] ->
  CodeTools.writeFile URL_pathname statusText pid filePath content uuid now s
  = (CodeTools.Written filePath, (updateFile pid filePath content now s).2).
Proof.
  intros Hres Hpid Hrow. unfold CodeTools.writeFile.
  rewrite (pid_given pid Hpid). cbv zeta. unfold fetch.
  rewrite dispatch_PUT by done.
  unfold updateFile, CodeTools.with_bucket. cbn [files projects FILES].
  destruct (select_file pid filePath (files s)) as [|f rest]; [done|].
  unfold R2.put, r2Key. rewrite insert_insert_eq.
  by destruct (select_file_by_id (FileNode.id f) _).
Qed.

(** X18: [writeFile] never creates a file: on a path without a metadata
    row (the router reading project and path back from the URL) it
    reports a failure, the tables are as before, and the content stays
    in the bucket under the key of the path. *)
Theorem writeFile_unknown_path statusText pid filePath content uuid now s :
  CodeTools.resolves URL_pathname pid filePath ->
  pid <> "" ->
  select_file pid filePath (files s) = [] ->
  CodeTools.writeFile URL_pathname statusText pid filePath content uuid now s
  = (CodeTools.Failed ("Failed to update file metadata: " +:+ statusText 404),
     {| projects := projects s; files := files s;
        FILES := R2.put (r2Key pid filePath) content None (FILES s) |}).
Proof.
  intros Hres Hpid Hrow. unfold CodeTools.writeFile.
  rewrite (pid_given pid Hpid). cbv zeta. unfold fetch.
  rewrite dispatch_PUT by done.
  unfold updateFile, CodeTools.with_bucket. cbn [files projects FILES].
  by rewrite Hrow.
Qed.

(** X19: the tool [createFile], for a project id that the router reads
    back from the URL of the request and a file whose path and id are
    new: it reports success; the row it leaves has the number of UTF-16
    code units of the content as [size], and [getFile] returns the
    content. *)
Theorem tool_createFile_file pid path content uuid now s :
  CodeTools.resolves_files URL_pathname pid ->
  pid <> "" ->
  select_file_by_id uuid (files s) = [] ->
  select_file pid path (files s) = [] ->
  exists f,
    (CodeTools.createFile URL_pathname pid path file content uuid now s).1
    = CodeTools.Created path file
    /\ getFile pid path
         (CodeTools.createFile URL_pathname pid path file content uuid now
                               s).2
       = (Returns (Response.json (Response.FileWithContent f content)),
          (CodeTools.createFile URL_pathname pid path file content uuid now
                                s).2)
    /\ FileNode.size f = Z.of_nat (JS.length content)
    /\ FileNode.type f = file.
Proof.
  intros [Hurl Hpid] Hne Hid Hpath. unfold CodeTools.createFile.
  rewrite (pid_given pid Hne). cbv zeta. unfold fetch.
  rewrite Hurl, dispatch_POST by done.
  unfold createFile, insert_file.
  cbn [FileNode.id FileNode.project_id FileNode.path FileData.path
       FileData.type FileData.size FileData.content FileData.name
       FileData.parent_path].
  rewrite Hid, Hpath. cbv beta iota zeta. unfold select_file_by_id in *.
  rewrite filter_app, Hid, filter_cons, decide_True by reflexivity.
  cbn [filter list_filter app].
  lazy [CodeTools.ok Response.json Response.status Z.leb Z.compare
        Pos.compare Pos.compare_cont andb fst snd].
  eexists. split; [reflexivity|].
  unfold getFile, CodeTools.with_bucket. cbn [files FILES].
  unfold select_file in *.
  rewrite filter_app, Hpath, filter_cons, decide_True by (split; reflexivity).
  cbn [filter list_filter app]. unfold R2.get, R2.put, r2Key.
  rewrite lookup_insert_eq. cbn. auto.
Qed.

Lemma select_file_nil_delete_file pid filePath fid fs :
  select_file pid filePath fs = [] ->
  select_file pid filePath (delete_file fid fs) = [].
Proof. intros H. by rewrite select_file_delete_file, H. Qed.

(** X20: [moveFile] of a file to a path that has no metadata row (the
    router reading project and paths back from the URLs of the two
    requests) reports success and leaves the content without a row: the
    row of the old path is deleted, none exists for the new path, and
    the content lies under the new key only. *)
Theorem moveFile_leaves_no_row pid from to uuid now1 now2 s object f rest :
  CodeTools.resolves URL_pathname pid from ->
  CodeTools.resolves URL_pathname pid to ->
  pid <> "" ->
  R2.get (r2Key pid from) (FILES s) = Some object ->
  select_file pid from (files s) = f :: rest ->
  select_file pid to (files s) = [] ->
  exists s',
    CodeTools.moveFile URL_pathname pid from to uuid now1 now2 s
    = (CodeTools.Moved from to, s')
    /\ files s' = delete_file (FileNode.id f) (files s)
    /\ select_file pid to (files s') = []
    /\ R2.get (r2Key pid to) (FILES s')
       = Some {| R2.body := R2.body object; R2.contentType := None |}
    /\ R2.get (r2Key pid from) (FILES s') = None.
Proof.
  intros Hfrom Hto Hpid Hblob Hrow Hnone.
  assert (Hne : from <> to) by (intros ->; congruence).
  assert (Hkey : r2Key pid from <> r2Key pid to)
    by (intros H; by apply r2Key_inj in H).
  unfold CodeTools.moveFile, CodeTools.relocate.
  rewrite (pid_given pid Hpid).
  change (pid +:+ "/" +:+ from) with (r2Key pid from).
  change (pid +:+ "/" +:+ to) with (r2Key pid to).
  rewrite Hblob. cbv zeta. unfold fetch.
  rewrite dispatch_DELETE by done.
  unfold deleteFile at 1, CodeTools.with_bucket.
  cbn [files projects FILES]. rewrite Hrow.
  rewrite dispatch_PUT by done.
  unfold updateFile. cbn [files projects FILES].
  rewrite (select_file_nil_delete_file _ _ _ _ Hnone).
  eexists. split; [reflexivity|]. cbn [files FILES].
  repeat split.
  - by apply select_file_nil_delete_file.
  - unfold R2.get, R2.delete, R2.put.
    rewrite !lookup_delete_ne, lookup_insert_eq by done. reflexivity.
  - unfold R2.get, R2.delete. by rewrite lookup_delete_eq.
Qed.

Lemma relocate_reports pid from to missing uuid now1 now2 s :
  is_Some (R2.get (pid +:+ "/" +:+ from) (FILES s)) ->
  (CodeTools.relocate URL_pathname pid from to missing uuid now1 now2 s).1
  = None.
Proof.
  intros [object Hblob]. unfold CodeTools.relocate. rewrite Hblob. cbv zeta.
  match goal with
  | |- context [fetch ?req uuid now1 ?s1] =>
      destruct (fetch_DELETE_returns
                  (URL_pathname (CodeTools.file_url pid from)) None NoBody
                  uuid now1 s1) as [r1 Hr1];
      destruct (fetch req uuid now1 s1) as [o1 s2]
  end.
  cbn [fst] in Hr1. subst o1.
  match goal with
  | |- context [fetch ?req uuid now2 s2] =>
      destruct (fetch_PUT_returns
                  (URL_pathname (CodeTools.file_url pid to)) None
                  (R2.body object) uuid now2 s2) as [r2 Hr2];
      destruct (fetch req uuid now2 s2) as [o2 s3]
  end.
  cbn [fst] in Hr2. by subst o2.
Qed.

(** X21: [renameFile] renames within the directory: for a file
    [dir/base] whose content is in the bucket the new path is
    [dir/newName], and for a path without [/] it is [newName]. *)
Theorem renameFile_keeps_directory pid dir base newName uuid now1 now2 s :
  pid <> "" ->
  JS.split base "/" = [base] ->
  (is_Some (R2.get (pid +:+ "/" +:+ dir +:+ "/" +:+ base) (FILES s)) ->
   (CodeTools.renameFile URL_pathname pid (dir +:+ "/" +:+ base) newName
                         uuid now1 now2 s).1
   = CodeTools.Renamed (dir +:+ "/" +:+ base) (dir +:+ "/" +:+ newName))
  /\ (is_Some (R2.get (pid +:+ "/" +:+ base) (FILES s)) ->
      (CodeTools.renameFile URL_pathname pid base newName uuid now1 now2 s).1
      = CodeTools.Renamed base newName).
Proof.
  intros Hpid Hbase. unfold CodeTools.renameFile.
  rewrite (pid_given pid Hpid). cbv zeta. split; intros Hblob.
  - rewrite split_append_slash, Hbase, removelast_last.
    rewrite join_snoc, join_split_slash by apply split_not_nil.
    pose proof (relocate_reports pid (dir +:+ "/" +:+ base)
                  (dir +:+ "/" +:+ newName) "File not found" uuid now1 now2 s
                  Hblob) as Hnone.
    destruct (CodeTools.relocate _ _ _ _ _ _ _ _ _) as [[e|] s'];
      [discriminate | reflexivity].
  - rewrite Hbase. cbn [removelast app JS.join].
    pose proof (relocate_reports pid base newName "File not found" uuid now1
                  now2 s Hblob) as Hnone.
    destruct (CodeTools.relocate _ _ _ _ _ _ _ _ _) as [[e|] s'];
      [discriminate | reflexivity].
Qed.

End CodeToolsMore.

(** ** Reading, deleting and listing through the tools *)

Section CodeToolsReads.

Import ProjectManager.

Variable URL_pathname : string -> string.

Lemma updateFile_bucket pid filePath content now s :
  FILES (updateFile pid filePath content now s).2 = FILES s
  \/ FILES (updateFile pid filePath content now s).2
     = R2.put (r2Key pid filePath) content None (FILES s).
Proof.
  unfold updateFile. destruct (select_file pid filePath (files s));
    [by left|].
  destruct (select_file_by_id _ _); by right.
Qed.

(** X25: what [writeFile] has written is what [readFile] returns, also
    when [writeFile] reports a failure, and whatever the router makes
    of the URL of the request. *)
Theorem readFile_after_writeFile statusText pid filePath content uuid now s :
  pid <> "" ->
  CodeTools.readFile pid filePath
    (CodeTools.writeFile URL_pathname statusText pid filePath content uuid
                         now s).2
  = CodeTools.Content filePath content.
Proof.
  intros Hpid. unfold CodeTools.writeFile, CodeTools.readFile.
  rewrite (pid_given pid Hpid). cbv zeta.
  set (s0 := CodeTools.with_bucket _ s).
  assert (Hs0 : FILES s0 !! (pid +:+ "/" +:+ filePath)
                = Some {| R2.body := content; R2.contentType := None |}).
  { unfold s0, CodeTools.with_bucket, R2.put. cbn [FILES].
    apply lookup_insert_eq. }
  assert (Hafter : forall o s1,
    fetch {| method := "PUT";
             pathname := URL_pathname (CodeTools.file_url pid filePath);
             X_User_Id := None; json := ContentBody content |} uuid now s0
    = (o, s1) ->
    FILES s1 !! (pid +:+ "/" +:+ filePath)
    = Some {| R2.body := content; R2.contentType := None |}).
  { intros o s1. unfold fetch.
    destruct (dispatch_PUT_cases
                (URL_pathname (CodeTools.file_url pid filePath)) None content
                uuid now s0) as [[r ->]|(pid' & path' & ->)].
    - by intros [= _ <-].
    - intros Hupdate.
      replace s1 with (updateFile pid' path' content now s0).2
        by (by rewrite Hupdate).
      destruct (updateFile_bucket pid' path' content now s0) as [-> | ->];
        [done|].
      unfold R2.put.
      destruct (decide (r2Key pid' path' = pid +:+ "/" +:+ filePath))
        as [->|Hne]; [apply lookup_insert_eq|].
      by rewrite lookup_insert_ne. }
  destruct (fetch _ uuid now s0) as [o s1] eqn:Hfetch.
  specialize (Hafter o s1 eq_refl). unfold R2.get.
  destruct o as [e|response]; [|destruct (CodeTools.ok response)];
    cbn [snd]; by rewrite Hafter.
Qed.

(** X26: the tool [deleteFile] deletes what has a metadata row, and
    only that (the router reading project and path back from the URL of
    the request): on a path with a row it reports success and
    [readFile] then finds nothing; on a path without a row it reports
    a failure and changes nothing, so that content lying in the bucket
    without a row stays there. *)
Theorem tool_deleteFile pid filePath uuid now s :
  CodeTools.resolves URL_pathname pid filePath ->
  pid <> "" ->
  (select_file pid filePath (files s) <> [] ->
   (CodeTools.deleteFile URL_pathname pid filePath uuid now s).1
   = CodeTools.Deleted filePath
   /\ CodeTools.readFile pid filePath
        (CodeTools.deleteFile URL_pathname pid filePath uuid now s).2
      = CodeTools.Failed "File not found")
  /\ (select_file pid filePath (files s) = [] ->
      CodeTools.deleteFile URL_pathname pid filePath uuid now s
      = (CodeTools.Failed "Failed to delete file", s)).
Proof.
  intros Hres Hpid. unfold CodeTools.deleteFile, CodeTools.readFile.
  rewrite (pid_given pid Hpid). cbv zeta. unfold fetch.
  rewrite dispatch_DELETE by done. unfold deleteFile.
  change (pid +:+ "/" +:+ filePath) with (r2Key pid filePath).
  split.
  - destruct (select_file pid filePath (files s)) as [|f rest]; [done|].
    intros _.
    lazy [CodeTools.ok Response.json Response.status Z.leb Z.compare
          Pos.compare Pos.compare_cont andb fst snd FILES].
    split; [reflexivity|].
    unfold R2.get, R2.delete. by rewrite lookup_delete_eq.
  - by intros ->.
Qed.

Lemma dispatch_GET_files pid userId body uuid now s :
  dispatch {| method := "GET"; pathname := CodeTools.files_pathname pid;
              X_User_Id := userId; json := body |} uuid now s
  = on_project (segment2 (CodeTools.files_pathname pid))
               (respond 200 (Response.Files [])) getFileTree s.
Proof.
  unfold dispatch. cbv zeta. cbn [method pathname json].
  rewrite files_pathname_endsWith, files_pathname_startsWith.
  change (String.eqb (CodeTools.files_pathname pid) "/projects") with false.
  reflexivity.
Qed.

(** X27: [listFiles], for a project id that the router reads back from
    the URL of the request, succeeds and leaves the state as it was: it
    lists one entry for every row of the project, the files in front of
    the directories. *)
Theorem listFiles_lists_project pid uuid now s :
  CodeTools.resolves_files URL_pathname pid ->
  pid <> "" ->
  exists fs files_ directories,
    CodeTools.listFiles URL_pathname pid uuid now s
    = (CodeTools.Listed (CodeTools.entry_of <$> fs), s)
    /\ fs ≡ₚ filter (fun f => FileNode.project_id f = pid) (files s)
    /\ fs = files_ ++ directories
    /\ Forall (fun f => FileNode.type f = file) files_
    /\ Forall (fun f => FileNode.type f = directory) directories.
Proof.
  intros [Hurl Hsplit] Hpid. unfold CodeTools.listFiles.
  rewrite (pid_given pid Hpid). unfold fetch.
  rewrite Hurl, dispatch_GET_files, (segment2_files pid Hsplit).
  cbn [on_project]. unfold getFileTree.
  set (rows := filter _ (files s)).
  pose proof (sort_Sorted _ by_type_desc_name_asc_total rows) as Hsorted.
  destruct (sorted_files_then_directories _ Hsorted)
    as (l1 & l2 & Hl & H1 & H2).
  exists (JS.sort by_type_desc_name_asc rows), l1, l2.
  repeat split; auto. apply sort_perm.
Qed.

End CodeToolsReads.

(** ** The tools on the scenarios *)

Section ToolRuns.

Import ProjectManager.

Lemma writeFile_existing_witness :
  CodeTools.writeFile URL.pathname (fun _ => "") "demo" "index.html" "new"
                      "u" 7 Scenario.demo
  = (CodeTools.Written "index.html",
     (updateFile "demo" "index.html" "new" 7 Scenario.demo).2).
Proof.
  apply writeFile_existing.
  - repeat split.
  - discriminate.
  - vm_compute. discriminate.
Defined.

Lemma writeFile_unknown_path_witness :
  CodeTools.writeFile URL.pathname (fun _ => "") "demo" "about.html" "new"
                      "u" 7 Scenario.demo
  = (CodeTools.Failed ("Failed to update file metadata: " +:+ ""),
     {| projects := projects Scenario.demo; files := files Scenario.demo;
        FILES := R2.put (r2Key "demo" "about.html") "new" None
                        (FILES Scenario.demo) |}).
Proof.
  apply (writeFile_unknown_path URL.pathname (fun _ => "")).
  - repeat split.
  - discriminate.
  - vm_compute. reflexivity.
Defined.

Lemma tool_createFile_file_witness :
  exists f,
    getFile "demo" "notes.txt"
            (CodeTools.createFile URL.pathname "demo" "notes.txt" file "é"
                                  "f9" 7 Scenario.demo).2
    = (Returns (Response.json (Response.FileWithContent f "é")),
       (CodeTools.createFile URL.pathname "demo" "notes.txt" file "é" "f9" 7
                             Scenario.demo).2)
    /\ FileNode.size f = 1.
Proof.
  destruct (tool_createFile_file URL.pathname "demo" "notes.txt" "é" "f9" 7
              Scenario.demo)
    as (f & _ & Hget & Hsize & _).
  - repeat split.
  - discriminate.
  - vm_compute. reflexivity.
  - vm_compute. reflexivity.
  - exists f. split; [exact Hget | exact Hsize].
Defined.

Lemma moveFile_leaves_no_row_witness :
  exists s',
    CodeTools.moveFile URL.pathname "p" "a.txt" "b.txt" "u" 8 9
                       Scenario.dir_and_file
    = (CodeTools.Moved "a.txt" "b.txt", s')
    /\ select_file "p" "b.txt" (files s') = []
    /\ R2.body <$> R2.get (r2Key "p" "b.txt") (FILES s') = Some "x".
Proof.
  destruct (moveFile_leaves_no_row URL.pathname "p" "a.txt" "b.txt" "u" 8 9
              Scenario.dir_and_file
              {| R2.body := "x"; R2.contentType := None |}
              {| FileNode.id := "f1"; FileNode.project_id := "p";
                 FileNode.path := "a.txt"; FileNode.name := "a.txt";
                 FileNode.type := file; FileNode.parent_path := None;
                 FileNode.size := 1; FileNode.created_at := 2;
                 FileNode.updated_at := 2 |} [])
    as (s' & Hmove & _ & Hrow & Hblob & _).
  - repeat split.
  - repeat split.
  - discriminate.
  - vm_compute. reflexivity.
  - vm_compute. reflexivity.
  - vm_compute. reflexivity.
  - exists s'. rewrite Hblob. auto.
Defined.

Lemma renameFile_keeps_directory_witness :
  (CodeTools.renameFile URL.pathname "demo" "index.html" "home.html" "u" 8 9
                        Scenario.demo).1
  = CodeTools.Renamed "index.html" "home.html".
Proof.
  apply (renameFile_keeps_directory URL.pathname "demo" "" "index.html"
           "home.html" "u" 8 9 Scenario.demo).
  - discriminate.
  - reflexivity.
  - vm_compute. eauto.
Defined.

Lemma readFile_after_writeFile_witness :
  CodeTools.readFile "demo" "about.html"
    (CodeTools.writeFile URL.pathname (fun _ => "Not Found") "demo"
                         "about.html" "new" "u" 7 Scenario.demo).2
  = CodeTools.Content "about.html" "new"
  /\ (CodeTools.writeFile URL.pathname (fun _ => "Not Found") "demo"
                          "about.html" "new" "u" 7 Scenario.demo).1
     = CodeTools.Failed "Failed to update file metadata: Not Found".
Proof.
  split; [|reflexivity].
  apply readFile_after_writeFile. discriminate.
Defined.

Lemma tool_deleteFile_witness :
  (CodeTools.deleteFile URL.pathname "demo" "index.html" "u" 7
                        Scenario.demo).1
  = CodeTools.Deleted "index.html"
  /\ CodeTools.readFile "demo" "index.html"
       (CodeTools.deleteFile URL.pathname "demo" "index.html" "u" 7
                             Scenario.demo).2
     = CodeTools.Failed "File not found".
Proof.
  apply (tool_deleteFile URL.pathname "demo" "index.html" "u" 7
           Scenario.demo).
  - repeat split.
  - discriminate.
  - vm_compute. discriminate.
Defined.

Lemma listFiles_lists_project_witness :
  exists fs,
    CodeTools.listFiles URL.pathname "p" "u" 7 Scenario.dir_and_file
    = (CodeTools.Listed (CodeTools.entry_of <$> fs), Scenario.dir_and_file)
    /\ fs ≡ₚ filter (fun f => FileNode.project_id f = "p")
                    (files Scenario.dir_and_file).
Proof.
  destruct (listFiles_lists_project URL.pathname "p" "u" 7
              Scenario.dir_and_file)
    as (fs & l1 & l2 & Hlist & Hperm & _).
  - repeat split.
  - discriminate.
  - exists fs. auto.
Defined.

End ToolRuns.

(** ** The import of a repository *)

Section GitImport.

Import ProjectManager.

Variable URL_pathname : string -> string.

(** The state that [createFile] leaves: the one it found when the
    insertion fails, and else one more row and, for a file, its
    content. *)
Lemma createFile_state pid data id now s :
  (createFile pid data id now s).2
  = match select_file_by_id id (files s),
          select_file pid (FileData.path data) (files s) with
    | [], [] =>
        {| projects := touch_project now pid (projects s);
           files :=
             files s
             ++ [{| FileNode.id := id;
                    FileNode.project_id := pid;
                    FileNode.path := FileData.path data;
                    FileNode.name := FileData.name data;
                    FileNode.type := FileData.type data;
                    FileNode.parent_path :=
                      string_or (FileData.parent_path data) None;
                    FileNode.size := default 0 (FileData.size data);
                    FileNode.created_at := now;
                    FileNode.updated_at := now |}];
           FILES :=
             match FileData.type data with
             | file =>
                 R2.put (r2Key pid (FileData.path data))
                        (default "" (string_or (FileData.content data)
                                               (Some "")))
                        None (FILES s)
             | directory => FILES s
             end |}
    | _, _ => s
    end.
Proof.
  unfold createFile, insert_file.
  cbn [FileNode.id FileNode.project_id FileNode.path].
  destruct (select_file_by_id id (files s)); [|done].
  destruct (select_file pid (FileData.path data) (files s)); [|done].
  by destruct (select_file_by_id id (files s ++ _)).
Qed.

(** [createFile] with a new id on a free path throws nothing. *)
Lemma createFile_returns pid data id now s :
  select_file_by_id id (files s) = [] ->
  select_file pid (FileData.path data) (files s) = [] ->
  exists r, (createFile pid data id now s).1 = Returns r.
Proof.
  intros Hid Hfree. unfold createFile, insert_file.
  cbn [FileNode.id FileNode.project_id FileNode.path].
  rewrite Hid, Hfree. destruct (select_file_by_id id (files s ++ _)); eauto.
Qed.

(** And on a path that has a row it throws, so that the request
    rejects. *)
Lemma createFile_throws pid data id now s :
  select_file pid (FileData.path data) (files s) <> [] ->
  exists e, createFile pid data id now s = (Throws e, s).
Proof.
  intros Hrow. unfold createFile, insert_file.
  cbn [FileNode.id FileNode.project_id FileNode.path].
  destruct (select_file_by_id id (files s)); [|eauto].
  destruct (select_file pid (FileData.path data) (files s)); [done|eauto].
Qed.

Lemma post_all_cons pid uuid now i data rest s r :
  URL_pathname (GitClone.files_url pid) = CodeTools.files_pathname pid ->
  JS.split pid "/" = [pid] ->
  (createFile pid data (uuid i) (now i) s).1 = Returns r ->
  GitClone.post_all URL_pathname pid uuid now i (data :: rest) s
  = GitClone.post_all URL_pathname pid uuid now (S i) rest
      (createFile pid data (uuid i) (now i) s).2.
Proof.
  intros Hurl Hpid Hr. cbn [GitClone.post_all]. unfold fetch.
  rewrite Hurl, dispatch_POST by done.
  destruct (createFile pid data (uuid i) (now i) s) as [o s'].
  cbn [fst] in Hr. by subst o.
Qed.

Lemma post_all_app pid uuid now a : forall b i s,
  GitClone.post_all URL_pathname pid uuid now i (a ++ b) s
  = match GitClone.post_all URL_pathname pid uuid now i a s with
    | (Some e, s') => (Some e, s')
    | (None, s') =>
        GitClone.post_all URL_pathname pid uuid now (i + length a) b s'
    end.
Proof.
  induction a as [|data a IH]; intros b i s.
  - cbn [app length GitClone.post_all]. by rewrite Nat.add_0_r.
  - cbn [app length GitClone.post_all].
    destruct (fetch _ (uuid i) (now i) s) as [[e|r] s']; [done|].
    rewrite IH. by rewrite Nat.add_succ_r.
Qed.

(** A file that is there stays, whatever is created. *)
Lemma createFile_keeps_file pid data id now s p f rest object :
  select_file pid p (files s) = f :: rest ->
  R2.get (r2Key pid p) (FILES s) = Some object ->
  exists rest',
    select_file pid p (files (createFile pid data id now s).2) = f :: rest'
    /\ R2.get (r2Key pid p) (FILES (createFile pid data id now s).2)
       = Some object.
Proof.
  intros Hrow Hblob. rewrite createFile_state.
  destruct (select_file_by_id id (files s)); [|eauto].
  destruct (select_file pid (FileData.path data) (files s)) eqn:Hfree;
    [|eauto].
  assert (Hne : FileData.path data <> p)
    by (intros Heq; rewrite Heq in Hfree; congruence).
  cbn [files FILES]. unfold select_file in *.
  rewrite filter_app, Hrow. eexists. split; [reflexivity|].
  destruct (FileData.type data); [|done].
  unfold R2.get, R2.put. rewrite lookup_insert_ne; [done|].
  intros H. by apply r2Key_inj in H.
Qed.

Lemma createFile_keeps_free pid data id now s p :
  FileData.path data <> p ->
  select_file pid p (files s) = [] ->
  select_file pid p (files (createFile pid data id now s).2) = [].
Proof.
  intros Hne Hfree. rewrite createFile_state.
  destruct (select_file_by_id id (files s)); [|done].
  destruct (select_file pid (FileData.path data) (files s)); [|done].
  cbn [files]. unfold select_file in *.
  rewrite filter_app, Hfree, filter_cons, decide_False; [done|].
  cbn [FileNode.path]. tauto.
Qed.

Lemma createFile_keeps_fresh pid data id now s u :
  u <> id ->
  select_file_by_id u (files s) = [] ->
  select_file_by_id u (files (createFile pid data id now s).2) = [].
Proof.
  intros Hne Hfresh. rewrite createFile_state.
  destruct (select_file_by_id id (files s)); [|done].
  destruct (select_file pid (FileData.path data) (files s)); [|done].
  cbn [files]. unfold select_file_by_id in *.
  rewrite filter_app, Hfresh, filter_cons, decide_False; [done|].
  cbn [FileNode.id]. congruence.
Qed.

Lemma createFile_new_file pid data id now s :
  FileData.type data = file ->
  select_file_by_id id (files s) = [] ->
  select_file pid (FileData.path data) (files s) = [] ->
  exists f,
    select_file pid (FileData.path data)
      (files (createFile pid data id now s).2) = [f]
    /\ R2.get (r2Key pid (FileData.path data))
              (FILES (createFile pid data id now s).2)
       = Some {| R2.body := default "" (string_or (FileData.content data)
                                                  (Some ""));
                 R2.contentType := None |}
    /\ FileNode.name f = FileData.name data
    /\ FileNode.type f = file
    /\ FileNode.size f = default 0 (FileData.size data).
Proof.
  intros Htype Hid Hfree.
  rewrite createFile_state, Hid, Hfree. cbn [files FILES].
  unfold select_file in *.
  rewrite filter_app, Hfree, filter_cons, decide_True
    by (split; reflexivity).
  rewrite Htype. eexists. split; [reflexivity|].
  unfold R2.get, R2.put. rewrite lookup_insert_eq. auto.
Qed.

Lemma content_or_empty content :
  default "" (string_or (Some content) (Some "")) = content.
Proof.
  unfold string_or. by destruct (String.eqb_spec content "") as [->|].
Qed.

(** What one loop of requests does when the ids are new and pairwise
    distinct, the paths pairwise distinct and free in the project: no
    request rejects; every file posted can be read afterwards, together
    with what could be read before. *)
Lemma post_all_creates pid uuid now bodies : forall i s,
  URL_pathname (GitClone.files_url pid) = CodeTools.files_pathname pid ->
  JS.split pid "/" = [pid] ->
  NoDup (FileData.path <$> bodies) ->
  NoDup (uuid <$> seq i (length bodies)) ->
  Forall (fun u => select_file_by_id u (files s) = [])
         (uuid <$> seq i (length bodies)) ->
  Forall (fun p => select_file pid p (files s) = [])
         (FileData.path <$> bodies) ->
  (GitClone.post_all URL_pathname pid uuid now i bodies s).1 = None
  /\ (forall u,
        u ∉ uuid <$> seq i (length bodies) ->
        select_file_by_id u (files s) = [] ->
        select_file_by_id u
          (files (GitClone.post_all URL_pathname pid uuid now i bodies s).2)
        = [])
  /\ (forall p,
        p ∉ FileData.path <$> bodies ->
        select_file pid p (files s) = [] ->
        select_file pid p
          (files (GitClone.post_all URL_pathname pid uuid now i bodies s).2)
        = [])
  /\ (forall p f rest object,
        select_file pid p (files s) = f :: rest ->
        R2.get (r2Key pid p) (FILES s) = Some object ->
        exists rest',
          select_file pid p
            (files (GitClone.post_all URL_pathname pid uuid now i bodies s).2)
          = f :: rest'
          /\ R2.get (r2Key pid p)
               (FILES (GitClone.post_all URL_pathname pid uuid now i bodies
                                         s).2)
             = Some object)
  /\ (forall data,
        data ∈ bodies ->
        FileData.type data = file ->
        exists f rest,
          select_file pid (FileData.path data)
            (files (GitClone.post_all URL_pathname pid uuid now i bodies s).2)
          = f :: rest
          /\ R2.get (r2Key pid (FileData.path data))
               (FILES (GitClone.post_all URL_pathname pid uuid now i bodies
                                         s).2)
             = Some {| R2.body :=
                         default "" (string_or (FileData.content data)
                                               (Some ""));
                       R2.contentType := None |}
          /\ FileNode.name f = FileData.name data
          /\ FileNode.type f = file
          /\ FileNode.size f = default 0 (FileData.size data)).
Proof.
  induction bodies as [|head bodies IH];
    intros i s Hurl Hpid Hpaths Hids Hfresh Hfree.
  - cbn [GitClone.post_all fst snd]. repeat split; eauto.
    intros data Hin. by apply elem_of_nil in Hin.
  - cbn [length seq fmap list_fmap] in Hids, Hfresh |- *.
    apply NoDup_cons in Hids as [Hid Hids].
    apply Forall_cons in Hfresh as [Hfresh_i Hfresh].
    rewrite fmap_cons in Hpaths, Hfree.
    apply NoDup_cons in Hpaths as [Hpath Hpaths].
    apply Forall_cons in Hfree as [Hfree_head Hfree].
    destruct (createFile_returns pid head (uuid i) (now i) s Hfresh_i
                Hfree_head) as [r Hr].
    rewrite (post_all_cons pid uuid now i head bodies s r Hurl Hpid Hr).
    set (s1 := (createFile pid head (uuid i) (now i) s).2).
    assert (Hfresh1 : Forall (fun u => select_file_by_id u (files s1) = [])
                             (uuid <$> seq (S i) (length bodies))).
    { apply Forall_forall. intros u Hu. apply createFile_keeps_fresh.
      - intros ->. by apply Hid.
      - by eapply Forall_forall in Hfresh. }
    assert (Hfree1 : Forall (fun p => select_file pid p (files s1) = [])
                            (FileData.path <$> bodies)).
    { apply Forall_forall. intros p Hp. apply createFile_keeps_free.
      - intros Heq. apply Hpath. by rewrite Heq.
      - by eapply Forall_forall in Hfree. }
    destruct (IH (S i) s1 Hurl Hpid Hpaths Hids Hfresh1 Hfree1)
      as (Hnone & Hkeep_id & Hkeep_free & Hkeep & Hnew).
    split; [exact Hnone|]. split; [|split; [|split]].
    + intros u Hu Hfu. apply not_elem_of_cons in Hu as [Hu1 Hu2].
      apply Hkeep_id; [done|]. by apply createFile_keeps_fresh.
    + intros p Hp Hfp. apply not_elem_of_cons in Hp as [Hp1 Hp2].
      apply Hkeep_free; [done|]. by apply createFile_keeps_free.
    + intros p f rest object Hrow Hblob.
      destruct (createFile_keeps_file pid head (uuid i) (now i) s p f rest
                  object Hrow Hblob) as (rest1 & Hrow1 & Hblob1).
      by eapply Hkeep.
    + intros data Hin Htype.
      apply elem_of_cons in Hin as [->|Hin]; [|by apply Hnew].
      destruct (createFile_new_file pid head (uuid i) (now i) s Htype
                  Hfresh_i Hfree_head)
        as (f & Hrow & Hblob & Hname & Hty & Hsize).
      destruct (Hkeep _ f [] _ Hrow Hblob) as (rest' & Hrow' & Hblob').
      exists f, rest'. auto.
Qed.

Lemma import_bodies (repo : list GitClone.GitFile.t) :
  FileData.path
    <$> ((GitClone.directory_body
            <$> filter (fun f => type_text (GitClone.GitFile.type f)
                                 = "directory") repo)
         ++ (GitClone.file_body
               <$> filter (fun f => type_text (GitClone.GitFile.type f)
                                    = "file") repo))
  ≡ₚ GitClone.GitFile.path <$> repo.
Proof.
  rewrite fmap_app, <- !list_fmap_compose.
  induction repo as [|f repo IH]; [done|].
  rewrite !filter_cons.
  destruct (GitClone.GitFile.type f) eqn:Hty; cbn [type_text].
  - rewrite decide_False, decide_True by done.
    rewrite !fmap_cons. cbn [compose GitClone.file_body FileData.path].
    rewrite <- IH. symmetry. apply Permutation_middle.
  - rewrite decide_True, decide_False by done.
    rewrite !fmap_cons. cbn [compose GitClone.directory_body FileData.path app].
    by rewrite <- IH.
Qed.

(** X28: the import of a repository whose paths are pairwise distinct
    and free in the project, the generated ids being new and pairwise
    distinct and the router reading the project id back from the URL of
    the requests: no request rejects, the import runs to its end, and
    every file of the repository can be read: [getFile] returns its
    content, and its row has the length of the content as [size]. *)
Theorem import_then_getFile pid repo uuid now s :
  URL_pathname (GitClone.files_url pid) = CodeTools.files_pathname pid ->
  JS.split pid "/" = [pid] ->
  NoDup (GitClone.GitFile.path <$> repo) ->
  NoDup (uuid <$> seq 0 (length repo)) ->
  Forall (fun u => select_file_by_id u (files s) = [])
         (uuid <$> seq 0 (length repo)) ->
  Forall (fun p => select_file pid p (files s) = [])
         (GitClone.GitFile.path <$> repo) ->
  (GitClone.importGitFilesIntoProject URL_pathname pid repo uuid now s).1
  = None
  /\ forall f,
       f ∈ repo ->
       GitClone.GitFile.type f = file ->
       exists row,
         getFile pid (GitClone.GitFile.path f)
           (GitClone.importGitFilesIntoProject URL_pathname pid repo uuid now
                                               s).2
         = (Returns (Response.json
                       (Response.FileWithContent row
                          (GitClone.GitFile.content f))),
            (GitClone.importGitFilesIntoProject URL_pathname pid repo uuid
                                                now s).2)
         /\ FileNode.name row = GitClone.name_of (GitClone.GitFile.path f)
         /\ FileNode.type row = file
         /\ FileNode.size row
            = Z.of_nat (JS.length (GitClone.GitFile.content f)).
Proof.
  intros Hurl Hpid Hpaths Hids Hfresh Hfree.
  pose proof (import_bodies repo) as Hperm.
  set (dirs := filter (fun f => type_text (GitClone.GitFile.type f)
                                = "directory") repo) in *.
  set (regs := filter (fun f => type_text (GitClone.GitFile.type f)
                                = "file") repo) in *.
  set (bodies := (GitClone.directory_body <$> dirs)
                 ++ (GitClone.file_body <$> regs)) in *.
  assert (Himport :
    GitClone.importGitFilesIntoProject URL_pathname pid repo uuid now s
    = GitClone.post_all URL_pathname pid uuid now 0 bodies s).
  { unfold GitClone.importGitFilesIntoProject. cbv zeta.
    fold dirs regs. unfold bodies. rewrite post_all_app.
    rewrite length_fmap. cbn [Nat.add].
    by destruct (GitClone.post_all URL_pathname pid uuid now 0
                   (GitClone.directory_body <$> dirs) s) as [[e|] s']. }
  rewrite Himport.
  assert (Hlen : length bodies = length repo).
  { apply Permutation_length in Hperm. by rewrite !length_fmap in Hperm. }
  destruct (post_all_creates pid uuid now bodies 0 s Hurl Hpid)
    as (Hnone & _ & _ & _ & Hnew).
  - by rewrite Hperm.
  - by rewrite Hlen.
  - by rewrite Hlen.
  - by rewrite Hperm.
  - split; [exact Hnone|]. intros f Hin Htype.
    destruct (Hnew (GitClone.file_body f))
      as (row & rest & Hrow & Hblob & Hname & Hty & Hsize).
    + apply elem_of_app. right. apply list_elem_of_fmap_2.
      apply list_elem_of_filter. by rewrite Htype.
    + reflexivity.
    + cbn [GitClone.file_body FileData.path FileData.content FileData.name
           FileData.size] in *.
      rewrite content_or_empty in Hblob.
      exists row. unfold getFile. rewrite Hrow, Hblob. auto.
Qed.

(** A conflict stops the import: a request that meets a path which
    the project already has rejects, the loop ends there with the state
    as that request found it, and no later file is created. *)
Lemma post_all_conflict pid uuid now i s data rest :
  URL_pathname (GitClone.files_url pid) = CodeTools.files_pathname pid ->
  JS.split pid "/" = [pid] ->
  select_file pid (FileData.path data) (files s) <> [] ->
  exists e,
    GitClone.post_all URL_pathname pid uuid now i (data :: rest) s
    = (Some e, s).
Proof.
  intros Hurl Hpid Hrow. cbn [GitClone.post_all].
  unfold fetch. rewrite Hurl, dispatch_POST by done.
  destruct (createFile_throws pid data (uuid i) (now i) s Hrow) as [e ->].
  eauto.
Qed.

End GitImport.

(** ** The import on a scenario *)

Section ImportRuns.

Import ProjectManager.

Lemma import_then_getFile_witness :
  (GitClone.importGitFilesIntoProject URL.pathname "p" Scenario.repo
                                      Scenario.ids Scenario.clock init).1
  = None
  /\ exists row,
       getFile "p" "src/a.txt"
         (GitClone.importGitFilesIntoProject URL.pathname "p" Scenario.repo
                                             Scenario.ids Scenario.clock
                                             init).2
       = (Returns (Response.json (Response.FileWithContent row "x")),
          (GitClone.importGitFilesIntoProject URL.pathname "p" Scenario.repo
                                              Scenario.ids Scenario.clock
                                              init).2)
       /\ FileNode.name row = "a.txt"
       /\ FileNode.size row = 1.
Proof.
  destruct (import_then_getFile URL.pathname "p" Scenario.repo Scenario.ids
              Scenario.clock init) as [Hnone Hfiles].
  - reflexivity.
  - reflexivity.
  - refine (bool_decide_unpack _ _). vm_compute. exact I.
  - refine (bool_decide_unpack _ _). vm_compute. exact I.
  - vm_compute. repeat constructor.
  - vm_compute. repeat constructor.
  - split; [exact Hnone|].
    destruct (Hfiles {| GitClone.GitFile.path := "src/a.txt";
                        GitClone.GitFile.content := "x";
                        GitClone.GitFile.type := file |})
      as (row & Hget & Hname & _ & Hsize).
    + unfold Scenario.repo. rewrite !elem_of_cons. auto.
    + reflexivity.
    + exists row. auto.
Defined.

End ImportRuns.
